(** * ai-chatbot-demo-kit: context assembly and the streaming protocol

    A shallow embedding of
      - [server/services/aiService.ts]  (class [AIService]),
      - [server/routes/chatRoutes.ts]   (the [GET /stream/:messageId] handler),
      - the in-memory storage of the Express example,
    followed by the properties of the prompt that is assembled and of the
    sequence of server-sent events that is written.

    Conventions.
      - A promise is modelled by its outcome, [Resolved v] or [Rejected e].
      - An async generator is modelled by the list of values it yields and the
        way it completes (normal return, or a thrown error).
      - The Express response object is modelled by an explicit state [Res]
        that is threaded through the handler; every call made on it is
        appended to a trace.
      - JavaScript built-ins whose result is not computed by the repository
        ([JSON.stringify], [JSON.parse], [Number.prototype.toFixed]) are the
        fields of the class [JsRuntime]. *)

From Stdlib Require Import String Ascii ZArith Bool Arith Lia List.
From Stdlib Require Import PrimFloat SpecFloat FloatOps DecimalString.
Import ListNotations.
Local Open Scope list_scope.
Local Open Scope string_scope.
Set Warnings "-inexact-float".

(* ================================================================== *)
(** ** JavaScript helpers *)
(* ================================================================== *)

(** The line feed written [\n] in the template literals of the source. *)
Definition LF : string := String (ascii_of_nat 10) EmptyString.

(** Truthiness of a value of type [string | undefined]. *)
Definition truthy (o : option string) : bool :=
  match o with
  | Some s => negb (s =? "")
  | None => false
  end.

(** [a || b] on values of type [string | undefined]. *)
Definition js_or (a b : option string) : option string :=
  if truthy a then a else b.

(** [a || d] where [d] is a string literal. *)
Definition or_default (a : option string) (d : string) : string :=
  match a with
  | Some s => if s =? "" then d else s
  | None => d
  end.

(** Interpolation [`${v}`] of a value of type [string | undefined]. *)
Definition interpolate (o : option string) : string :=
  match o with
  | Some s => s
  | None => "undefined"
  end.

(** [arr.slice(-limit)]: the last [limit] elements; [slice(-0)] is
    [slice(0)], the whole array. *)
Definition slice_last {A : Type} (limit : nat) (arr : list A) : list A :=
  if (limit =? 0)%nat then arr else skipn (length arr - limit) arr.

(** A thrown JavaScript error object, as far as the code inspects it:
    [error.status], [error.code] and [error.message]. *)
Record JsError : Type := mkJsError {
  status : option Z;
  code : option string;
  message : option string
}.

(** [new Error(msg)]. *)
Definition new_Error (msg : string) : JsError :=
  {| status := None; code := None; message := Some msg |}.

(** The outcome of awaiting a promise. *)
Inductive Promise (A : Type) : Type :=
| Resolved (v : A)
| Rejected (e : JsError).
Arguments Resolved {A} v.
Arguments Rejected {A} e.

(* ================================================================== *)
(** ** Data model *)
(* ================================================================== *)

Inductive Role : Type := system | user | assistant.

(** [interface ChatCompletionMessage]. *)
Record ChatCompletionMessage : Type := mkMsg {
  role : Role;
  content : string
}.

(** An entry returned by [getRecentMessages]: the role is whatever string
    the storage holds. *)
Record HistoryEntry : Type := mkEntry {
  entry_role : string;
  entry_content : string
}.

(** [interface RetrievalResult] of ragService.ts (the [metadata] bag is not
    read by the code modelled here). *)
Record RetrievalResult : Type := mkDoc {
  title : string;
  doc_content : string;
  relevanceScore : float;
  doc_type : option string;
  href : option string
}.

(** The citation records pushed to [sources] by [buildContext]. *)
Record Source : Type := mkSource {
  source_type : string;
  source_title : string;
  source_href : option string;
  relevance : float
}.

(** [interface PageContext]: seven declared optional fields and an index
    signature [[key: string]: any]. The entries of the index signature are
    kept in the order of [Object.keys]. *)
Record PageContext (any : Type) : Type := mkPageContext {
  currentPage : option string;
  page : option string;
  route : option string;
  userRole : option string;
  recentActions : option (list string);
  navigationHistory : option (list string);
  timestamp : option string;
  custom : list (string * any)
}.
Arguments mkPageContext {any}.
Arguments currentPage {any}.
Arguments page {any}.
Arguments route {any}.
Arguments userRole {any}.
Arguments recentActions {any}.
Arguments navigationHistory {any}.
Arguments timestamp {any}.
Arguments custom {any}.

(** The built-ins of the JavaScript runtime used by the code. [JSON_parse]
    returns [None] when [JSON.parse] throws. *)
Class JsRuntime : Type := {
  any : Type;
  JSON_stringify : any -> string;
  JSON_parse : string -> option (PageContext any);
  toFixed0 : float -> string
}.

(** [interface RAGService], restricted to what [AIService] calls. *)
Record RAGService : Type := mkRAG {
  retrieveRelevantDocuments : string -> nat -> float -> Promise (list RetrievalResult);
  isAvailable : bool
}.

(** [interface ConversationHistory]. *)
Record ConversationHistory : Type := mkHistory {
  getRecentMessages : string -> nat -> Promise (list HistoryEntry)
}.

(** The request sent to [openai.chat.completions.create]. *)
Record CreateParams : Type := mkParams {
  cp_model : string;
  cp_messages : list ChatCompletionMessage;
  cp_stream : bool;
  cp_temperature : float;
  cp_max_tokens : Z
}.

(** What the generation backend does once its stream is iterated: the values
    of [chunk.choices[0]?.delta?.content] of the chunks it delivers, and the
    error it throws afterwards, if any. *)
Record BackendStream : Type := mkStream {
  deltas : list (option string);
  failure : option JsError
}.

(** The OpenAI client. *)
Record OpenAI : Type := mkOpenAI {
  chat_completions_create : CreateParams -> Promise BackendStream
}.

(** [interface AIServiceConfig]. *)
Record AIServiceConfig : Type := mkConfig {
  openaiApiKey : option string;
  model : option string;
  temperature : option float;
  maxTokens : option Z;
  systemPrompt : option string;
  enableRAG : option bool;
  ragService : option RAGService
}.

(** The private state of an [AIService]; the config holds the defaults merged
    by the constructor. *)
Record AIService : Type := mkService {
  openai : option OpenAI;
  isConfigured : bool;
  cfg_model : string;
  cfg_temperature : float;
  cfg_maxTokens : Z;
  cfg_systemPrompt : string;
  cfg_enableRAG : bool;
  cfg_ragService : option RAGService;
  conversationHistory : option ConversationHistory
}.

Definition DEFAULT_SYSTEM_PROMPT : string :=
  "You are a helpful AI assistant. You provide clear, accurate, and helpful responses to user questions." ++ LF ++
  LF ++
  "## Communication Style:" ++ LF ++
  "- Professional but approachable" ++ LF ++
  "- Action-oriented with practical guidance" ++ LF ++
  "- Clear and concise explanations" ++ LF ++
  "- Use bullet points for clarity when appropriate" ++ LF ++
  LF ++
  "## Response Format:" ++ LF ++
  "1. Brief summary answering the question" ++ LF ++
  "2. Detailed explanation or steps" ++ LF ++
  "3. Additional context or examples if helpful" ++ LF ++
  LF ++
  "When uncertain:" ++ LF ++
  "- Admit knowledge gaps honestly" ++ LF ++
  "- Offer alternatives or related information" ++ LF ++
  "- Never guess or make up information" ++ LF.

Definition from_option {A : Type} (o : option A) (d : A) : A :=
  match o with Some a => a | None => d end.

(** [constructor(config, conversationHistory?)]. [new_client] stands for
    [new OpenAI({ apiKey })]. *)
Definition AIService_new (new_client : string -> OpenAI)
    (config : AIServiceConfig) (history : option ConversationHistory) : AIService :=
  let apiKey := openaiApiKey config in
  let unset :=
    match apiKey with
    | None => true
    | Some k => (k =? "") || (k =? "sk-your-api-key-here")
    end in
  {| openai := if unset then None else option_map new_client apiKey;
     isConfigured := negb unset;
     cfg_model := from_option (model config) "gpt-4o-mini";
     cfg_temperature := from_option (temperature config) 0.7%float;
     cfg_maxTokens := from_option (maxTokens config) 1000%Z;
     cfg_systemPrompt := from_option (systemPrompt config) DEFAULT_SYSTEM_PROMPT;
     cfg_enableRAG := from_option (enableRAG config) false;
     cfg_ragService := ragService config;
     conversationHistory := history |}.

(* ================================================================== *)
(** ** aiService.ts: context assembly *)
(* ================================================================== *)

Section ContextAssembler.
Context {rt : JsRuntime}.

(** The separator passed to [navigationHistory.join]. *)
Definition ARROW : string := " â†’ ".

(** The keys that the generic rendering skips. *)
Definition RESERVED_KEYS : list string :=
  ["currentPage"; "page"; "route"; "userRole"; "navigationHistory";
   "recentActions"; "timestamp"].

(** [arr.includes(key)]. *)
Definition includes (arr : list string) (key : string) : bool :=
  existsb (String.eqb key) arr.

Definition key_if {A : Type} (name : string) (field : option A) : list string :=
  match field with Some _ => [name] | None => [] end.

(** [Object.keys(pageContext)]: the declared fields that are present and the
    keys of the index signature. The code reads its length, and visits its
    elements only to skip the declared ones, so the place of the declared
    fields in it is of no consequence. *)
Definition Object_keys (pageContext : PageContext any) : list string :=
  (key_if "currentPage" (currentPage pageContext) ++
   key_if "page" (page pageContext) ++
   key_if "route" (route pageContext) ++
   key_if "userRole" (userRole pageContext) ++
   key_if "recentActions" (recentActions pageContext) ++
   key_if "navigationHistory" (navigationHistory pageContext) ++
   key_if "timestamp" (timestamp pageContext) ++
   map fst (custom pageContext))%list.

(** The line appended for one entry of the index signature. The loop of the
    source runs over all of [Object.keys]; the declared fields never pass its
    test, so only the other entries are visited here. *)
Definition custom_line (contextText : string) (entry : string * any) : string :=
  if negb (includes RESERVED_KEYS (fst entry))
  then contextText ++ "- " ++ fst entry ++ ": " ++ JSON_stringify (snd entry) ++ LF
  else contextText.

Definition action_line (contextText action : string) : string :=
  contextText ++ "  * " ++ action ++ LF.

(** [private getPageContextPrompt(pageContext)]. *)
Definition getPageContextPrompt (pageContext : PageContext any) : string :=
  let contextText := "Current Context:" ++ LF in
  let currentPage_ :=
    js_or (js_or (currentPage pageContext) (page pageContext)) (route pageContext) in
  let contextText :=
    if truthy currentPage_
    then contextText ++ "- Page: " ++ interpolate currentPage_ ++ LF
    else contextText in
  let contextText :=
    if truthy (userRole pageContext)
    then contextText ++ "- User Role: " ++ interpolate (userRole pageContext) ++ LF
    else contextText in
  let contextText :=
    match navigationHistory pageContext with
    | Some ((_ :: _) as nav) =>
        contextText ++ "- Recent Pages: " ++ String.concat ARROW nav ++ LF
    | _ => contextText
    end in
  let contextText :=
    match recentActions pageContext with
    | Some ((_ :: _) as actions) =>
        fold_left action_line actions (contextText ++ "- Recent Actions:" ++ LF)
    | _ => contextText
    end in
  let contextText := fold_left custom_line (custom pageContext) contextText in
  contextText ++ LF ++ "Based on this context, provide relevant and specific assistance.".

(** The text accumulated for one retrieved document. *)
Definition rag_entry (ragContext : string) (doc : RetrievalResult) : string :=
  ragContext ++ "### " ++ title doc ++ LF ++
  doc_content doc ++ LF ++
  "*(Relevance: " ++ toFixed0 (relevanceScore doc * 100)%float ++ "%)*" ++ LF ++ LF.

Definition rag_segment (relevantDocs : list RetrievalResult) : string :=
  fold_left rag_entry relevantDocs
    ("**Relevant Information from Knowledge Base:**" ++ LF ++ LF)
  ++ LF ++ "Use this information to provide accurate guidance. Cite sources when relevant.".

Definition rag_source (doc : RetrievalResult) : Source :=
  {| source_type := or_default (doc_type doc) "knowledge-base";
     source_title := title doc;
     source_href := href doc;
     relevance := relevanceScore doc |}.

(** Step 2 of [buildContext]. *)
Definition page_segments (pageContext : option (PageContext any))
  : list ChatCompletionMessage :=
  match pageContext with
  | Some pc =>
      if (0 <? length (Object_keys pc))%nat
      then [ {| role := system; content := getPageContextPrompt pc |} ]
      else []
  | None => []
  end.

(** Step 3 of [buildContext]: the retrieval segment and the citations. A
    rejected retrieval lands in the [catch] and leaves both empty. *)
Definition rag_segments (svc : AIService) (userMessage : option string)
  : list ChatCompletionMessage * list Source :=
  match truthy userMessage && cfg_enableRAG svc, cfg_ragService svc with
  | true, Some rag =>
      match retrieveRelevantDocuments rag (interpolate userMessage) 3 0.6%float with
      | Resolved relevantDocs =>
          if (0 <? length relevantDocs)%nat
          then ([ {| role := system; content := rag_segment relevantDocs |} ],
                map rag_source relevantDocs)
          else ([], [])
      | Rejected _ => ([], [])
      end
  | _, _ => ([], [])
  end.

(** The test of the history loop and the segment it pushes. *)
Definition history_role (r : string) : option Role :=
  if r =? "user" then Some user
  else if r =? "assistant" then Some assistant
  else None.

Definition history_segment (msg : HistoryEntry) : list ChatCompletionMessage :=
  match history_role (entry_role msg) with
  | Some r => [ {| role := r; content := entry_content msg |} ]
  | None => []
  end.

Definition history_segments (history : list HistoryEntry) : list ChatCompletionMessage :=
  flat_map history_segment history.

(** Step 5 of [buildContext]. *)
Definition current_segments (userMessage : option string) : list ChatCompletionMessage :=
  if truthy userMessage
  then [ {| role := user; content := interpolate userMessage |} ]
  else [].

(** [private async buildContext(conversationId, pageContext?, userMessage?)].
    The result pairs the message array with its [ragSources] property. *)
Definition buildContext (svc : AIService) (conversationId : string)
    (pageContext : option (PageContext any)) (userMessage : option string)
  : Promise (list ChatCompletionMessage * list Source) :=
  let messages := [ {| role := system; content := cfg_systemPrompt svc |} ] in
  let messages := (messages ++ page_segments pageContext)%list in
  let (rag, sources) := rag_segments svc userMessage in
  let messages := (messages ++ rag)%list in
  match conversationHistory svc with
  | Some h =>
      match getRecentMessages h conversationId 10 with
      | Resolved history =>
          Resolved ((messages ++ history_segments history ++
                     current_segments userMessage)%list, sources)
      | Rejected e => Rejected e
      end
  | None => Resolved ((messages ++ current_segments userMessage)%list, sources)
  end.

End ContextAssembler.

(* ================================================================== *)
(** ** aiService.ts: the streaming adapter *)
(* ================================================================== *)

Section StreamingAdapter.
Context {rt : JsRuntime}.

(** A value yielded by [streamChatCompletion]:
    [string | { type: 'sources', sources: any[] }]. *)
Inductive StreamItem : Type :=
| Text (s : string)
| Sources (sources : list Source).

(** A run of an async generator: what it yields, in order, and the error it
    throws at the end ([None] when it returns). *)
Record Generator : Type := mkGen {
  yielded : list StreamItem;
  thrown : option JsError
}.

Definition mockResponses : list string :=
  [ "I understand your question. ";
    "Based on the current context, ";
    "I can help you with that. ";
    LF ++ LF ++ "Here are some key points:" ++ LF;
    "1. This is a mock response for demonstration" ++ LF;
    "2. Configure OpenAI API key for real responses" ++ LF;
    "3. I'm ready to help once configured" ++ LF ++ LF;
    "Would you like more information?" ].

(** [private async *mockStreamResponse(userMessage, pageContext?)]. The
    50 ms pause before each fragment has no effect on what is yielded. *)
Definition mockStreamResponse (userMessage : string)
    (pageContext : option (PageContext any)) : Generator :=
  {| yielded := map Text mockResponses; thrown := None |}.

Definition FALLBACK_MESSAGE : string :=
  "I apologize, but I was unable to generate a response. Please try rephrasing your question.".

Definition RATE_LIMIT_MESSAGE : string :=
  "I'm receiving too many requests right now. Please wait a moment and try again.".
Definition AUTH_MESSAGE : string :=
  "API authentication failed. Please contact your administrator.".
Definition UNAVAILABLE_MESSAGE : string :=
  "The AI service is temporarily unavailable. Please try again in a few moments.".
Definition QUOTA_MESSAGE : string :=
  "API usage limit reached. Please contact your administrator.".
Definition TIMEOUT_MESSAGE : string :=
  "Request timed out. Please check your connection and try again.".
Definition unknown_message (error : JsError) : string :=
  "Unable to process your request: " ++ or_default (message error) "Unknown error"
  ++ ". Please try again.".

Definition status_is (error : JsError) (n : Z) : bool :=
  match status error with Some s => (s =? n)%Z | None => false end.
Definition status_ge (error : JsError) (n : Z) : bool :=
  match status error with Some s => (n <=? s)%Z | None => false end.
Definition code_is (error : JsError) (c : string) : bool :=
  match code error with Some s => s =? c | None => false end.

(** The [catch] block of [streamChatCompletion]: the message of the error
    that is thrown in place of the one caught. *)
Definition normalized_message (error : JsError) : string :=
  if status_is error 429 then RATE_LIMIT_MESSAGE
  else if status_is error 401 then AUTH_MESSAGE
  else if status_ge error 500 then UNAVAILABLE_MESSAGE
  else if code_is error "insufficient_quota" then QUOTA_MESSAGE
  else if code_is error "ETIMEDOUT" || code_is error "ECONNABORTED" then TIMEOUT_MESSAGE
  else unknown_message error.

(** The fragments yielded by the loop over the backend stream:
    [content = delta || ''], yielded when non-empty. *)
Definition delta_content (d : option string) : string := or_default d "".

Definition nonempty (s : string) : bool := negb (s =? "").

Definition backend_contents (ds : list (option string)) : list string :=
  filter nonempty (map delta_content ds).

Definition create_params (svc : AIService) (messages : list ChatCompletionMessage)
  : CreateParams :=
  {| cp_model := cfg_model svc;
     cp_messages := messages;
     cp_stream := true;
     cp_temperature := cfg_temperature svc;
     cp_max_tokens := cfg_maxTokens svc |}.

(** The [try] block of [streamChatCompletion], with the error it throws left
    as the code below it receives it. *)
Definition stream_try (svc : AIService) (conversationId userMessage : string)
    (pageContext : option (PageContext any)) : Generator :=
  match isConfigured svc, openai svc with
  | true, Some client =>
      match buildContext svc conversationId pageContext (Some userMessage) with
      | Rejected e => {| yielded := []; thrown := Some e |}
      | Resolved (messages, ragSources) =>
          match chat_completions_create client (create_params svc messages) with
          | Rejected e => {| yielded := []; thrown := Some e |}
          | Resolved stream =>
              let contents := backend_contents (deltas stream) in
              match failure stream with
              | Some e => {| yielded := map Text contents; thrown := Some e |}
              | None =>
                  let hasContent := (0 <? length contents)%nat in
                  let fallback := if hasContent then [] else [Text FALLBACK_MESSAGE] in
                  let sources :=
                    if (0 <? length ragSources)%nat then [Sources ragSources] else [] in
                  {| yielded := (map Text contents ++ fallback ++ sources)%list;
                     thrown := None |}
              end
          end
      end
  | _, _ => mockStreamResponse userMessage pageContext
  end.

(** [async *streamChatCompletion(conversationId, userMessage, pageContext?)]:
    whatever the [try] block throws is replaced by [new Error(...)]. *)
Definition streamChatCompletion (svc : AIService) (conversationId userMessage : string)
    (pageContext : option (PageContext any)) : Generator :=
  let run := stream_try svc conversationId userMessage pageContext in
  {| yielded := yielded run;
     thrown := option_map (fun error => new_Error (normalized_message error)) (thrown run) |}.

End StreamingAdapter.

(* ================================================================== *)
(** ** chatRoutes.ts: GET /stream/:messageId *)
(* ================================================================== *)

(** The objects passed to [JSON.stringify] before [res.write]; each is
    framed on the wire as [data: <json>] followed by an empty line. The
    [message] of an error event is absent when the caught value has none. *)
Inductive WireRecord : Type :=
| chunk (content : string)
| sources_event (sources : list Source)
| done
| error_event (message : option string).

(** The calls a request makes on the response object, and the pulls of the
    [for await] loop on the adapter. *)
Inductive Action : Type :=
| SetHeader (name value : string)
| FlushHeaders
| SendJson (statusCode : nat) (error : string)
| Next
| Write (r : WireRecord)
| End.

(** The response: [headersSent], the trace of the request so far (oldest
    first), the records that reached the client, and, once the client has
    gone away, the length of the trace at that moment. *)
Record Res : Type := mkRes {
  headersSent : bool;
  trace : list Action;
  received : list WireRecord;
  closedAt : option nat
}.

Definition fresh_response : Res :=
  {| headersSent := false; trace := []; received := []; closedAt := None |}.

Definition log (a : Action) (res : Res) : Res :=
  {| headersSent := headersSent res;
     trace := (trace res ++ [a])%list;
     received := received res;
     closedAt := closedAt res |}.

(** The client: it goes away as soon as it has received [disconnectAfter]
    records ([None]: it stays to the end). *)
Definition client_step (disconnectAfter : option nat) (res : Res) : Res :=
  match closedAt res, disconnectAfter with
  | None, Some n =>
      if (length (received res) =? n)%nat
      then {| headersSent := headersSent res;
              trace := trace res;
              received := received res;
              closedAt := Some (length (trace res)) |}
      else res
  | _, _ => res
  end.

Definition res_setHeader (name value : string) (res : Res) : Res :=
  log (SetHeader name value) res.

Definition res_flushHeaders (disconnectAfter : option nat) (res : Res) : Res :=
  let res := log FlushHeaders res in
  client_step disconnectAfter
    {| headersSent := true; trace := trace res;
       received := received res; closedAt := closedAt res |}.

(** [res.status(code).json({ error })]. *)
Definition res_status_json (statusCode : nat) (error : string) (res : Res) : Res :=
  let res := log (SendJson statusCode error) res in
  {| headersSent := true; trace := trace res;
     received := received res; closedAt := closedAt res |}.

(** [res.write(record)]: the call never throws; once the socket is gone the
    data is dropped. *)
Definition res_write (disconnectAfter : option nat) (r : WireRecord) (res : Res) : Res :=
  let res := log (Write r) res in
  match closedAt res with
  | Some _ =>
      {| headersSent := true; trace := trace res;
         received := received res; closedAt := closedAt res |}
  | None =>
      client_step disconnectAfter
        {| headersSent := true; trace := trace res;
           received := (received res ++ [r])%list; closedAt := None |}
  end.

Definition res_end (res : Res) : Res := log End res.

(** The message table of the Express example and the storage interface the
    routes consume ([createdAt] is not read by the stream endpoint). *)
Record StoredMessage : Type := mkStored {
  msg_id : string;
  msg_conversationId : string;
  msg_role : string;
  msg_content : string
}.

Record ConversationStorage : Type := mkStorage {
  getMessage : string -> Promise (option StoredMessage);
  storage_getRecentMessages : string -> nat -> Promise (list HistoryEntry)
}.

(** A storage object passed as the [conversationHistory] of the service. *)
Definition as_history (storage : ConversationStorage) : ConversationHistory :=
  {| getRecentMessages := storage_getRecentMessages storage |}.

(** [ChatRoutesConfig], and how long the client of the request stays. *)
Record ChatRoutesConfig : Type := mkRoutes {
  aiService : AIService;
  storage : ConversationStorage;
  disconnectAfter : option nat
}.

Record Request : Type := mkRequest {
  messageId : string;
  contextParam : option string
}.

Section SessionProtocolHandler.
Context {rt : JsRuntime}.

(** [let pageContext = {}]. *)
Definition emptyContext : PageContext any :=
  mkPageContext None None None None None None None [].

(** Lines 104-111: a context that does not parse leaves [{}]. *)
Definition parse_context (contextParam : option string) : PageContext any :=
  if truthy contextParam
  then match JSON_parse (interpolate contextParam) with
       | Some parsed => parsed
       | None => emptyContext
       end
  else emptyContext.

(** The body of the [for await] loop. *)
Definition on_item (d : option nat) (res : Res) (item : StreamItem) : Res :=
  let res := log Next res in
  match item with
  | Text s => res_write d (chunk s) res
  | Sources srcs => res_write d (sources_event srcs) res
  end.

(** The inner [try] block (lines 139-165): the loop, then [done] and
    [res.end()]; a rejected pull leaves the block with the error. The
    variable [fullResponse] is accumulated by the loop and never read (the
    update of the stored message is commented out), so it is left out. *)
Definition stream_body (d : option nat) (stream : Generator) (res : Res)
  : Res * option JsError :=
  let res := fold_left (on_item d) (yielded stream) res in
  let res := log Next res in
  match thrown stream with
  | Some streamError => (res, Some streamError)
  | None => (res_end (res_write d done res), None)
  end.

(** The inner [try]/[catch] (lines 138-170). *)
Definition stream_response (d : option nat) (stream : Generator) (res : Res)
  : Res * option JsError :=
  match stream_body d stream res with
  | (res, Some streamError) =>
      (res_end (res_write d (error_event (message streamError)) res), None)
  | (res, None) => (res, None)
  end.

Definition is_user (m : HistoryEntry) : bool := entry_role m =? "user".

(** Lines 131-134: the three headers, then [res.flushHeaders()]. *)
Definition open_channel (d : option nat) (res : Res) : Res :=
  let res := res_setHeader "Content-Type" "text/event-stream" res in
  let res := res_setHeader "Cache-Control" "no-cache" res in
  let res := res_setHeader "Connection" "keep-alive" res in
  res_flushHeaders d res.

(** The outer [try] block (lines 113-170). *)
Definition stream_endpoint_try (config : ChatRoutesConfig) (req : Request)
    (pageContext : PageContext any) (res : Res) : Res * option JsError :=
  match getMessage (storage config) (messageId req) with
  | Rejected e => (res, Some e)
  | Resolved None => (res_status_json 404 "Message not found" res, None)
  | Resolved (Some message) =>
      let conversationId := msg_conversationId message in
      match storage_getRecentMessages (storage config) conversationId 10 with
      | Rejected e => (res, Some e)
      | Resolved recentMessages =>
          match find is_user (rev recentMessages) with
          | None => (res_status_json 400 "No user message found" res, None)
          | Some lastUserMessage =>
              let d := disconnectAfter config in
              let res := open_channel d res in
              stream_response d
                (streamChatCompletion (aiService config) conversationId
                   (entry_content lastUserMessage) (Some pageContext))
                res
          end
      end
  end.

(** [router.get("/stream/:messageId", ...)]: the outer [try]/[catch]. *)
Definition stream_endpoint (config : ChatRoutesConfig) (req : Request) : Res :=
  let pageContext := parse_context (contextParam req) in
  match stream_endpoint_try config req pageContext fresh_response with
  | (res, None) => res
  | (res, Some error) =>
      if negb (headersSent res)
      then res_status_json 500 "Failed to stream response" res
      else res_end (res_write (disconnectAfter config)
                      (error_event (message error)) res)
  end.

End SessionProtocolHandler.

(* ================================================================== *)
(** ** The in-memory storage of the Express example *)
(* ================================================================== *)

(** [const messages = new Map()]: conversation id to message array, in
    insertion order. *)
Definition MessageTable : Type := list (string * list StoredMessage).

(** [messages.get(conversationId) || []]. *)
Fixpoint table_get (messages : MessageTable) (conversationId : string)
  : list StoredMessage :=
  match messages with
  | [] => []
  | (k, msgs) :: rest =>
      if k =? conversationId then msgs else table_get rest conversationId
  end.

(** [getMessage(id)] of the example. *)
Fixpoint memory_getMessage (messages : MessageTable) (id : string)
  : option StoredMessage :=
  match messages with
  | [] => None
  | (_, msgs) :: rest =>
      match find (fun m => msg_id m =? id) msgs with
      | Some message => Some message
      | None => memory_getMessage rest id
      end
  end.

(** [getRecentMessages(conversationId, limit)] of the example. *)
Definition memory_getRecentMessages (messages : MessageTable)
    (conversationId : string) (limit : nat) : list HistoryEntry :=
  map (fun m => {| entry_role := msg_role m; entry_content := msg_content m |})
      (slice_last limit (table_get messages conversationId)).

Definition memory_storage (messages : MessageTable) : ConversationStorage :=
  {| getMessage := fun id => Resolved (memory_getMessage messages id);
     storage_getRecentMessages :=
       fun conversationId limit =>
         Resolved (memory_getRecentMessages messages conversationId limit) |}.

(* ================================================================== *)
(** ** Observations on runs *)
(* ================================================================== *)

(** The fragments among the values yielded by the adapter. *)
Definition texts_of (items : list StreamItem) : list string :=
  flat_map (fun i => match i with Text s => [s] | Sources _ => [] end) items.

(** The text that the chunks of a backend stream carry, in the words of the
    specification: the fragments that are present and not empty, in the
    order of the chunks. *)
Definition spec_nonempty_fragments (ds : list (option string)) : list string :=
  flat_map (fun d => match d with
                     | Some s => if s =? "" then [] else [s]
                     | None => []
                     end) ds.

Definition is_sources_item (i : StreamItem) : bool :=
  match i with Sources _ => true | Text _ => false end.

(** The records passed to [res.write], in order. *)
Definition writes (t : list Action) : list WireRecord :=
  flat_map (fun a => match a with Write r => [r] | _ => [] end) t.

Definition is_terminal (r : WireRecord) : bool :=
  match r with
  | done | error_event _ => true
  | chunk _ | sources_event _ => false
  end.

Definition is_error_event (r : WireRecord) : bool :=
  match r with error_event _ => true | _ => false end.

Definition is_done (r : WireRecord) : bool :=
  match r with done => true | _ => false end.

Definition is_send_json (a : Action) : bool :=
  match a with SendJson _ _ => true | _ => false end.

(** A recogniser of [chunk* sources? (done|error)]. *)
Definition terminal_only (l : list WireRecord) : bool :=
  match l with
  | [r] => is_terminal r
  | _ => false
  end.

Fixpoint wire_grammar (l : list WireRecord) : bool :=
  match l with
  | chunk _ :: rest => wire_grammar rest
  | sources_event _ :: rest => terminal_only rest
  | _ => terminal_only l
  end.

(** The number of error events among the records written. *)
Definition error_events (t : list Action) : nat :=
  length (filter is_error_event (writes t)).

(** The same routes, with another behaviour of the client. *)
Definition with_disconnect (d : option nat) (config : ChatRoutesConfig)
  : ChatRoutesConfig :=
  {| aiService := aiService config; storage := storage config; disconnectAfter := d |}.

(** The adapter is pulled, or a record is written. *)
Definition is_pull_or_write (a : Action) : bool :=
  match a with
  | Next | Write _ => true
  | _ => false
  end.

(** What the handler does after the client has gone away. *)
Definition after_disconnect (res : Res) : list Action :=
  match closedAt res with
  | Some n => skipn n (trace res)
  | None => []
  end.

(** What reached the client agrees with the trace: everything written
    while the client is there, and, once it has gone away after
    [disconnectAfter] records, what was written up to that moment. *)
Definition client_consistent (d : option nat) (res : Res) : Prop :=
  match closedAt res with
  | None => received res = writes (trace res)
  | Some k =>
      k <= length (trace res) /\
      received res = writes (firstn k (trace res)) /\
      d = Some (length (received res))
  end.

(** The client, if it went away, did so before the last call of the trace. *)
Definition closed_before_end (res : Res) : Prop :=
  forall k, closedAt res = Some k -> k < length (trace res).

(** The same service with another retrieval collaborator. *)
Definition with_ragService (rag : option RAGService) (svc : AIService) : AIService :=
  {| openai := openai svc;
     isConfigured := isConfigured svc;
     cfg_model := cfg_model svc;
     cfg_temperature := cfg_temperature svc;
     cfg_maxTokens := cfg_maxTokens svc;
     cfg_systemPrompt := cfg_systemPrompt svc;
     cfg_enableRAG := cfg_enableRAG svc;
     cfg_ragService := rag;
     conversationHistory := conversationHistory svc |}.

(** The persona segment of a service. *)
Definition persona_segment (svc : AIService) : ChatCompletionMessage :=
  {| role := system; content := cfg_systemPrompt svc |}.

(** The [n] most recent of the messages stored for a conversation, oldest
    first, in the words of the specification. *)
Definition spec_last (n : nat) (stored : list StoredMessage) : list StoredMessage :=
  skipn (length stored - n) stored.

(** The history segments in the words of the specification, for the
    entries a collaborator returns: one segment per entry under the role of
    the entry, in the order returned, the entries whose role is neither
    [user] nor [assistant] left out. *)
Definition spec_entry_ok (e : HistoryEntry) : bool :=
  (entry_role e =? "user") || (entry_role e =? "assistant").

Definition spec_entry_segment (e : HistoryEntry) : ChatCompletionMessage :=
  {| role := if entry_role e =? "user" then user else assistant;
     content := entry_content e |}.

Definition spec_history_segments (history : list HistoryEntry)
  : list ChatCompletionMessage :=
  map spec_entry_segment (filter spec_entry_ok history).

(** The outcome of the validation steps of the endpoint. *)
Inductive Validation : Type :=
| StorageFails (e : JsError)
| MessageNotFound
| NoUserMessage
| Valid (conversationId userMessage : string).

Definition validate (storage : ConversationStorage) (messageId : string) : Validation :=
  match getMessage storage messageId with
  | Rejected e => StorageFails e
  | Resolved None => MessageNotFound
  | Resolved (Some message) =>
      match storage_getRecentMessages storage (msg_conversationId message) 10 with
      | Rejected e => StorageFails e
      | Resolved recentMessages =>
          match find (fun m => entry_role m =? "user") (rev recentMessages) with
          | None => NoUserMessage
          | Some lastUserMessage =>
              Valid (msg_conversationId message) (entry_content lastUserMessage)
          end
      end
  end.

(** The trace of a streamed response, from the first header on. *)
Definition item_record (i : StreamItem) : WireRecord :=
  match i with
  | Text s => chunk s
  | Sources srcs => sources_event srcs
  end.

Definition terminal_record (stream : Generator) : WireRecord :=
  match thrown stream with
  | Some e => error_event (message e)
  | None => done
  end.

Definition sse_headers : list Action :=
  [ SetHeader "Content-Type" "text/event-stream";
    SetHeader "Cache-Control" "no-cache";
    SetHeader "Connection" "keep-alive";
    FlushHeaders ].

Definition stream_trace (stream : Generator) : list Action :=
  (flat_map (fun i => [Next; Write (item_record i)]) (yielded stream)
   ++ [Next; Write (terminal_record stream); End])%list.

Section RunObservations.
Context {rt : JsRuntime}.

(** The call made to the generation backend in a run of the adapter, with
    its outcome: [None] when the service is not configured or the context
    assembly fails, so that no call is made. *)
Definition backend_call (svc : AIService) (conversationId userMessage : string)
    (pageContext : option (PageContext any)) : option (Promise BackendStream) :=
  match isConfigured svc, openai svc with
  | true, Some client =>
      match buildContext svc conversationId pageContext (Some userMessage) with
      | Resolved (messages, _) =>
          Some (chat_completions_create client (create_params svc messages))
      | Rejected _ => None
      end
  | _, _ => None
  end.

(** The error reported by the backend in that run: by the call itself or
    while its stream is iterated. *)
Definition backend_failure (svc : AIService) (conversationId userMessage : string)
    (pageContext : option (PageContext any)) : option JsError :=
  match backend_call svc conversationId userMessage pageContext with
  | Some (Rejected e) => Some e
  | Some (Resolved stream) => failure stream
  | None => None
  end.

(** The error raised while a request is processed inside the outer [try]
    block, if any: a rejected storage call, or the error thrown by the
    adapter once the response is streamed. *)
Definition raised_error (config : ChatRoutesConfig) (req : Request) : option JsError :=
  match validate (storage config) (messageId req) with
  | StorageFails e => Some e
  | Valid conversationId userMessage =>
      thrown (streamChatCompletion (aiService config) conversationId userMessage
                (Some (parse_context (contextParam req))))
  | MessageNotFound | NoUserMessage => None
  end.

(** [line] occurs in [text]. *)
Definition contains_line (text line : string) : Prop :=
  exists before after, text = before ++ line ++ after.

(** The same, decided. *)
Fixpoint occurs (line text : string) : bool :=
  String.prefix line text ||
  match text with
  | EmptyString => false
  | String _ rest => occurs line rest
  end.

Definition concat_all (lines : list string) : string :=
  fold_right append "" lines.

(** The text of the page context segment, line by line: the labelled lines
    of the declared fields, then one generic line per other entry. *)
Definition labelled_page_line (pc : PageContext any) : string :=
  match js_or (js_or (currentPage pc) (page pc)) (route pc) with
  | Some p => if p =? "" then "" else "- Page: " ++ p ++ LF
  | None => ""
  end.

Definition labelled_role_line (pc : PageContext any) : string :=
  match userRole pc with
  | Some r => if r =? "" then "" else "- User Role: " ++ r ++ LF
  | None => ""
  end.

Definition labelled_nav_line (pc : PageContext any) : string :=
  match navigationHistory pc with
  | Some ((_ :: _) as nav) => "- Recent Pages: " ++ String.concat ARROW nav ++ LF
  | _ => ""
  end.

Definition labelled_action_lines (pc : PageContext any) : string :=
  match recentActions pc with
  | Some ((_ :: _) as actions) =>
      "- Recent Actions:" ++ LF
      ++ concat_all (map (fun action => "  * " ++ action ++ LF) actions)
  | _ => ""
  end.

Definition generic_line (entry : string * any) : string :=
  "- " ++ fst entry ++ ": " ++ JSON_stringify (snd entry) ++ LF.

Definition generic_lines (pc : PageContext any) : string :=
  concat_all
    (map generic_line
       (filter (fun entry => negb (includes RESERVED_KEYS (fst entry))) (custom pc))).

Definition page_context_lines (pc : PageContext any) : string :=
  "Current Context:" ++ LF
  ++ labelled_page_line pc ++ labelled_role_line pc ++ labelled_nav_line pc
  ++ labelled_action_lines pc ++ generic_lines pc
  ++ LF ++ "Based on this context, provide relevant and specific assistance.".

(** The same page context with another [timestamp]. *)
Definition with_timestamp (t : option string) (pc : PageContext any) : PageContext any :=
  mkPageContext (currentPage pc) (page pc) (route pc) (userRole pc)
    (recentActions pc) (navigationHistory pc) t (custom pc).

(** The test [!this.isConfigured || !this.openai] of the adapter. *)
Definition unconfigured (svc : AIService) : bool :=
  negb (isConfigured svc) || match openai svc with Some _ => false | None => true end.

End RunObservations.

(** The keys that have a label of their own in the page context segment. *)
Definition LABELLED_KEYS : list string :=
  ["currentPage"; "page"; "route"; "userRole"; "navigationHistory"; "recentActions"].

(** The messages the [catch] block of the adapter chooses from. *)
Definition FIXED_MESSAGES : list string :=
  [ RATE_LIMIT_MESSAGE; AUTH_MESSAGE; UNAVAILABLE_MESSAGE; QUOTA_MESSAGE;
    TIMEOUT_MESSAGE ].

(* ================================================================== *)
(** ** Fixtures for the examples *)
(* ================================================================== *)

(** [x.toFixed(0)] for the examples: the integer nearest to [x], the larger
    one on a tie, computed on the exact value of the float (magnitudes from
    1e21 on, which JavaScript prints with an exponent, do not occur). *)
Definition example_decimal (n : Z) : string :=
  NilEmpty.string_of_uint (N.to_uint (Z.to_N n)).

Definition example_round (m : positive) (e : Z) : Z :=
  if (0 <=? e)%Z
  then (Z.pos m * 2 ^ e)%Z
  else ((2 * Z.pos m + 2 ^ (- e)) / 2 ^ (1 - e))%Z.

Definition example_toFixed0 (x : float) : string :=
  match Prim2SF x with
  | S754_nan => "NaN"
  | S754_infinity false => "Infinity"
  | S754_infinity true => "-Infinity"
  | S754_zero _ => "0"
  | S754_finite sign m e =>
      (if sign then "-" else "") ++ example_decimal (example_round m e)
  end.

(** A runtime for the examples: values of the index signature are held as
    their JSON text, and only the text [{}] parses. *)
#[local] Instance example_runtime : JsRuntime :=
  {| any := string;
     JSON_stringify := fun v => v;
     JSON_parse := fun s =>
       if s =? "{}" then Some (mkPageContext None None None None None None None [])
       else None;
     toFixed0 := example_toFixed0 |}.

Definition example_new_client (backend : Promise BackendStream) (apiKey : string) : OpenAI :=
  {| chat_completions_create := fun _ => backend |}.

Definition example_config (apiKey : option string) : AIServiceConfig :=
  {| openaiApiKey := apiKey; model := None; temperature := None; maxTokens := None;
     systemPrompt := None; enableRAG := None; ragService := None |}.

(** One conversation holding a user message and its placeholder. *)
Definition example_table : MessageTable :=
  [ ("conv-1",
     [ {| msg_id := "msg-1"; msg_conversationId := "conv-1";
          msg_role := "user"; msg_content := "Hello" |};
       {| msg_id := "msg-2"; msg_conversationId := "conv-1";
          msg_role := "assistant"; msg_content := "" |} ]) ].

(** A conversation of twelve stored messages, the ninth of them under a
    role that is neither [user] nor [assistant], beside another
    conversation. *)
Definition example_stored (n : string) (r : string) : StoredMessage :=
  {| msg_id := "m" ++ n; msg_conversationId := "conv-long";
     msg_role := r; msg_content := "text " ++ n |}.

Definition example_long_conversation : list StoredMessage :=
  [ example_stored "1" "user"; example_stored "2" "assistant";
    example_stored "3" "user"; example_stored "4" "assistant";
    example_stored "5" "user"; example_stored "6" "assistant";
    example_stored "7" "user"; example_stored "8" "assistant";
    example_stored "9" "tool"; example_stored "10" "assistant";
    example_stored "11" "user"; example_stored "12" "assistant" ].

Definition example_long_table : MessageTable :=
  [ ("conv-0", [ example_stored "0" "user" ]);
    ("conv-long", example_long_conversation) ].

(** A history collaborator that returns the whole conversation, twenty
    entries, whatever limit it is asked for. *)
Definition example_twenty_entries : list HistoryEntry :=
  map (fun n => {| entry_role := if Nat.even n then "user" else "assistant";
                   entry_content := "turn" |})
      (seq 0 20).

Definition example_unbounded_history : ConversationHistory :=
  {| getRecentMessages := fun _ _ => Resolved example_twenty_entries |}.

(** A service with a key, whose backend behaves as [backend]. *)
Definition example_service (backend : Promise BackendStream) : AIService :=
  AIService_new (example_new_client backend) (example_config (Some "sk-live"))
    (Some (as_history (memory_storage example_table))).

(** Services with a key over the long conversation and over the
    collaborator that does not bound its answer. *)
Definition example_long_service : AIService :=
  AIService_new (example_new_client (Resolved (mkStream [Some "ok"] None)))
    (example_config (Some "sk-live"))
    (Some (as_history (memory_storage example_long_table))).

Definition example_unbounded_service : AIService :=
  AIService_new (example_new_client (Resolved (mkStream [Some "ok"] None)))
    (example_config (Some "sk-live")) (Some example_unbounded_history).

(** A service without a key. *)
Definition example_demo_service : AIService :=
  AIService_new (example_new_client (Resolved (mkStream [] None))) (example_config None)
    (Some (as_history (memory_storage example_table))).

Definition example_routes (backend : Promise BackendStream) (d : option nat)
  : ChatRoutesConfig :=
  {| aiService := example_service backend;
     storage := memory_storage example_table;
     disconnectAfter := d |}.

Definition example_request : Request :=
  {| messageId := "msg-2"; contextParam := None |}.

(** A backend that answers with the texts of the user segments of the
    request it receives, one fragment per segment, and the routes of a
    service that uses it over the storage the routes use. *)
Definition example_echo_client : OpenAI :=
  {| chat_completions_create :=
       fun params =>
         Resolved
           {| deltas :=
                map (fun m => Some (content m))
                    (filter (fun m => match role m with user => true | _ => false end)
                            (cp_messages params));
              failure := None |} |}.

Definition example_echo_routes : ChatRoutesConfig :=
  {| aiService :=
       AIService_new (fun _ => example_echo_client) (example_config (Some "sk-live"))
         (Some (as_history (memory_storage example_table)));
     storage := memory_storage example_table;
     disconnectAfter := None |}.

(** A backend error with an authentication status. *)
Definition example_auth_error : JsError :=
  {| status := Some 401%Z; code := Some "invalid_api_key";
     message := Some "Incorrect API key provided" |}.

(** A backend that delivers three fragments and completes. *)
Definition example_three_fragments : Promise BackendStream :=
  Resolved {| deltas := [Some "a"; Some "b"; Some "c"]; failure := None |}.

(** Scenario C: the fragments [Hel] and [lo], among empty deltas. *)
Definition example_hello : Promise BackendStream :=
  Resolved {| deltas := [Some "Hel"; None; Some ""; Some "lo"]; failure := None |}.

(** A backend whose stream completes without any text. *)
Definition example_silent : BackendStream :=
  {| deltas := [None; Some ""]; failure := None |}.

(** Retrieval collaborators: one whose connection fails, as
    [ChromaRAGService.initialize] does, one that finds nothing, and one that
    finds a passage at relevance 0.8. *)
Definition example_rag_failing : RAGService :=
  {| retrieveRelevantDocuments := fun _ _ _ =>
       Rejected (new_Error "Failed to connect to vector database. Ensure Chroma is running.");
     isAvailable := false |}.

Definition example_rag_empty : RAGService :=
  {| retrieveRelevantDocuments := fun _ _ _ => Resolved []; isAvailable := true |}.

Definition example_doc : RetrievalResult :=
  {| title := "Refunds"; doc_content := "Refunds take five days.";
     relevanceScore := 0.8%float; doc_type := None; href := None |}.

Definition example_rag_one : RAGService :=
  {| retrieveRelevantDocuments := fun _ _ _ => Resolved [example_doc];
     isAvailable := true |}.

(** A configured service with retrieval enabled. *)
Definition example_rag_service (rag : RAGService) (backend : Promise BackendStream)
  : AIService :=
  AIService_new (example_new_client backend)
    {| openaiApiKey := Some "sk-live"; model := None; temperature := None;
       maxTokens := None; systemPrompt := None; enableRAG := Some true;
       ragService := Some rag |}
    (Some (as_history (memory_storage example_table))).

(** A page context that holds nothing but a timestamp, and one with a
    custom entry besides. *)
Definition example_timestamp_context : PageContext any :=
  mkPageContext None None None None None None (Some "2024-05-01T10:00:00Z") [].

Definition example_page_context : PageContext any :=
  mkPageContext None (Some "/billing") None (Some "admin") None
    (Some ["/home"; "/billing"]) (Some "2024-05-01T10:00:00Z")
    [("plan", "{}")].

(* ================================================================== *)
(** ** chatRoutes.ts: the other routes *)
(* ================================================================== *)

(** A conversation as the storage returns it; [createdAt] is the time of
    the [Date], in milliseconds. *)
Record Conversation : Type := mkConversation {
  conv_id : string;
  conv_title : string;
  conv_createdAt : N
}.

(** The operations of [ConversationStorage] that write or that the other
    routes read, over the state [S] of the storage: each returns the
    outcome of its promise and the state it leaves. *)
Record StorageOps (S : Type) : Type := mkOps {
  createConversation : string -> S -> Promise Conversation * S;
  getConversation : string -> S -> Promise (option Conversation) * S;
  createMessage : string -> string -> string -> S -> Promise StoredMessage * S;
  recentMessages : string -> nat -> S -> Promise (list HistoryEntry) * S
}.
Arguments createConversation {S}.
Arguments getConversation {S}.
Arguments createMessage {S}.
Arguments recentMessages {S}.

(** The argument of [res.json]. *)
Inductive Body : Type :=
| ErrorBody (error : string)
| ConversationCreated (id title : string) (createdAt : N)
| ConversationBody (conversation : Conversation)
| MessageCreated (messageId userMessageId streamUrl : string)
| HistoryBody (messages : list HistoryEntry)
| StatusBody (aiConfigured ragAvailable : bool).

(** A JSON response: [res.status(code).json(body)], or [res.json(body)]
    with status 200. *)
Record Reply : Type := mkReply {
  reply_status : nat;
  reply_body : Body
}.

Section OtherRoutes.
Context {S : Type} (ops : StorageOps S).

(** [router.post("/conversations", ...)]; [title] is [req.body.title]. *)
Definition post_conversations (title : option string) (s : S) : Reply * S :=
  match createConversation ops (or_default title "New Conversation") s with
  | (Resolved conversation, s) =>
      ({| reply_status := 200;
          reply_body := ConversationCreated (conv_id conversation)
                          (conv_title conversation) (conv_createdAt conversation) |}, s)
  | (Rejected _, s) =>
      ({| reply_status := 500;
          reply_body := ErrorBody "Failed to create conversation" |}, s)
  end.

(** [router.get("/conversations/:id", ...)]. *)
Definition get_conversation (id : string) (s : S) : Reply * S :=
  match getConversation ops id s with
  | (Resolved None, s) =>
      ({| reply_status := 404; reply_body := ErrorBody "Conversation not found" |}, s)
  | (Resolved (Some conversation), s) =>
      ({| reply_status := 200; reply_body := ConversationBody conversation |}, s)
  | (Rejected _, s) =>
      ({| reply_status := 500;
          reply_body := ErrorBody "Failed to fetch conversation" |}, s)
  end.

(** [router.post("/messages", ...)]; the arguments are
    [req.body.conversationId] and [req.body.content] (the handler does not
    read [req.body.context]). *)
Definition post_messages (conversationId content : option string) (s : S) : Reply * S :=
  if negb (truthy conversationId) || negb (truthy content)
  then ({| reply_status := 400;
           reply_body := ErrorBody "Missing conversationId or content" |}, s)
  else
    match getConversation ops (interpolate conversationId) s with
    | (Rejected _, s) =>
        ({| reply_status := 500; reply_body := ErrorBody "Failed to create message" |}, s)
    | (Resolved None, s) =>
        ({| reply_status := 404; reply_body := ErrorBody "Conversation not found" |}, s)
    | (Resolved (Some _), s) =>
        match createMessage ops (interpolate conversationId) "user"
                (interpolate content) s with
        | (Rejected _, s) =>
            ({| reply_status := 500;
                reply_body := ErrorBody "Failed to create message" |}, s)
        | (Resolved userMessage, s) =>
            match createMessage ops (interpolate conversationId) "assistant" "" s with
            | (Rejected _, s) =>
                ({| reply_status := 500;
                    reply_body := ErrorBody "Failed to create message" |}, s)
            | (Resolved assistantMessage, s) =>
                ({| reply_status := 200;
                    reply_body :=
                      MessageCreated (msg_id assistantMessage) (msg_id userMessage)
                        ("/stream/" ++ msg_id assistantMessage) |}, s)
            end
        end
    end.

(** [router.get("/history/:conversationId", ...)]. *)
Definition get_history (conversationId : string) (s : S) : Reply * S :=
  match recentMessages ops conversationId 50 s with
  | (Resolved messages, s) =>
      ({| reply_status := 200; reply_body := HistoryBody messages |}, s)
  | (Rejected _, s) =>
      ({| reply_status := 500; reply_body := ErrorBody "Failed to fetch history" |}, s)
  end.

End OtherRoutes.

(** [isOpenAIConfigured()]. *)
Definition isOpenAIConfigured (svc : AIService) : bool := isConfigured svc.

(** [updateSystemPrompt(systemPrompt)]. *)
Definition updateSystemPrompt (systemPrompt : string) (svc : AIService) : AIService :=
  {| openai := openai svc;
     isConfigured := isConfigured svc;
     cfg_model := cfg_model svc;
     cfg_temperature := cfg_temperature svc;
     cfg_maxTokens := cfg_maxTokens svc;
     cfg_systemPrompt := systemPrompt;
     cfg_enableRAG := cfg_enableRAG svc;
     cfg_ragService := cfg_ragService svc;
     conversationHistory := conversationHistory svc |}.

(** [router.get("/status", ...)]: [ragService] is the optional field of the
    routes' configuration, [ragService?.isAvailable() || false]. *)
Definition get_status (svc : AIService) (rag : option RAGService) : Reply :=
  {| reply_status := 200;
     reply_body :=
       StatusBody (isOpenAIConfigured svc)
         (match rag with Some r => isAvailable r | None => false end) |}.

(* ================================================================== *)
(** ** The in-memory storage of the Express example: the writes *)
(* ================================================================== *)

(** What one creation reads from the outside: [Date.now()], the text of
    [Math.random()] and the time of [new Date()]. *)
Record Reading : Type := mkReading {
  date_now : N;
  math_random : string;
  new_date : N
}.

(** The two maps of the example, and the number of creations so far, which
    selects the reading of the next one. *)
Record MemoryStore : Type := mkStore {
  conversations : list (string * Conversation);
  messages : MessageTable;
  tick : nat
}.

(** The decimal numeral interpolated for an integer. *)
Definition decimal (n : N) : string := NilEmpty.string_of_uint (N.to_uint n).

(** [map.set(key, value)] on a [Map] kept in insertion order. *)
Fixpoint map_set {V : Type} (m : list (string * V)) (key : string) (value : V)
  : list (string * V) :=
  match m with
  | [] => [(key, value)]
  | (k, v) :: rest =>
      if k =? key then (k, value) :: rest else (k, v) :: map_set rest key value
  end.

(** [map.get(key)]. *)
Fixpoint map_get {V : Type} (m : list (string * V)) (key : string) : option V :=
  match m with
  | [] => None
  | (k, v) :: rest => if k =? key then Some v else map_get rest key
  end.

(** [if (!messages.has(id)) messages.set(id, []); messages.get(id).push(m)]. *)
Fixpoint table_push (messages : MessageTable) (conversationId : string)
    (message : StoredMessage) : MessageTable :=
  match messages with
  | [] => [(conversationId, [message])]
  | (k, msgs) :: rest =>
      if k =? conversationId
      then (k, (msgs ++ [message])%list) :: rest
      else (k, msgs) :: table_push rest conversationId message
  end.

Section MemoryStorage.
Variable env : nat -> Reading.

Definition memory_createConversation (title : string) (st : MemoryStore)
  : Promise Conversation * MemoryStore :=
  let r := env (tick st) in
  let id := "conv-" ++ decimal (date_now r) in
  let conversation :=
    {| conv_id := id; conv_title := title; conv_createdAt := new_date r |} in
  (Resolved conversation,
   {| conversations := map_set (conversations st) id conversation;
      messages := messages st;
      tick := S (tick st) |}).

Definition memory_getConversation (id : string) (st : MemoryStore)
  : Promise (option Conversation) * MemoryStore :=
  (Resolved (map_get (conversations st) id), st).

Definition memory_createMessage (conversationId role content : string)
    (st : MemoryStore) : Promise StoredMessage * MemoryStore :=
  let r := env (tick st) in
  let id := "msg-" ++ decimal (date_now r) ++ "-" ++ math_random r in
  let message :=
    {| msg_id := id; msg_conversationId := conversationId;
       msg_role := role; msg_content := content |} in
  (Resolved message,
   {| conversations := conversations st;
      messages := table_push (messages st) conversationId message;
      tick := S (tick st) |}).

Definition memory_ops : StorageOps MemoryStore :=
  {| createConversation := memory_createConversation;
     getConversation := memory_getConversation;
     createMessage := memory_createMessage;
     recentMessages := fun conversationId limit st =>
       (Resolved (memory_getRecentMessages (messages st) conversationId limit), st) |}.

End MemoryStorage.

(* ================================================================== *)
(** ** ragService.ts: ChromaRAGService *)
(* ================================================================== *)

(** The fields of a stored metadata object that the service reads. *)
Record Metadata : Type := mkMeta {
  meta_title : option string;
  meta_type : option string
}.

(** The answer of [collection.query] for the single query text, as the
    service reads it: [results.ids?.[0]], [results.documents?.[0]],
    [results.distances?.[0]] and [results.metadatas?.[0]], each absent or a
    row whose elements may themselves be missing. *)
Record QueryResult : Type := mkQuery {
  q_ids : option (list string);
  q_documents : option (list (option string));
  q_distances : option (list (option float));
  q_metadatas : option (list (option Metadata))
}.

(** A Chroma collection and the Chroma client, by the outcome of their
    calls. *)
Record Collection : Type := mkCollection {
  query : string -> nat -> Promise QueryResult;
  count : Promise nat
}.

Record ChromaClient : Type := mkChroma {
  getCollection : string -> Promise Collection;
  createCollection : string -> Promise Collection;
  deleteCollection : string -> Promise unit
}.

(** The private state of a [ChromaRAGService]. *)
Record ChromaRAGService : Type := mkChromaRAG {
  chromaClient : ChromaClient;
  collection : option Collection;
  isInitialized : bool;
  collectionName : string
}.

(** [constructor(config?)], given the client it builds. *)
Definition ChromaRAGService_new (client : ChromaClient) (name : option string)
  : ChromaRAGService :=
  {| chromaClient := client;
     collection := None;
     isInitialized := false;
     collectionName := or_default name "knowledge_base" |}.

Definition CONNECT_MESSAGE : string :=
  "Failed to connect to vector database. Ensure Chroma is running.".

(** [async initialize()]: the outcome and the state it leaves. *)
Definition chroma_initialize (svc : ChromaRAGService)
  : Promise unit * ChromaRAGService :=
  if isInitialized svc then (Resolved tt, svc)
  else
    let connected c :=
      (Resolved tt,
       {| chromaClient := chromaClient svc; collection := Some c;
          isInitialized := true; collectionName := collectionName svc |}) in
    match getCollection (chromaClient svc) (collectionName svc) with
    | Resolved c => connected c
    | Rejected _ =>
        match createCollection (chromaClient svc) (collectionName svc) with
        | Resolved c => connected c
        | Rejected _ => (Rejected (new_Error CONNECT_MESSAGE), svc)
        end
    end.

(** [row?.[i]] on a row whose elements may be missing. *)
Definition row_at {A : Type} (row : option (list (option A))) (i : nat) : option A :=
  match row with
  | Some r => match nth_error r i with Some (Some a) => Some a | _ => None end
  | None => None
  end.

(** [results.distances?.[0]?.[i] || 0]: a distance that is missing, zero
    or not a number counts as 0. *)
Definition distance_at (results : QueryResult) (i : nat) : float :=
  match row_at (q_distances results) i with
  | Some d => if PrimFloat.is_zero d || PrimFloat.is_nan d then 0%float else d
  | None => 0%float
  end.

(** One turn of the loop of [retrieveRelevantDocuments]. *)
Definition chroma_result_at (results : QueryResult) (minRelevanceScore : float)
    (i : nat) : list RetrievalResult :=
  let distance := distance_at results i in
  let relevanceScore := (1 - distance)%float in
  if PrimFloat.leb minRelevanceScore relevanceScore
  then
    let metadata :=
      from_option (row_at (q_metadatas results) i)
        {| meta_title := None; meta_type := None |} in
    [ {| title := or_default (meta_title metadata) "Unknown";
         doc_content := or_default (row_at (q_documents results) i) "";
         relevanceScore := relevanceScore;
         doc_type := meta_type metadata;
         href := None |} ]
  else [].

Definition chroma_results (results : QueryResult) (minRelevanceScore : float)
  : list RetrievalResult :=
  match q_ids results, q_documents results with
  | Some ids, Some _ =>
      flat_map (chroma_result_at results minRelevanceScore) (seq 0 (length ids))
  | _, _ => []
  end.

(** [async retrieveRelevantDocuments(query, nResults, minRelevanceScore)]. *)
Definition chroma_retrieve (svc : ChromaRAGService) (q : string) (nResults : nat)
    (minRelevanceScore : float)
  : Promise (list RetrievalResult) * ChromaRAGService :=
  match chroma_initialize svc with
  | (Rejected e, svc) => (Rejected e, svc)
  | (Resolved _, svc) =>
      match collection svc with
      | None => (Rejected (new_Error "Collection not initialized"), svc)
      | Some c =>
          match query c q nResults with
          | Resolved results => (Resolved (chroma_results results minRelevanceScore), svc)
          | Rejected _ => (Resolved [], svc)
          end
      end
  end.

(** [isAvailable()]. *)
Definition chroma_isAvailable (svc : ChromaRAGService) : bool :=
  isInitialized svc && match collection svc with Some _ => true | None => false end.

(** [async getStats()]: the pair [{ count, isInitialized }]. *)
Definition chroma_getStats (svc : ChromaRAGService)
  : (nat * bool) * ChromaRAGService :=
  match chroma_initialize svc with
  | (Rejected _, svc) => ((0, false), svc)
  | (Resolved _, svc) =>
      match collection svc with
      | None => ((0, false), svc)
      | Some c =>
          match count c with
          | Resolved n => ((n, isInitialized svc), svc)
          | Rejected _ => ((0, false), svc)
          end
      end
  end.

(** [async clearCollection()]: any failure is thrown again as it is. *)
Definition chroma_clearCollection (svc : ChromaRAGService)
  : Promise unit * ChromaRAGService :=
  match deleteCollection (chromaClient svc) (collectionName svc) with
  | Rejected e => (Rejected e, svc)
  | Resolved _ =>
      match createCollection (chromaClient svc) (collectionName svc) with
      | Rejected e => (Rejected e, svc)
      | Resolved c =>
          (Resolved tt,
           {| chromaClient := chromaClient svc; collection := Some c;
              isInitialized := true; collectionName := collectionName svc |})
      end
  end.

(** The service as the retrieval collaborator of an [AIService], for the
    calls made from the state [svc]. *)
Definition chroma_as_rag (svc : ChromaRAGService) : RAGService :=
  {| retrieveRelevantDocuments := fun q nResults minRelevanceScore =>
       fst (chroma_retrieve svc q nResults minRelevanceScore);
     isAvailable := chroma_isAvailable svc |}.

(** The same service talking to another client. *)
Definition with_chromaClient (client : ChromaClient) (svc : ChromaRAGService)
  : ChromaRAGService :=
  {| chromaClient := client; collection := collection svc;
     isInitialized := isInitialized svc; collectionName := collectionName svc |}.

(** The state keeps a collection once it is initialised. *)
Definition chroma_wf (svc : ChromaRAGService) : Prop :=
  isInitialized svc = true -> collection svc <> None.

(** Fixtures for the routes and the Chroma service. *)
Definition example_env (n : nat) : Reading :=
  {| date_now := 1700000000000 + N.of_nat n;
     math_random := "0.25";
     new_date := 1700000000000 + N.of_nat n |}.

(** A clock that stands still. *)
Definition example_frozen_env (n : nat) : Reading :=
  {| date_now := 1700000000000; math_random := "0.25"; new_date := 1700000000000 |}.

Definition example_store : MemoryStore :=
  {| conversations :=
       [("conv-1", {| conv_id := "conv-1"; conv_title := "Demo";
                      conv_createdAt := 1690000000000 |})];
     messages := example_table;
     tick := 0 |}.

(** A storage that cannot take a placeholder. *)
Definition example_failing_ops : StorageOps MemoryStore :=
  {| createConversation := memory_createConversation example_env;
     getConversation := memory_getConversation;
     createMessage := fun conversationId role content st =>
       if content =? ""
       then (Rejected (new_Error "content must not be empty"), st)
       else memory_createMessage example_env conversationId role content st;
     recentMessages := fun conversationId limit st =>
       (Resolved (memory_getRecentMessages (messages st) conversationId limit), st) |}.

(** A backend that fails after one fragment. *)
Definition example_broken_stream : BackendStream :=
  {| deltas := [Some "Par"; None]; failure := Some example_auth_error |}.

(** A Chroma collection with two entries, at distances 0.2 and 0.7, and a
    client that serves it; a client that is down. *)
Definition example_query_result : QueryResult :=
  {| q_ids := Some ["doc-a"; "doc-b"];
     q_documents := Some [Some "Refunds take five days."; None];
     q_distances := Some [Some 0.2%float; Some 0.7%float];
     q_metadatas := Some [Some {| meta_title := Some "Refunds"; meta_type := None |}; None] |}.

Definition example_collection : Collection :=
  {| query := fun _ _ => Resolved example_query_result; count := Resolved 2 |}.

Definition example_chroma_up : ChromaClient :=
  {| getCollection := fun _ => Rejected (new_Error "collection does not exist");
     createCollection := fun _ => Resolved example_collection;
     deleteCollection := fun _ => Resolved tt |}.

Definition example_chroma_down : ChromaClient :=
  {| getCollection := fun _ => Rejected (new_Error "ECONNREFUSED");
     createCollection := fun _ => Rejected (new_Error "ECONNREFUSED");
     deleteCollection := fun _ => Rejected (new_Error "ECONNREFUSED") |}.

(** An answer of Chroma without distances. *)
Definition example_no_distances : QueryResult :=
  {| q_ids := Some ["doc-a"; "doc-b"];
     q_documents := Some [Some "A"; Some "B"];
     q_distances := None;
     q_metadatas := None |}.

(* ================================================================== *)
(** ** config/prompts.ts *)
(* ================================================================== *)

(** [interface PromptTemplate]. *)
Record PromptTemplate : Type := mkTemplate {
  tpl_id : string;
  tpl_name : string;
  tpl_description : string;
  tpl_recommended : bool;
  tpl_systemPrompt : string
}.

(** The double quote, which a string literal of the prompts cannot hold. *)
Definition QUOTE : string := String (ascii_of_nat 34) EmptyString.

Definition TEMPLATE_customer_support : PromptTemplate :=
  {| tpl_id := "customer-support";
     tpl_name := "Customer Support Agent";
     tpl_description := "Friendly support agent that helps customers with questions and issues";
     tpl_recommended := true;
     tpl_systemPrompt :=
"# Role & Expertise

You are a friendly and helpful customer support agent. Your goal is to assist customers with their questions, resolve issues, and provide a positive experience.

## Communication Style:
- Warm and empathetic
- Patient and understanding
- Clear and concise
- Professional yet conversational

## Response Format:
1. Acknowledge the customer's concern
2. Provide a clear solution or explanation
3. Offer additional help if needed
4. End with a friendly closing

## Behavioral Guidelines:

**Always:**
✓ Show empathy and understanding
✓ Provide step-by-step guidance when appropriate
✓ Offer to escalate complex issues
✓ Thank customers for their patience

**Never:**
✗ Make promises you can't keep
✗ Blame the customer
✗ Use technical jargon without explanation
✗ Rush through explanations

Remember: Every interaction is an opportunity to create a positive experience." |}.

Definition TEMPLATE_technical_docs : PromptTemplate :=
  {| tpl_id := "technical-docs";
     tpl_name := "Technical Documentation Assistant";
     tpl_description := "Helps developers with API documentation and technical questions";
     tpl_recommended := true;
     tpl_systemPrompt :=
"# Role & Expertise

You are a technical documentation assistant specializing in helping developers understand APIs, SDKs, and technical implementations.

## Expertise Areas:
- API endpoints and authentication
- Code examples in multiple languages
- Error troubleshooting
- Best practices and design patterns

## Communication Style:
- Technical but accessible
- Precise and accurate
- Example-driven
- Focus on practical implementation

## Response Format:
1. Brief explanation of the concept
2. Code examples with comments
3. Common gotchas or considerations
4. Links to relevant documentation

## Code Examples:
Always provide working code examples when relevant. Use proper syntax highlighting and include necessary imports/dependencies.

" ++ "Example format:
```typescript
// Brief description of what this code does
import { SomeAPI } from 'package';

const example = async () => {
  // Step-by-step implementation
  const result = await SomeAPI.method();
  return result;
};
```

**Always:**
✓ Verify code syntax before providing examples
✓ Mention required dependencies
✓ Include error handling in examples
✓ Reference official documentation when available

**Never:**
✗ Provide untested code
✗ Skip error handling
✗ Use deprecated APIs without warning
✗ Assume user's tech stack

Remember: Accurate technical guidance prevents hours of debugging." |}.

Definition TEMPLATE_compliance_advisor : PromptTemplate :=
  {| tpl_id := "compliance-advisor";
     tpl_name := "Compliance & Regulatory Advisor";
     tpl_description := "Expert advisor for compliance, regulations, and standards";
     tpl_recommended := false;
     tpl_systemPrompt :=
"# Role & Expertise

You are an expert Compliance and Regulatory Advisor specializing in helping organizations understand and meet regulatory requirements.

## Expertise Areas:
- Industry regulations and standards
- Risk assessment and management
- Policy development and review
- Audit preparation and compliance gaps
- Best practices and implementation guidance

## Communication Style:
- Professional and authoritative
- Clear and structured
- Risk-focused
- Evidence-based with references

## Response Format:
1. **Brief Summary** - Direct answer to the question
2. **Detailed Explanation** - Regulatory requirements and context
3. **Regulatory References** - Cite specific clauses, sections, or standards
4. **Actionable Steps** - Concrete recommendations with priority levels
5. **Risk Assessment** - Explain severity and potential consequences

## Risk Indicators:
Use risk levels to highlight severity:
- **HIGH RISK**: Critical compliance gaps requiring immediate attention
- **MEDIUM RISK**: Important issues that should be addressed soon
- **LOW RISK**: Minor improvements or best practices

**Always:**
✓ Reference specific regulations, standards, or clauses
✓ Explain both the " ++ QUOTE ++ "what" ++ QUOTE ++ " and " ++ QUOTE ++ "why" ++ QUOTE ++ " of requirements
✓ Prioritize based on risk and impact
✓ Acknowledge when specialized legal counsel is needed

**Never:**
✗ Provide legal advice (recommend qualified legal counsel instead)
✗ Make absolute guarantees about compliance outcomes
✗ Recommend bypassing requirements
✗ Assume user's regulatory context without asking

## When Uncertain:
- Admit knowledge gaps honestly
- Recommend consulting specialists
- Provide general principles but note limitations
- Never guess on regulatory requirements

Remember: Compliance is about genuine safety and integrity, not just checking boxes." |}.

Definition TEMPLATE_sales_assistant : PromptTemplate :=
  {| tpl_id := "sales-assistant";
     tpl_name := "Sales & Product Assistant";
     tpl_description := "Helps with product information, pricing, and sales inquiries";
     tpl_recommended := false;
     tpl_systemPrompt :=
"# Role & Expertise

You are a knowledgeable Sales and Product Assistant. You help potential customers understand products, features, pricing, and make informed purchasing decisions.

## Expertise Areas:
- Product features and benefits
- Use cases and applications
- Pricing and plans
- Competitive advantages
- Demo and trial information

## Communication Style:
- Consultative, not pushy
- Focus on customer needs
- Highlight value, not just features
- Honest about limitations

## Response Format:
1. Understand the customer's need or use case
2. Recommend relevant products or features
3. Explain key benefits and value
4. Address pricing transparently
5. Provide clear next steps

## Sales Approach:
- **Listen first**: Understand before recommending
- **Educate**: Help customers make informed decisions
- **Be honest**: Acknowledge if something isn't a good fit
- **Create value**: Focus on solving customer problems

**Always:**
✓ Ask clarifying questions about needs
✓ Explain pricing clearly and completely
✓ Offer comparisons when helpful
✓ Provide trial or demo information
✓ Give clear call-to-action

**Never:**
✗ Oversell or exaggerate capabilities
✗ Pressure or use hard-sell tactics
✗ Ignore customer budget constraints
✗ Bash competitors

Remember: The best sale is one where the customer is genuinely helped." |}.

Definition TEMPLATE_general_assistant : PromptTemplate :=
  {| tpl_id := "general-assistant";
     tpl_name := "General Purpose Assistant";
     tpl_description := "Versatile assistant for various tasks and questions";
     tpl_recommended := true;
     tpl_systemPrompt :=
"# Role & Expertise

You are a helpful, intelligent, and versatile AI assistant. You can assist with a wide range of tasks, answer questions, and provide guidance across many topics.

## Core Capabilities:
- Answer questions clearly and accurately
- Provide step-by-step guidance
- Offer creative solutions and ideas
- Explain complex topics simply
- Help with research and analysis

## Communication Style:
- Friendly and conversational
- Clear and concise
- Adaptable to user's tone
- Professional when needed

## Response Guidelines:
1. **Understand**: Make sure you understand the question
2. **Respond**: Provide a clear, helpful answer
3. **Context**: Add relevant details or examples
4. **Follow-up**: Offer related information or next steps

**Always:**
✓ Be honest about limitations
✓ Admit when you don't know something
✓ Provide sources or suggest further research
✓ Respect user privacy and confidentiality
✓ Be inclusive and respectful

**Never:**
✗ Make up information
✗ Be judgmental or biased
✗ Share private or sensitive information
✗ Provide harmful or illegal advice

## When Uncertain:
- Say " ++ QUOTE ++ "I don't know" ++ QUOTE ++ " honestly
- Offer to help find information
- Suggest reliable sources
- Ask clarifying questions

Remember: Your goal is to be genuinely helpful, not just to provide an answer." |}.

Definition TEMPLATE_education_tutor : PromptTemplate :=
  {| tpl_id := "education-tutor";
     tpl_name := "Educational Tutor";
     tpl_description := "Patient tutor that helps students learn and understand concepts";
     tpl_recommended := false;
     tpl_systemPrompt :=
"# Role & Expertise

You are a patient and encouraging educational tutor. Your goal is to help students learn, understand concepts deeply, and develop critical thinking skills.

## Teaching Philosophy:
- Guide, don't just give answers
- Encourage understanding over memorization
- Adapt to student's learning pace
- Make learning engaging and relevant

## Communication Style:
- Patient and encouraging
- Clear explanations with examples
- Socratic method when appropriate
- Positive reinforcement

## Response Format:
1. **Assess Understanding**: Check what student already knows
2. **Explain Clearly**: Break down complex concepts
3. **Provide Examples**: Use relatable analogies and examples
4. **Check Comprehension**: Ask questions to verify understanding
5. **Encourage Practice**: Suggest exercises or applications

## Teaching Techniques:
- **Break Down Complexity**: Start with fundamentals, build up
- **Use Analogies**: Connect new concepts to familiar ones
- **Visual Learning**: Describe diagrams or visual representations
- **Active Learning**: Encourage students to explain back
- **Mistakes Are Learning**: Frame errors as learning opportunities

**Always:**
✓ Praise effort and progress
✓ Break complex problems into steps
✓ Check for understanding before moving on
✓ Provide multiple explanations if needed
✓ Encourage questions

**Never:**
✗ Just give the answer without explanation
✗ Make students feel bad for not understanding
✗ Use overly complex language
✗ Rush through explanations
✗ Skip foundational concepts

Remember: True learning comes from understanding, not just memorizing answers." |}.

Definition TEMPLATE_code_reviewer : PromptTemplate :=
  {| tpl_id := "code-reviewer";
     tpl_name := "Code Review Assistant";
     tpl_description := "Reviews code for quality, security, and best practices";
     tpl_recommended := false;
     tpl_systemPrompt :=
"# Role & Expertise

You are an expert Code Review Assistant. You help developers improve code quality, security, performance, and maintainability through constructive feedback.

## Expertise Areas:
- Code quality and clean code principles
- Security vulnerabilities (OWASP Top 10)
- Performance optimization
- Design patterns and architecture
- Testing and test coverage
- Documentation quality

## Communication Style:
- Constructive and respectful
- Specific and actionable
- Educational, not just critical
- Balanced - acknowledge good practices too

## Review Format:
1. **Overall Assessment**: High-level summary
2. **Critical Issues**: Security, bugs, breaking changes
3. **Improvements**: Code quality, performance, maintainability
4. **Positive Feedback**: What's done well
5. **Recommendations**: Specific suggested changes

## Issue Severity:
- 🔴 **Critical**: Security vulnerabilities, data loss, breaking bugs
- 🟡 **Important**: Performance issues, maintainability concerns
- 🟢 **Minor**: Style, documentation, optional improvements

## Code Review Checklist:
**Security:**
- Input validation
- SQL injection prevention
- XSS protection
- Authentication/authorization
- Sensitive data exposure

**Quality:**
- Code readability
- DRY principle
- Single responsibility
- Error handling
- Edge cases

**Performance:**
- Algorithmic efficiency
- Database query optimization
- Memory usage
- Unnecessary computations

**Testing:**
- Test coverage
- Edge cases covered
- Error scenarios tested

**Always:**
✓ Explain WHY something should change
✓ Provide specific code examples
✓ Acknowledge good practices
✓ Prioritize issues by severity
✓ Suggest alternatives

**Never:**
✗ Be dismissive or condescending
✗ Nitpick minor style issues excessively
✗ Criticize without explanation
✗ Ignore security concerns

Remember: Good code reviews help developers grow and improve the codebase." |}.

Definition PROMPT_TEMPLATES : list PromptTemplate :=
  [ TEMPLATE_customer_support;
    TEMPLATE_technical_docs;
    TEMPLATE_compliance_advisor;
    TEMPLATE_sales_assistant;
    TEMPLATE_general_assistant;
    TEMPLATE_education_tutor;
    TEMPLATE_code_reviewer ].

(** [getPromptTemplate(id)]. *)
Definition getPromptTemplate (id : string) : option PromptTemplate :=
  find (fun template => tpl_id template =? id) PROMPT_TEMPLATES.

(** [getRecommendedTemplates()]. *)
Definition getRecommendedTemplates : list PromptTemplate :=
  filter tpl_recommended PROMPT_TEMPLATES.

(** [getAllTemplates()]. *)
Definition getAllTemplates : list PromptTemplate := PROMPT_TEMPLATES.

(** The configuration of the Express example: the customer support
    template as system prompt, retrieval disabled. *)
Definition express_example_config (apiKey : option string) : AIServiceConfig :=
  {| openaiApiKey := apiKey;
     model := Some "gpt-4o-mini";
     temperature := Some 0.7%float;
     maxTokens := None;
     systemPrompt := option_map tpl_systemPrompt (getPromptTemplate "customer-support");
     enableRAG := Some false;
     ragService := None |}.

(* ================================================================== *)
(** ** AIAssistant.tsx: the handler of the event stream *)
(* ================================================================== *)

Module AIAssistant.

(** [type RiskLevel]. *)
Inductive RiskLevel : Type := high | medium | low | none.

Record Attachment : Type := mkAttachment {
  att_name : string;
  att_size : Z;
  att_type : string
}.

(** What [JSON.parse] reads back from a number written by [JSON.stringify]:
    a value that is not finite is written as [null], and the negative zero
    as [0]. *)
Definition parsed_number (x : float) : option float :=
  if PrimFloat.is_nan x || PrimFloat.is_infinity x then None
  else if PrimFloat.is_zero x then Some PrimFloat.zero
  else Some x.

(** An element of [data.sources]. *)
Record ParsedSource : Type := mkParsedSource {
  parsed_type : string;
  parsed_title : string;
  parsed_href : option string;
  parsed_relevance : option float
}.

Definition parsed_source (s : Source) : ParsedSource :=
  {| parsed_type := source_type s;
     parsed_title := source_title s;
     parsed_href := source_href s;
     parsed_relevance := parsed_number (relevance s) |}.

(** [JSON.parse(event.data)], by the [type] the handler dispatches on;
    [data_other] stands for a text that does not parse and for any other
    value, which the handler ignores. *)
Inductive EventData : Type :=
| data_chunk (content : string)
| data_sources (sources : list ParsedSource)
| data_done
| data_error (message : option string)
| data_other.

(** The data of the event that carries a record written by the stream
    endpoint. *)
Definition parsed (r : WireRecord) : EventData :=
  match r with
  | chunk content => data_chunk content
  | sources_event sources => data_sources (map parsed_source sources)
  | done => data_done
  | error_event message => data_error message
  end.

(** [interface Message]. *)
Record Message : Type := mkMessage {
  m_id : string;
  m_role : Role;
  m_content : string;
  m_sources : option (list ParsedSource);
  m_attachments : option (list Attachment);
  m_riskLevel : option RiskLevel;
  m_timestamp : option Z
}.

(** The state the handler reads and writes: the object [assistantMessage]
    of the closure, the component states [messages], [isTyping] and
    [error], and whether [eventSource.close()] has been called, after which
    no event is dispatched. The updater passed to [setMessages] is applied
    when the event is handled. *)
Record Chat : Type := mkChat {
  assistantMessage : Message;
  messages : list Message;
  isTyping : bool;
  error : option string;
  closed : bool
}.

Definition set_content (m : Message) (content : string) : Message :=
  {| m_id := m_id m; m_role := m_role m; m_content := content;
     m_sources := m_sources m; m_attachments := m_attachments m;
     m_riskLevel := m_riskLevel m; m_timestamp := m_timestamp m |}.

Definition set_riskLevel (m : Message) (riskLevel : RiskLevel) : Message :=
  {| m_id := m_id m; m_role := m_role m; m_content := m_content m;
     m_sources := m_sources m; m_attachments := m_attachments m;
     m_riskLevel := Some riskLevel; m_timestamp := m_timestamp m |}.

Definition set_sources (m : Message) (sources : list ParsedSource) : Message :=
  {| m_id := m_id m; m_role := m_role m; m_content := m_content m;
     m_sources := Some sources; m_attachments := m_attachments m;
     m_riskLevel := m_riskLevel m; m_timestamp := m_timestamp m |}.

(** [{ ...assistantMessage, timestamp: new Date() }]. *)
Definition set_timestamp (m : Message) (now : Z) : Message :=
  {| m_id := m_id m; m_role := m_role m; m_content := m_content m;
     m_sources := m_sources m; m_attachments := m_attachments m;
     m_riskLevel := m_riskLevel m; m_timestamp := Some now |}.

(** [newMessages[newMessages.length - 1]]. *)
Definition lastMessage (newMessages : list Message) : option Message :=
  match rev newMessages with
  | m :: _ => Some m
  | [] => None
  end.

(** [lastMessage && lastMessage.role === "assistant" &&
    lastMessage.id === assistantMessage.id]. *)
Definition is_current (last : option Message) (assistantMessage : Message) : bool :=
  match last with
  | Some m =>
      match m_role m with
      | assistant => m_id m =? m_id assistantMessage
      | _ => false
      end
  | None => false
  end.

(** [newMessages[newMessages.length - 1] = m], on an array that has a last
    element. *)
Definition replace_last (newMessages : list Message) (m : Message) : list Message :=
  (removelast newMessages ++ [m])%list.

Definition highRiskKeywords : list string :=
  ["critical"; "urgent"; "high risk"; "immediate attention"; "severe"].

Definition mediumRiskKeywords : list string :=
  ["medium risk"; "moderate"; "attention required"; "warning"].

Definition lowRiskKeywords : list string :=
  ["low risk"; "minor"; "acceptable"; "good"].

Definition is_none (l : RiskLevel) : bool :=
  match l with none => true | _ => false end.

Section Handler.
Variable toLowerCase : string -> string.
Variable enableRiskDetection : bool.

(** [keywords.some(keyword => lowerContent.includes(keyword))]. *)
Definition some_included (keywords : list string) (lowerContent : string) : bool :=
  existsb (fun keyword => occurs keyword lowerContent) keywords.

Definition detectRiskLevel (content : string) : RiskLevel :=
  if negb enableRiskDetection then none
  else
    let lowerContent := toLowerCase content in
    if some_included highRiskKeywords lowerContent then high
    else if some_included mediumRiskKeywords lowerContent then medium
    else if some_included lowRiskKeywords lowerContent then low
    else none.

(** [eventSource.onmessage], handled at time [now]. *)
Definition onmessage (now : Z) (data : EventData) (st : Chat) : Chat :=
  if closed st then st
  else
    match data with
    | data_chunk content =>
        let a := assistantMessage st in
        let a := set_content a (m_content a ++ content) in
        let detectedRiskLevel := detectRiskLevel (m_content a) in
        let a := if is_none detectedRiskLevel then a
                 else set_riskLevel a detectedRiskLevel in
        {| assistantMessage := a;
           messages :=
             if is_current (lastMessage (messages st)) a
             then replace_last (messages st) a
             else (messages st ++ [set_timestamp a now])%list;
           isTyping := isTyping st;
           error := error st;
           closed := closed st |}
    | data_sources sources =>
        let a := set_sources (assistantMessage st) sources in
        {| assistantMessage := a;
           messages :=
             if is_current (lastMessage (messages st)) a
             then replace_last (messages st) a
             else messages st;
           isTyping := isTyping st;
           error := error st;
           closed := closed st |}
    | data_done =>
        {| assistantMessage := assistantMessage st;
           messages := messages st;
           isTyping := false;
           error := error st;
           closed := true |}
    | data_error message =>
        {| assistantMessage := assistantMessage st;
           messages := messages st;
           isTyping := false;
           error := Some (or_default message "An error occurred");
           closed := true |}
    | data_other => st
    end.

(** The level kept for the badge is the one detected on the text gathered
    so far, whenever one is detected there. *)
Definition badge_current (a : Message) : Prop :=
  detectRiskLevel (m_content a) <> none ->
  m_riskLevel a = Some (detectRiskLevel (m_content a)).

(** The handler run on a sequence of events. *)
Definition deliver (events : list (Z * EventData)) (st : Chat) : Chat :=
  fold_left (fun st event => onmessage (fst event) (snd event) st) events st.

End Handler.

(** The events of the records that reached the client, the one of index [k]
    handled at time [clock k]. *)
Fixpoint arrivals (clock : nat -> Z) (k : nat) (records : list WireRecord)
  : list (Z * EventData) :=
  match records with
  | [] => []
  | r :: rest => (clock k, parsed r) :: arrivals clock (S k) rest
  end.

(** [handleSend], lines 252-258: the message shown for the user. *)
Definition userMessage (id messageText : string) (uploadedFiles : list Attachment)
  : Message :=
  {| m_id := id;
     m_role := user;
     m_content :=
       if messageText =? "" then
         "[Uploaded " ++ decimal (N.of_nat (length uploadedFiles)) ++ " file(s)]"
       else messageText;
     m_sources := None;
     m_attachments :=
       match uploadedFiles with
       | [] => None
       | _ :: _ => Some uploadedFiles
       end;
     m_riskLevel := None;
     m_timestamp := None |}.

(** The state when the event source is opened (lines 260-264 and 288-292):
    the user's message appended, the typing indicator on, no error, and a
    fresh [assistantMessage]. *)
Definition opened (prev : list Message) (sent : Message) (assistantId : string) : Chat :=
  {| assistantMessage :=
       {| m_id := assistantId; m_role := assistant; m_content := "";
          m_sources := None; m_attachments := None;
          m_riskLevel := None; m_timestamp := None |};
     messages := (prev ++ [sent])%list;
     isTyping := true;
     error := None;
     closed := false |}.

End AIAssistant.

(* ================================================================== *)
(** ** Properties *)
(* ================================================================== *)

Section Properties.
Context {rt : JsRuntime}.

(** *** The response object *)

Lemma trace_client_step (d : option nat) (res : Res) :
  trace (client_step d res) = trace res.
Proof.
  unfold client_step.
  destruct (closedAt res) as [c|]; destruct d as [n|]; try reflexivity.
  destruct (length (received res) =? n)%nat; reflexivity.
Qed.

Lemma trace_res_write (d : option nat) (r : WireRecord) (res : Res) :
  trace (res_write d r res) = (trace res ++ [Write r])%list.
Proof.
  unfold res_write. cbn [log closedAt trace].
  destruct (closedAt res); [reflexivity|].
  rewrite trace_client_step. reflexivity.
Qed.

Lemma trace_res_flushHeaders (d : option nat) (res : Res) :
  trace (res_flushHeaders d res) = (trace res ++ [FlushHeaders])%list.
Proof. unfold res_flushHeaders. rewrite trace_client_step. reflexivity. Qed.

Lemma headersSent_client_step (d : option nat) (res : Res) :
  headersSent (client_step d res) = headersSent res.
Proof.
  unfold client_step.
  destruct (closedAt res) as [c|]; destruct d as [n|]; try reflexivity.
  destruct (length (received res) =? n)%nat; reflexivity.
Qed.

Lemma headersSent_res_write (d : option nat) (r : WireRecord) (res : Res) :
  headersSent (res_write d r res) = true.
Proof.
  unfold res_write. cbn [log closedAt].
  destruct (closedAt res); [reflexivity|].
  rewrite headersSent_client_step. reflexivity.
Qed.

Lemma trace_on_item (d : option nat) (res : Res) (i : StreamItem) :
  trace (on_item d res i) = (trace res ++ [Next; Write (item_record i)])%list.
Proof.
  unfold on_item. destruct i; rewrite trace_res_write; cbn [log trace item_record];
    rewrite <- app_assoc; reflexivity.
Qed.

Lemma trace_fold_on_item (d : option nat) (items : list StreamItem) :
  forall res,
    trace (fold_left (on_item d) items res)
    = (trace res ++ flat_map (fun i => [Next; Write (item_record i)]) items)%list.
Proof.
  induction items as [|i items IH]; intros res; cbn [fold_left flat_map].
  - now rewrite app_nil_r.
  - rewrite IH, trace_on_item, <- app_assoc. reflexivity.
Qed.

(** The inner [try]/[catch] never lets an error out, and its calls are those
    of [stream_trace]. *)
Lemma stream_response_spec (d : option nat) (stream : Generator) (res : Res) :
  snd (stream_response d stream res) = None /\
  trace (fst (stream_response d stream res)) = (trace res ++ stream_trace stream)%list.
Proof.
  unfold stream_response, stream_body, stream_trace, terminal_record.
  destruct (thrown stream) as [e|]; cbn [fst snd]; split; try reflexivity;
    unfold res_end; cbn [log trace];
    rewrite trace_res_write; cbn [log trace];
    rewrite trace_fold_on_item, <- !app_assoc; reflexivity.
Qed.

Lemma is_user_eq : is_user = (fun m => entry_role m =? "user").
Proof. reflexivity. Qed.

(** The calls of a whole request, by the outcome of its validation. *)
Lemma stream_endpoint_trace (config : ChatRoutesConfig) (req : Request) :
  trace (stream_endpoint config req) =
  match validate (storage config) (messageId req) with
  | StorageFails _ => [SendJson 500 "Failed to stream response"]
  | MessageNotFound => [SendJson 404 "Message not found"]
  | NoUserMessage => [SendJson 400 "No user message found"]
  | Valid conversationId userMessage =>
      (sse_headers ++
       stream_trace (streamChatCompletion (aiService config) conversationId userMessage
                       (Some (parse_context (contextParam req)))))%list
  end.
Proof.
  unfold stream_endpoint, stream_endpoint_try, validate.
  destruct (getMessage (storage config) (messageId req)) as [[m|]|e];
    try reflexivity.
  destruct (storage_getRecentMessages (storage config) (msg_conversationId m) 10)
    as [recent|e]; try reflexivity.
  rewrite is_user_eq.
  destruct (find (fun m0 => entry_role m0 =? "user") (rev recent)) as [u|];
    try reflexivity.
  match goal with
  | |- context [stream_response ?d ?s ?r] =>
      destruct (stream_response_spec d s r) as [Hn Ht];
      destruct (stream_response d s r) as [res' o]
  end.
  cbn [fst snd] in Hn, Ht. subst o. rewrite Ht.
  unfold open_channel. rewrite trace_res_flushHeaders. reflexivity.
Qed.

(** *** The streaming adapter *)

Lemma texts_of_app (a b : list StreamItem) :
  texts_of (a ++ b) = (texts_of a ++ texts_of b)%list.
Proof. unfold texts_of. apply flat_map_app. Qed.

Lemma texts_of_map_Text (l : list string) : texts_of (map Text l) = l.
Proof. induction l as [|x l IH]; cbn; [reflexivity | now f_equal]. Qed.

(** When the adapter reaches the backend, its run is determined by what the
    backend does. *)
Lemma stream_try_backend (svc : AIService) (cid um : string)
    (pc : option (PageContext any)) (p : Promise BackendStream) :
  backend_call svc cid um pc = Some p ->
  exists ragSources,
    stream_try svc cid um pc =
    match p with
    | Rejected e => {| yielded := []; thrown := Some e |}
    | Resolved stream =>
        match failure stream with
        | Some e => {| yielded := map Text (backend_contents (deltas stream));
                       thrown := Some e |}
        | None =>
            {| yielded :=
                 (map Text (backend_contents (deltas stream))
                  ++ (if (0 <? length (backend_contents (deltas stream)))%nat
                      then [] else [Text FALLBACK_MESSAGE])
                  ++ (if (0 <? length ragSources)%nat
                      then [Sources ragSources] else []))%list;
               thrown := None |}
        end
    end.
Proof.
  unfold backend_call, stream_try.
  destruct (isConfigured svc); [|discriminate].
  destruct (openai svc) as [client|]; [|discriminate].
  destruct (buildContext svc cid pc (Some um)) as [[messages ragSources]|e];
    [|discriminate].
  intros H. injection H as <-. exists ragSources. reflexivity.
Qed.

Lemma backend_contents_spec (ds : list (option string)) :
  backend_contents ds = spec_nonempty_fragments ds.
Proof.
  unfold backend_contents, spec_nonempty_fragments.
  induction ds as [|d ds IH]; [reflexivity|].
  cbn [map filter flat_map]. rewrite IH.
  destruct d as [s|]; [|reflexivity].
  unfold delta_content, or_default, nonempty.
  destruct (s =? "") eqn:Hs; [reflexivity|]. now rewrite Hs.
Qed.




(** C10. Without a configured backend the run of the adapter is the fixed
    sequence of canned fragments, whatever the service holds and whatever
    the conversation, the message and the page context are: two such runs
    are equal, and none yields a sources value. *)
Theorem demo_mode_stream_is_constant
    (svc svc' : AIService) (cid cid' um um' : string)
    (pc pc' : option (PageContext any)) :
  unconfigured svc = true ->
  unconfigured svc' = true ->
  streamChatCompletion svc cid um pc = streamChatCompletion svc' cid' um' pc' /\
  streamChatCompletion svc cid um pc
    = {| yielded := map Text mockResponses; thrown := None |} /\
  existsb is_sources_item (yielded (streamChatCompletion svc cid um pc)) = false.
Proof.
  assert (H : forall s c u p, unconfigured s = true ->
            streamChatCompletion s c u p
            = {| yielded := map Text mockResponses; thrown := None |}).
  { intros s c u p. unfold unconfigured, streamChatCompletion, stream_try.
    destruct (isConfigured s); destruct (openai s); cbn; intros Hu;
      try discriminate; reflexivity. }
  intros Hs Hs'. rewrite (H _ cid um pc Hs), (H _ cid' um' pc' Hs').
  repeat split; reflexivity.
Qed.

(** A service built without an API key, with an empty one or with the
    placeholder key is not configured. *)
Lemma AIService_new_unconfigured (new_client : string -> OpenAI)
    (config : AIServiceConfig) (history : option ConversationHistory) :
  match openaiApiKey config with
  | None => True
  | Some k => k = "" \/ k = "sk-your-api-key-here"
  end ->
  unconfigured (AIService_new new_client config history) = true.
Proof.
  unfold unconfigured, AIService_new.
  destruct (openaiApiKey config) as [k|]; [|reflexivity].
  intros [-> | ->]; reflexivity.
Qed.

Lemma string_length_append (a b : string) :
  String.length (a ++ b) = String.length a + String.length b.
Proof. induction a as [|c a IH]; cbn; [reflexivity | now rewrite IH]. Qed.

Lemma unknown_message_longer (e : JsError) (m : string) :
  message e = Some m -> String.length m < String.length (unknown_message e).
Proof.
  intros Hm. unfold unknown_message. rewrite Hm, !string_length_append.
  unfold or_default. destruct (m =? "") eqn:Hempty.
  - apply String.eqb_eq in Hempty. subst m. cbn. lia.
  - cbn. lia.
Qed.

(** The replacement error is a fresh [Error]: it never is the caught one. *)
Lemma normalized_is_not_raw (e : JsError) : new_Error (normalized_message e) <> e.
Proof.
  intros H.
  pose proof (f_equal status H) as Hst.
  pose proof (f_equal code H) as Hco.
  pose proof (f_equal message H) as Hmsg.
  cbn [new_Error status code message] in Hst, Hco, Hmsg.
  assert (Hn : normalized_message e = unknown_message e).
  { unfold normalized_message, status_is, status_ge, code_is.
    rewrite <- Hst, <- Hco. reflexivity. }
  rewrite Hn in Hmsg. symmetry in Hmsg.
  pose proof (unknown_message_longer e _ Hmsg). lia.
Qed.

Lemma normalized_message_taxonomy (e : JsError) :
  In (normalized_message e) FIXED_MESSAGES \/ normalized_message e = unknown_message e.
Proof.
  unfold normalized_message, FIXED_MESSAGES.
  destruct (status_is e 429); [left; cbn; tauto|].
  destruct (status_is e 401); [left; cbn; tauto|].
  destruct (status_ge e 500); [left; cbn; tauto|].
  destruct (code_is e "insufficient_quota"); [left; cbn; tauto|].
  destruct (code_is e "ETIMEDOUT" || code_is e "ECONNABORTED"); [left; cbn; tauto|].
  now right.
Qed.

Lemma stream_try_backend_failure (svc : AIService) (cid um : string)
    (pc : option (PageContext any)) (e : JsError) :
  backend_failure svc cid um pc = Some e ->
  exists cs, stream_try svc cid um pc = {| yielded := map Text cs; thrown := Some e |}.
Proof.
  unfold backend_failure. intros H.
  destruct (backend_call svc cid um pc) as [p|] eqn:Hcall; [|discriminate].
  destruct (stream_try_backend svc cid um pc p Hcall) as [rs Htry].
  destruct p as [stream|e'].
  - rewrite H in Htry. eexists. exact Htry.
  - injection H as ->. exists []. exact Htry.
Qed.

Lemma flat_map_map_Text (cs : list string) :
  flat_map (fun i => [Next; Write (item_record i)]) (map Text cs)
  = flat_map (fun c => [Next; Write (chunk c)]) cs.
Proof. induction cs as [|c cs IH]; cbn; [reflexivity | now rewrite IH]. Qed.

(** C5. When the generation backend fails, whether on the call or in the
    middle of its stream, the adapter ends its sequence by throwing one
    fresh error, never the backend's own, whose message is one of the five
    fixed messages or the catch-all wrapping; the message is chosen from
    the status and code of the backend error, status 401 giving the
    authentication message. At the endpoint (scenario E) such a run writes
    the chunks received so far, then exactly one error event carrying the
    authentication message, then closes the channel; no done event is
    written. *)
Theorem backend_failure_is_normalized
    (svc : AIService) (cid um : string) (pc : option (PageContext any)) (e : JsError) :
  backend_failure svc cid um pc = Some e ->
  let run := streamChatCompletion svc cid um pc in
  thrown run = Some (new_Error (normalized_message e)) /\
  thrown run <> Some e /\
  (In (normalized_message e) FIXED_MESSAGES \/
   normalized_message e = unknown_message e) /\
  (status e = Some 429%Z -> normalized_message e = RATE_LIMIT_MESSAGE) /\
  (status e = Some 401%Z -> normalized_message e = AUTH_MESSAGE) /\
  (forall (config : ChatRoutesConfig) (req : Request),
      aiService config = svc ->
      validate (storage config) (messageId req) = Valid cid um ->
      pc = Some (parse_context (contextParam req)) ->
      status e = Some 401%Z ->
      exists cs,
        trace (stream_endpoint config req)
        = (sse_headers
           ++ flat_map (fun c => [Next; Write (chunk c)]) cs
           ++ [Next; Write (error_event (Some AUTH_MESSAGE)); End])%list /\
        writes (trace (stream_endpoint config req))
        = (map chunk cs ++ [error_event (Some AUTH_MESSAGE)])%list /\
        error_events (trace (stream_endpoint config req)) = 1 /\
        existsb is_done (writes (trace (stream_endpoint config req))) = false).
Proof.
  intros Hfail run.
  destruct (stream_try_backend_failure svc cid um pc e Hfail) as [cs Htry].
  assert (Hrun : run = {| yielded := map Text cs;
                          thrown := Some (new_Error (normalized_message e)) |}).
  { subst run. unfold streamChatCompletion. rewrite Htry. reflexivity. }
  assert (H401 : status e = Some 401%Z -> normalized_message e = AUTH_MESSAGE).
  { intros Hs. unfold normalized_message, status_is. rewrite Hs. reflexivity. }
  split; [rewrite Hrun; reflexivity|].
  split.
  { rewrite Hrun. cbn [thrown]. intros H. injection H as H.
    exact (normalized_is_not_raw e H). }
  split; [apply normalized_message_taxonomy|].
  split.
  { intros Hs. unfold normalized_message, status_is. rewrite Hs. reflexivity. }
  split; [exact H401|].
  intros config req Hsvc Hval Hpc Hs. exists cs.
  assert (Ht : trace (stream_endpoint config req)
               = (sse_headers
                  ++ flat_map (fun c => [Next; Write (chunk c)]) cs
                  ++ [Next; Write (error_event (Some AUTH_MESSAGE)); End])%list).
  { rewrite stream_endpoint_trace, Hval, Hsvc, <- Hpc.
    fold run. rewrite Hrun. unfold stream_trace, terminal_record.
    cbn [yielded thrown new_Error message].
    rewrite flat_map_map_Text, (H401 Hs). reflexivity. }
  assert (Hw : writes (trace (stream_endpoint config req))
               = (map chunk cs ++ [error_event (Some AUTH_MESSAGE)])%list).
  { rewrite Ht. unfold writes. rewrite !flat_map_app. cbn [sse_headers flat_map app].
    f_equal. clear. induction cs as [|c cs IH]; cbn; [reflexivity | now rewrite IH]. }
  split; [exact Ht|]. split; [exact Hw|]. unfold error_events. rewrite Hw.
  rewrite filter_app, existsb_app. split.
  - replace (filter is_error_event (map chunk cs)) with (@nil WireRecord);
      [reflexivity|].
    clear. induction cs as [|c cs IH]; cbn; [reflexivity | exact IH].
  - replace (existsb is_done (map chunk cs)) with false; [reflexivity|].
    clear. induction cs as [|c cs IH]; cbn; [reflexivity | exact IH].
Qed.

(** *** The order of the events of a streamed response *)

(** What the adapter yields: fragments, then at most one sources value, and
    a sources value only in a run that returns. *)
Lemma adapter_shape (svc : AIService) (cid um : string) (pc : option (PageContext any)) :
  exists cs ss,
    yielded (streamChatCompletion svc cid um pc) = (map Text cs ++ ss)%list /\
    (ss = [] \/
     exists s, ss = [Sources s] /\ thrown (streamChatCompletion svc cid um pc) = None).
Proof.
  unfold streamChatCompletion, stream_try. cbn [yielded thrown].
  destruct (isConfigured svc);
    [|exists mockResponses, []; rewrite app_nil_r; split; [reflexivity | now left]].
  destruct (openai svc) as [client|];
    [|exists mockResponses, []; rewrite app_nil_r; split; [reflexivity | now left]].
  destruct (buildContext svc cid pc (Some um)) as [[messages rs]|e];
    [|exists [], []; split; [reflexivity | now left]].
  destruct (chat_completions_create client (create_params svc messages)) as [stream|e];
    [|exists [], []; split; [reflexivity | now left]].
  destruct (failure stream) as [e|].
  - exists (backend_contents (deltas stream)), []. rewrite app_nil_r.
    split; [reflexivity | now left].
  - cbn [yielded thrown option_map].
    destruct (0 <? length (backend_contents (deltas stream)))%nat;
      destruct (0 <? length rs)%nat; cbn [app].
    + exists (backend_contents (deltas stream)), [Sources rs].
      split; [reflexivity | right; now exists rs].
    + exists (backend_contents (deltas stream)), []. split; [reflexivity | now left].
    + exists (backend_contents (deltas stream) ++ [FALLBACK_MESSAGE])%list, [Sources rs].
      rewrite map_app, <- app_assoc. split; [reflexivity | right; now exists rs].
    + exists (backend_contents (deltas stream) ++ [FALLBACK_MESSAGE])%list, [].
      rewrite map_app, app_nil_r. split; [reflexivity | now left].
Qed.

Lemma writes_app (a b : list Action) : writes (a ++ b) = (writes a ++ writes b)%list.
Proof. unfold writes. apply flat_map_app. Qed.

Lemma writes_pulled (ws : list WireRecord) :
  writes (flat_map (fun w => [Next; Write w]) ws) = ws.
Proof. induction ws as [|w ws IH]; cbn; [reflexivity | now f_equal]. Qed.

Lemma writes_streamed (ws : list WireRecord) (r : WireRecord) :
  writes (sse_headers ++ flat_map (fun w => [Next; Write w]) ws ++ [Next; Write r; End])
  = (ws ++ [r])%list.
Proof. rewrite !writes_app, writes_pulled. reflexivity. Qed.

Lemma flat_map_item_record (items : list StreamItem) :
  flat_map (fun i => [Next; Write (item_record i)]) items
  = flat_map (fun w => [Next; Write w]) (map item_record items).
Proof. induction items as [|i items IH]; cbn; [reflexivity | now rewrite IH]. Qed.

Lemma wire_grammar_complete (cs : list string) (ss : list WireRecord) (r : WireRecord) :
  (ss = [] \/ exists s, ss = [sources_event s]) ->
  is_terminal r = true ->
  wire_grammar (map chunk cs ++ ss ++ [r]) = true.
Proof.
  intros Hss Hr. induction cs as [|c cs IH]; [|exact IH].
  destruct Hss as [-> | [s ->]]; cbn.
  - destruct r; cbn in *; congruence.
  - exact Hr.
Qed.

(** The recogniser accepts nothing but [chunk* sources? (done|error)]. *)
Lemma wire_grammar_sound (l : list WireRecord) :
  wire_grammar l = true ->
  exists cs ss r,
    l = (map chunk cs ++ ss ++ [r])%list /\
    (ss = [] \/ exists s, ss = [sources_event s]) /\
    is_terminal r = true.
Proof.
  induction l as [|w l IH]; [discriminate|].
  destruct w as [c|s| |m]; cbn [wire_grammar].
  - intros H. destruct (IH H) as (cs & ss & r & -> & Hss & Hr).
    exists (c :: cs), ss, r. repeat split; assumption.
  - destruct l as [|r [|x l]]; cbn; try discriminate. intros Hr.
    exists [], [sources_event s], r. repeat split; [right; now exists s | exact Hr].
  - destruct l; cbn; [|discriminate]. intros _.
    exists [], [], done. repeat split. now left.
  - destruct l; cbn; [|discriminate]. intros _.
    exists [], [], (error_event m). repeat split. now left.
Qed.

(** The trace of a request whose channel was opened. *)
Lemma streamed_trace_shape (svc : AIService) (cid um : string)
    (pc : option (PageContext any)) :
  exists cs ss,
    stream_trace (streamChatCompletion svc cid um pc)
    = (flat_map (fun w => [Next; Write w]) (map chunk cs ++ ss)
       ++ [Next; Write (terminal_record (streamChatCompletion svc cid um pc)); End])%list /\
    (ss = [] \/
     exists s, ss = [sources_event s] /\
               terminal_record (streamChatCompletion svc cid um pc) = done).
Proof.
  destruct (adapter_shape svc cid um pc) as (cs & ss & Hy & Hss).
  exists cs, (map item_record ss). unfold stream_trace.
  rewrite Hy, flat_map_item_record, map_app, map_map. cbn [item_record].
  split; [reflexivity|].
  destruct Hss as [-> | (s & -> & Hth)]; [now left|].
  right. exists s. split; [reflexivity|].
  unfold terminal_record. now rewrite Hth.
Qed.

Lemma terminal_record_is_terminal (stream : Generator) :
  is_terminal (terminal_record stream) = true.
Proof. unfold terminal_record. destruct (thrown stream); reflexivity. Qed.

Lemma not_In_End_pulled (ws : list WireRecord) :
  ~ In End (flat_map (fun w => [Next; Write w]) ws).
Proof.
  induction ws as [|w ws IH]; cbn; [tauto|].
  intros [H|[H|H]]; [discriminate | discriminate | exact (IH H)].
Qed.

(** C1. In every run of the stream endpoint that opens the event channel,
    the calls made after the headers are: one pull and one write per chunk,
    then at most one pull and write of a sources event, then a last pull,
    the write of exactly one terminal event (done or error) and [end]. So
    the records written match [chunk* sources? (done|error)], and nothing is
    written after the terminal record. *)
Theorem stream_event_order (config : ChatRoutesConfig) (req : Request) :
  In FlushHeaders (trace (stream_endpoint config req)) ->
  let t := trace (stream_endpoint config req) in
  wire_grammar (writes t) = true /\
  exists cs ss r,
    (ss = [] \/ exists s, ss = [sources_event s]) /\
    is_terminal r = true /\
    writes t = (map chunk cs ++ ss ++ [r])%list /\
    t = (sse_headers
         ++ flat_map (fun w => [Next; Write w]) (map chunk cs ++ ss)
         ++ [Next; Write r; End])%list /\
    ~ In End (sse_headers
              ++ flat_map (fun w => [Next; Write w]) (map chunk cs ++ ss))%list.
Proof.
  intros Hopen t. subst t. revert Hopen. rewrite stream_endpoint_trace.
  destruct (validate (storage config) (messageId req)) as [e| | |cid um];
    try (cbn; intros [H|[]]; discriminate).
  intros _.
  destruct (streamed_trace_shape (aiService config) cid um
              (Some (parse_context (contextParam req)))) as (cs & ss & Ht & Hss).
  set (r := terminal_record _) in *.
  assert (Hr : is_terminal r = true) by apply terminal_record_is_terminal.
  assert (Hss' : ss = [] \/ exists s, ss = [sources_event s]).
  { destruct Hss as [->|(s & -> & _)]; [now left | right; now exists s]. }
  rewrite Ht.
  assert (Hw : writes (sse_headers
                       ++ flat_map (fun w => [Next; Write w]) (map chunk cs ++ ss)
                       ++ [Next; Write r; End])
               = (map chunk cs ++ ss ++ [r])%list).
  { rewrite writes_streamed. now rewrite <- app_assoc. }
  split.
  - rewrite Hw. now apply wire_grammar_complete.
  - exists cs, ss, r. repeat split; try assumption.
    intros Hin. apply in_app_or in Hin. destruct Hin as [Hin|Hin].
    + cbn in Hin. repeat (destruct Hin as [Hin|Hin]; [discriminate|]). exact Hin.
    + exact (not_In_End_pulled _ Hin).
Qed.

(** *** The two error paths *)

Lemma filter_error_pulled (cs : list string) (ss : list WireRecord) :
  (ss = [] \/ exists s, ss = [sources_event s]) ->
  filter is_error_event (map chunk cs ++ ss) = [].
Proof.
  intros Hss. rewrite filter_app.
  assert (H : filter is_error_event (map chunk cs) = []).
  { induction cs as [|c cs IH]; cbn; [reflexivity | exact IH]. }
  rewrite H. destruct Hss as [-> | [s ->]]; reflexivity.
Qed.

Lemma existsb_send_json_pulled (ws : list WireRecord) :
  existsb is_send_json (flat_map (fun w => [Next; Write w]) ws) = false.
Proof. induction ws as [|w ws IH]; cbn; [reflexivity | exact IH]. Qed.

Lemma stream_endpoint_try_spec (config : ChatRoutesConfig) (req : Request)
    (pc : PageContext any) (res : Res) :
  stream_endpoint_try config req pc res =
  match validate (storage config) (messageId req) with
  | StorageFails e => (res, Some e)
  | MessageNotFound => (res_status_json 404 "Message not found" res, None)
  | NoUserMessage => (res_status_json 400 "No user message found" res, None)
  | Valid conversationId userMessage =>
      stream_response (disconnectAfter config)
        (streamChatCompletion (aiService config) conversationId userMessage (Some pc))
        (open_channel (disconnectAfter config) res)
  end.
Proof.
  unfold stream_endpoint_try, validate.
  destruct (getMessage (storage config) (messageId req)) as [[m|]|e]; try reflexivity.
  destruct (storage_getRecentMessages (storage config) (msg_conversationId m) 10)
    as [recent|e]; try reflexivity.
  rewrite is_user_eq.
  destruct (find (fun m0 => entry_role m0 =? "user") (rev recent)); reflexivity.
Qed.

Lemma headersSent_on_item (d : option nat) (res : Res) (i : StreamItem) :
  headersSent (on_item d res i) = true.
Proof. unfold on_item. destruct i; apply headersSent_res_write. Qed.

Lemma headersSent_fold_on_item (d : option nat) (items : list StreamItem) :
  forall res, headersSent res = true ->
              headersSent (fold_left (on_item d) items res) = true.
Proof.
  induction items as [|i items IH]; intros res H; cbn [fold_left]; [exact H|].
  apply IH, headersSent_on_item.
Qed.

Lemma headersSent_open_channel (d : option nat) (res : Res) :
  headersSent (open_channel d res) = true.
Proof.
  unfold open_channel, res_flushHeaders. now rewrite headersSent_client_step.
Qed.

Lemma trace_open_channel (d : option nat) :
  trace (open_channel d fresh_response) = sse_headers.
Proof. unfold open_channel. now rewrite trace_res_flushHeaders. Qed.

(** C4. Whenever an error is raised while the stream endpoint processes a
    request, exactly one error path runs. If it is raised before the headers
    are sent (a storage call fails: the outer [try] block is left with
    [headersSent] false), the only call on the response is the JSON error
    with status 500: the headers of the stream are never flushed and no
    record is written. If it is raised after the headers are sent (the
    adapter throws: the inner [try] block is left with [headersSent] true),
    no JSON response is sent, exactly one error event is written, it
    carries the message of the error, and the next and last call closes the
    channel. *)
Theorem exactly_one_error_path
    (config : ChatRoutesConfig) (req : Request) (e : JsError) :
  raised_error config req = Some e ->
  let d := disconnectAfter config in
  let pc := parse_context (contextParam req) in
  let t := trace (stream_endpoint config req) in
  (stream_endpoint_try config req pc fresh_response = (fresh_response, Some e) /\
   headersSent fresh_response = false /\
   t = [SendJson 500 "Failed to stream response"] /\
   ~ In FlushHeaders t /\
   writes t = [] /\
   error_events t = 0)
  \/
  (exists cid um at_raise,
     validate (storage config) (messageId req) = Valid cid um /\
     stream_body d (streamChatCompletion (aiService config) cid um (Some pc))
       (open_channel d fresh_response) = (at_raise, Some e) /\
     headersSent at_raise = true /\
     In FlushHeaders t /\
     existsb is_send_json t = false /\
     error_events t = 1 /\
     t = (trace at_raise ++ [Write (error_event (message e)); End])%list /\
     ~ In End (trace at_raise)).
Proof.
  intros Hraised d pc t. unfold raised_error in Hraised. subst t.
  rewrite stream_endpoint_trace. fold pc. fold pc in Hraised.
  pose proof (stream_endpoint_try_spec config req pc fresh_response) as Htry.
  destruct (validate (storage config) (messageId req)) as [e'| | |cid um] eqn:Hval;
    try discriminate.
  - injection Hraised as ->. left. repeat split; [exact Htry|].
    cbn. intros [H|[]]. discriminate.
  - right. clear Htry.
    set (stream := streamChatCompletion (aiService config) cid um (Some pc)) in *.
    exists cid, um,
      (log Next (fold_left (on_item d) (yielded stream) (open_channel d fresh_response))).
    destruct (streamed_trace_shape (aiService config) cid um (Some pc))
      as (cs & ss & Ht & Hss).
    fold stream in Ht, Hss.
    assert (Hterm : terminal_record stream = error_event (message e)).
    { unfold terminal_record. now rewrite Hraised. }
    rewrite Hterm in Ht, Hss. rewrite Ht.
    assert (Hss' : ss = [] \/ exists s, ss = [sources_event s]).
    { destruct Hss as [->|(s & -> & _)]; [now left | right; now exists s]. }
    assert (Hpre : trace (log Next (fold_left (on_item d) (yielded stream)
                                      (open_channel d fresh_response)))
                   = (sse_headers
                      ++ flat_map (fun w => [Next; Write w]) (map chunk cs ++ ss)
                      ++ [Next])%list).
    { cbn [log trace]. rewrite trace_fold_on_item, trace_open_channel, <- app_assoc.
      f_equal. f_equal.
      unfold stream_trace in Ht. rewrite Hterm in Ht.
      change [Next; Write (error_event (message e)); End]
        with ([Next] ++ [Write (error_event (message e)); End])%list in Ht.
      rewrite !app_assoc in Ht. apply app_inv_tail in Ht.
      apply app_inv_tail in Ht. exact Ht. }
    split; [reflexivity|].
    split; [unfold stream_body; fold stream; now rewrite Hraised|].
    split.
    { cbn [log headersSent]. apply headersSent_fold_on_item, headersSent_open_channel. }
    split; [cbn; tauto|].
    split.
    { rewrite !existsb_app, existsb_send_json_pulled. reflexivity. }
    split.
    { unfold error_events.
      rewrite writes_streamed, filter_app, (filter_error_pulled cs ss Hss').
      reflexivity. }
    split; [rewrite Hpre, <- !app_assoc; reflexivity|].
    rewrite Hpre. intros Hin. apply in_app_or in Hin. destruct Hin as [Hin|Hin].
    + cbn in Hin. repeat (destruct Hin as [Hin|Hin]; [discriminate|]). exact Hin.
    + apply in_app_or in Hin. destruct Hin as [Hin|Hin].
      * exact (not_In_End_pulled _ Hin).
      * cbn in Hin. destruct Hin as [Hin|[]]. discriminate.
Qed.

(** Without a raised error neither error path runs. *)
Lemma no_error_no_error_path (config : ChatRoutesConfig) (req : Request) :
  raised_error config req = None ->
  let t := trace (stream_endpoint config req) in
  ~ In (SendJson 500 "Failed to stream response") t /\ error_events t = 0.
Proof.
  intros Hraised t. unfold raised_error in Hraised. subst t.
  rewrite stream_endpoint_trace.
  destruct (validate (storage config) (messageId req)) as [e'| | |cid um] eqn:Hval;
    try discriminate.
  - split; [cbn; intros [H|[]]; discriminate | reflexivity].
  - split; [cbn; intros [H|[]]; discriminate | reflexivity].
  - destruct (streamed_trace_shape (aiService config) cid um
                (Some (parse_context (contextParam req)))) as (cs & ss & Ht & Hss).
    assert (Hterm : terminal_record
                      (streamChatCompletion (aiService config) cid um
                         (Some (parse_context (contextParam req)))) = done).
    { unfold terminal_record. now rewrite Hraised. }
    rewrite Hterm in Ht. rewrite Ht.
    assert (Hss' : ss = [] \/ exists s, ss = [sources_event s]).
    { destruct Hss as [->|(s & -> & _)]; [now left | right; now exists s]. }
    split.
    + intros Hin. apply in_app_or in Hin. destruct Hin as [Hin|Hin].
      * cbn in Hin. repeat (destruct Hin as [Hin|Hin]; [discriminate|]). exact Hin.
      * apply in_app_or in Hin. destruct Hin as [Hin|Hin].
        -- clear -Hin. induction (map chunk cs ++ ss)%list as [|w ws IH]; cbn in Hin;
             [exact Hin|].
           destruct Hin as [H|[H|H]]; [discriminate | discriminate | exact (IH H)].
        -- cbn in Hin. repeat (destruct Hin as [Hin|Hin]; [discriminate|]). exact Hin.
    + unfold error_events.
      rewrite writes_streamed, filter_app, (filter_error_pulled cs ss Hss').
      reflexivity.
Qed.

(** *** A client that goes away *)

Lemma consistent_log (d : option nat) (a : Action) (res : Res) :
  writes [a] = [] ->
  client_consistent d res -> client_consistent d (log a res).
Proof.
  unfold client_consistent, log. cbn [closedAt trace received].
  intros Ha. destruct (closedAt res) as [k|].
  - intros (Hk & Hr & Hd). repeat split.
    + rewrite length_app. lia.
    + rewrite firstn_app. replace (k - length (trace res)) with 0 by lia.
      cbn. now rewrite app_nil_r.
    + exact Hd.
  - intros Hr. rewrite writes_app, Ha, app_nil_r. exact Hr.
Qed.

Lemma consistent_client_step (d : option nat) (res : Res) :
  client_consistent d res -> client_consistent d (client_step d res).
Proof.
  unfold client_step. destruct (closedAt res) as [k|] eqn:Hc; [tauto|].
  destruct d as [n|]; [|tauto].
  destruct (length (received res) =? n)%nat eqn:Hn; [|tauto].
  unfold client_consistent. rewrite Hc. cbn [closedAt trace received].
  intros Hr. apply Nat.eqb_eq in Hn. repeat split.
  - reflexivity.
  - now rewrite firstn_all.
  - now rewrite Hn.
Qed.

Lemma consistent_res_write (d : option nat) (r : WireRecord) (res : Res) :
  client_consistent d res -> client_consistent d (res_write d r res).
Proof.
  unfold res_write. cbn [log closedAt trace received].
  destruct (closedAt res) as [k|] eqn:Hc.
  - unfold client_consistent. rewrite Hc. cbn [closedAt trace received].
    intros (Hk & Hr & Hd). repeat split.
    + rewrite length_app. lia.
    + rewrite firstn_app. replace (k - length (trace res)) with 0 by lia.
      cbn. now rewrite app_nil_r.
    + exact Hd.
  - intros Hr. apply consistent_client_step.
    unfold client_consistent in *. rewrite Hc in Hr. cbn [closedAt trace received].
    rewrite writes_app, Hr. reflexivity.
Qed.

Lemma consistent_on_item (d : option nat) (res : Res) (i : StreamItem) :
  client_consistent d res -> client_consistent d (on_item d res i).
Proof.
  intros H. unfold on_item.
  destruct i; apply consistent_res_write; apply consistent_log; auto.
Qed.

Lemma consistent_fold_on_item (d : option nat) (items : list StreamItem) :
  forall res, client_consistent d res ->
              client_consistent d (fold_left (on_item d) items res).
Proof.
  induction items as [|i items IH]; intros res H; cbn [fold_left]; [exact H|].
  apply IH. now apply consistent_on_item.
Qed.

Lemma consistent_res_end (d : option nat) (res : Res) :
  client_consistent d res ->
  client_consistent d (res_end res) /\ closed_before_end (res_end res).
Proof.
  intros H. split; [now apply consistent_log|].
  unfold closed_before_end, res_end, log. cbn [closedAt trace]. intros k Hk.
  unfold client_consistent in H. rewrite Hk in H. destruct H as [H _].
  rewrite length_app. cbn. lia.
Qed.

Lemma consistent_stream_response (d : option nat) (stream : Generator) (res : Res) :
  client_consistent d res ->
  client_consistent d (fst (stream_response d stream res)) /\
  closed_before_end (fst (stream_response d stream res)).
Proof.
  intros H. unfold stream_response, stream_body.
  assert (H1 : client_consistent d
                 (log Next (fold_left (on_item d) (yielded stream) res))).
  { apply consistent_log; [reflexivity|]. now apply consistent_fold_on_item. }
  destruct (thrown stream) as [e|]; cbn [fst];
    apply consistent_res_end; now apply consistent_res_write.
Qed.

Lemma consistent_status_json (d : option nat) (c : nat) (m : string) :
  client_consistent d (res_status_json c m fresh_response) /\
  closed_before_end (res_status_json c m fresh_response).
Proof. split; [reflexivity | intros k Hk; discriminate]. Qed.

(** What the client of a request has received, in terms of the trace. *)
Lemma stream_endpoint_consistent (config : ChatRoutesConfig) (req : Request) :
  client_consistent (disconnectAfter config) (stream_endpoint config req) /\
  closed_before_end (stream_endpoint config req).
Proof.
  unfold stream_endpoint, stream_endpoint_try.
  destruct (getMessage (storage config) (messageId req)) as [[m|]|e];
    try apply consistent_status_json.
  destruct (storage_getRecentMessages (storage config) (msg_conversationId m) 10)
    as [recent|e]; try apply consistent_status_json.
  destruct (find is_user (rev recent)) as [u|]; try apply consistent_status_json.
  match goal with
  | |- context [stream_response ?d ?s ?r] =>
      pose proof (stream_response_spec d s r) as [Hn _];
      assert (Hr : client_consistent d r);
      [| pose proof (consistent_stream_response d s r Hr) as Hc;
         destruct (stream_response d s r) as [res' o] ]
  end.
  - unfold open_channel, res_flushHeaders. apply consistent_client_step. reflexivity.
  - cbn [fst snd] in Hn, Hc. subst o. exact Hc.
Qed.

(** C8, as the code has it. The handler does not observe the client: with
    any behaviour of the client the request makes exactly the pulls on the
    adapter and the calls on the response that it makes when the client
    stays to the end. If the client goes away, it has received the records
    written until then; everything the uninterrupted run does from that
    point on (the remaining pulls and writes, the terminal event, [end]) is
    still done, and [end] at least is still to come. *)
Theorem disconnect_is_not_observed (config : ChatRoutesConfig) (req : Request) :
  let res := stream_endpoint config req in
  let undisturbed := stream_endpoint (with_disconnect None config) req in
  trace res = trace undisturbed /\
  closedAt undisturbed = None /\
  received undisturbed = writes (trace undisturbed) /\
  (closedAt res = None -> received res = received undisturbed) /\
  (forall k, closedAt res = Some k ->
     k < length (trace undisturbed) /\
     after_disconnect res = skipn k (trace undisturbed) /\
     received res = writes (firstn k (trace undisturbed)) /\
     disconnectAfter config = Some (length (received res))).
Proof.
  intros res undisturbed.
  assert (Ht : trace res = trace undisturbed).
  { subst res undisturbed. rewrite !stream_endpoint_trace. reflexivity. }
  destruct (stream_endpoint_consistent config req) as [Hc Hb].
  destruct (stream_endpoint_consistent (with_disconnect None config) req) as [Hc0 _].
  fold res in Hc, Hb. fold undisturbed in Hc0.
  unfold client_consistent in Hc, Hc0. cbn [with_disconnect disconnectAfter] in Hc0.
  assert (Hnone : closedAt undisturbed = None).
  { destruct (closedAt undisturbed); [|reflexivity].
    destruct Hc0 as (_ & _ & Hd). discriminate. }
  rewrite Hnone in Hc0.
  split; [exact Ht|]. split; [exact Hnone|]. split; [exact Hc0|]. split.
  - intros Hn. rewrite Hn in Hc. now rewrite Hc, Hc0, Ht.
  - intros k Hk. rewrite Hk in Hc. destruct Hc as (Hle & Hr & Hd).
    rewrite <- Ht. repeat split.
    + exact (Hb k Hk).
    + unfold after_disconnect. now rewrite Hk.
    + exact Hr.
    + exact Hd.
Qed.

(** *** Context assembly *)

Lemma current_segments_nonempty (um : string) :
  um <> "" -> current_segments (Some um) = [ {| role := user; content := um |} ].
Proof.
  intros H. unfold current_segments, truthy.
  destruct (String.eqb_spec um ""); [contradiction | reflexivity].
Qed.

(** The result of [buildContext], piece by piece: it rejects exactly when
    the history collaborator does. *)
Lemma buildContext_spec (svc : AIService) (cid : string)
    (pc : option (PageContext any)) (um : option string) :
  match buildContext svc cid pc um with
  | Resolved (msgs, srcs) =>
      exists history,
        msgs = (persona_segment svc :: page_segments pc ++ fst (rag_segments svc um)
                ++ history_segments history ++ current_segments um)%list /\
        srcs = snd (rag_segments svc um) /\
        match conversationHistory svc with
        | Some h => getRecentMessages h cid 10 = Resolved history
        | None => history = []
        end
  | Rejected e =>
      exists h, conversationHistory svc = Some h /\
                getRecentMessages h cid 10 = Rejected e
  end.
Proof.
  unfold buildContext. destruct (rag_segments svc um) as [rag srcs]. cbn [fst snd].
  destruct (conversationHistory svc) as [h|].
  - destruct (getRecentMessages h cid 10) as [history|e] eqn:Hh.
    + exists history. cbn [app]. rewrite <- !app_assoc. repeat split.
    + exists h. now split.
  - exists []. cbn [app history_segments flat_map]. rewrite <- !app_assoc.
    repeat split.
Qed.






(** C7. When the retrieval collaborator rejects the query, context assembly
    returns what it returns with a collaborator that resolves to no
    document: the same prompt and the same citations. No retrieval segment
    is added, the citations are empty, and the rejection is not passed on
    (assembly fails only when the history collaborator does). *)
Theorem retrieval_failure_is_empty_result
    (svc : AIService) (cid : string) (pc : option (PageContext any))
    (um : option string) (rag rag' : RAGService) (e : JsError) :
  cfg_ragService svc = Some rag ->
  retrieveRelevantDocuments rag (interpolate um) 3 0.6%float = Rejected e ->
  retrieveRelevantDocuments rag' (interpolate um) 3 0.6%float = Resolved [] ->
  buildContext svc cid pc um = buildContext (with_ragService (Some rag') svc) cid pc um /\
  rag_segments svc um = ([], []) /\
  match buildContext svc cid pc um with
  | Resolved (msgs, srcs) =>
      srcs = [] /\
      exists history,
        msgs = (persona_segment svc :: page_segments pc
                ++ history_segments history ++ current_segments um)%list
  | Rejected e' =>
      exists h, conversationHistory svc = Some h /\
                getRecentMessages h cid 10 = Rejected e'
  end.
Proof.
  intros Hrag Hthrow Hempty.
  assert (H1 : rag_segments svc um = ([], [])).
  { unfold rag_segments. rewrite Hrag, Hthrow.
    destruct (truthy um && cfg_enableRAG svc); reflexivity. }
  assert (H2 : rag_segments (with_ragService (Some rag') svc) um = ([], [])).
  { unfold rag_segments. cbn [with_ragService cfg_ragService cfg_enableRAG].
    rewrite Hempty. destruct (truthy um && cfg_enableRAG svc); reflexivity. }
  split; [|split; [exact H1|]].
  - unfold buildContext. rewrite H1, H2. reflexivity.
  - pose proof (buildContext_spec svc cid pc um) as H.
    destruct (buildContext svc cid pc um) as [[msgs srcs]|e']; [|exact H].
    destruct H as (history & -> & -> & _). rewrite H1. cbn [fst snd].
    split; [reflexivity|]. exists history. reflexivity.
Qed.

Lemma page_segments_length (pc : option (PageContext any)) :
  length (page_segments pc) <= 1.
Proof.
  unfold page_segments. destruct pc as [p|]; [|cbn; lia].
  destruct (0 <? length (Object_keys p))%nat; cbn; lia.
Qed.

Lemma rag_segments_length (svc : AIService) (um : option string) :
  length (fst (rag_segments svc um)) <= 1.
Proof.
  unfold rag_segments.
  destruct (truthy um && cfg_enableRAG svc); [|cbn; lia].
  destruct (cfg_ragService svc) as [rag|]; [|cbn; lia].
  destruct (retrieveRelevantDocuments rag (interpolate um) 3 0.6%float) as [docs|e];
    [|cbn; lia].
  destruct (0 <? length docs)%nat; cbn; lia.
Qed.

Lemma current_segments_length (um : option string) : length (current_segments um) <= 1.
Proof. unfold current_segments. destruct (truthy um); cbn; lia. Qed.

Lemma history_segments_spec (history : list HistoryEntry) :
  history_segments history = spec_history_segments history.
Proof.
  unfold history_segments, spec_history_segments.
  induction history as [|e history IH]; [reflexivity|].
  cbn [flat_map filter]. rewrite IH. clear IH.
  unfold history_segment, history_role.
  assert (Hok : spec_entry_ok e
                = (entry_role e =? "user") || (entry_role e =? "assistant"))
    by reflexivity.
  assert (Hseg : spec_entry_segment e
                 = {| role := if entry_role e =? "user" then user else assistant;
                      content := entry_content e |}) by reflexivity.
  rewrite Hok. destruct (entry_role e =? "user") eqn:Hu.
  - cbn [orb map app]. now rewrite Hseg.
  - destruct (entry_role e =? "assistant") eqn:Ha; cbn [orb map app];
      [now rewrite Hseg | reflexivity].
Qed.

Lemma spec_history_segments_length (history : list HistoryEntry) :
  length (spec_history_segments history) <= length history.
Proof. unfold spec_history_segments. rewrite length_map. apply filter_length_le. Qed.

Lemma spec_history_segments_roles (history : list HistoryEntry) :
  Forall (fun seg => role seg = user \/ role seg = assistant)
         (spec_history_segments history).
Proof.
  unfold spec_history_segments. apply Forall_map, Forall_forall. intros e _.
  unfold spec_entry_segment. cbn [role]. destruct (entry_role e =? "user"); tauto.
Qed.

(** The conversation that the map of the storage holds under a key. *)
Lemma table_get_first (before after : MessageTable) (cid : string)
    (stored : list StoredMessage) :
  (forall k msgs, In (k, msgs) before -> k <> cid) ->
  table_get (before ++ (cid, stored) :: after)%list cid = stored.
Proof.
  induction before as [|[k msgs] before IH]; intros H; cbn [app table_get].
  - now rewrite String.eqb_refl.
  - destruct (String.eqb_spec k cid) as [Heq|_].
    + exfalso. exact (H k msgs (or_introl eq_refl) Heq).
    + apply IH. intros k' msgs' Hin. apply (H k' msgs'). now right.
Qed.

Lemma table_get_absent (table : MessageTable) (cid : string) :
  (forall k msgs, In (k, msgs) table -> k <> cid) -> table_get table cid = [].
Proof.
  induction table as [|[k msgs] table IH]; intros H; cbn [table_get]; [reflexivity|].
  destruct (String.eqb_spec k cid) as [Heq|_].
  - exfalso. exact (H k msgs (or_introl eq_refl) Heq).
  - apply IH. intros k' msgs' Hin. apply (H k' msgs'). now right.
Qed.

(** C3, as the code has it. Context assembly asks the history collaborator
    for 10 entries and appends one segment per entry of the answer, in the
    order returned and under the role of the entry, the entries whose role
    is neither user nor assistant left out; it does not truncate the
    answer. So the prompt is the persona, at most one page context segment,
    at most one retrieval segment, the history segments and at most one
    current user turn: at most 4 segments more than the entries returned,
    hence at most 14 when the collaborator returns at most 10 entries.
    Without a collaborator there is no history segment, and a rejected
    request for the history rejects the assembly. The in-memory storage of
    the repository answers with the last 10 messages stored for the
    conversation, oldest first (none for a conversation it does not hold),
    whatever the length of the conversation. *)
Theorem history_window_is_bounded
    (svc : AIService) (cid : string) (pc : option (PageContext any))
    (um : option string) :
  let answer :=
    match conversationHistory svc with
    | Some h => getRecentMessages h cid 10
    | None => Resolved []
    end in
  match answer with
  | Resolved history =>
      let prompt :=
        (persona_segment svc :: page_segments pc ++ fst (rag_segments svc um)
         ++ spec_history_segments history ++ current_segments um)%list in
      buildContext svc cid pc um = Resolved (prompt, snd (rag_segments svc um)) /\
      length (page_segments pc) <= 1 /\
      length (fst (rag_segments svc um)) <= 1 /\
      length (spec_history_segments history) <= length history /\
      Forall (fun seg => role seg = user \/ role seg = assistant)
             (spec_history_segments history) /\
      length (current_segments um) <= 1 /\
      length prompt <= 4 + length history /\
      (length history <= 10 -> length prompt <= 14)
  | Rejected e => buildContext svc cid pc um = Rejected e
  end /\
  (forall table before stored after,
     conversationHistory svc = Some (as_history (memory_storage table)) ->
     table = (before ++ (cid, stored) :: after)%list ->
     (forall k msgs, In (k, msgs) before -> k <> cid) ->
     answer
     = Resolved (map (fun m => {| entry_role := msg_role m;
                                  entry_content := msg_content m |})
                     (spec_last 10 stored)) /\
     length (spec_last 10 stored) <= 10 /\
     exists older, stored = (older ++ spec_last 10 stored)%list) /\
  (forall table,
     conversationHistory svc = Some (as_history (memory_storage table)) ->
     (forall k msgs, In (k, msgs) table -> k <> cid) ->
     answer = Resolved []).
Proof.
  intros answer. split; [|split].
  - pose proof (buildContext_spec svc cid pc um) as H.
    pose proof (page_segments_length pc) as Hp.
    pose proof (rag_segments_length svc um) as Hr.
    pose proof (current_segments_length um) as Hc.
    subst answer.
    destruct (conversationHistory svc) as [h|].
    + destruct (getRecentMessages h cid 10) as [history|e] eqn:Hg.
      * destruct (buildContext svc cid pc um) as [[msgs srcs]|e'].
        -- destruct H as (history' & -> & -> & Hh). injection Hh as <-.
           rewrite history_segments_spec.
           pose proof (spec_history_segments_length history) as Hl.
           cbv zeta. repeat split; try assumption.
           ++ apply spec_history_segments_roles.
           ++ cbn [length]. rewrite !length_app. lia.
           ++ intros Hten. cbn [length]. rewrite !length_app. lia.
        -- destruct H as (h' & Hh' & Hrej). injection Hh' as <-.
           rewrite Hg in Hrej. discriminate Hrej.
      * destruct (buildContext svc cid pc um) as [[msgs srcs]|e'].
        -- destruct H as (history' & _ & _ & Hh). discriminate Hh.
        -- destruct H as (h' & Hh' & Hrej). injection Hh' as <-.
           rewrite Hg in Hrej. injection Hrej as ->. reflexivity.
    + destruct (buildContext svc cid pc um) as [[msgs srcs]|e'].
      * destruct H as (history' & -> & -> & ->).
        rewrite history_segments_spec.
        pose proof (spec_history_segments_length []) as Hl.
        cbv zeta. repeat split; try assumption.
        -- apply spec_history_segments_roles.
        -- cbn [length]. rewrite !length_app. cbn [length] in *. lia.
        -- intros _. cbn [length]. rewrite !length_app. cbn [length] in *. lia.
      * destruct H as (h' & Hh' & _). discriminate.
  - intros table before stored after Hh -> Hfirst. subst answer. rewrite Hh.
    cbn [as_history getRecentMessages memory_storage storage_getRecentMessages].
    unfold memory_getRecentMessages. rewrite (table_get_first _ _ _ _ Hfirst).
    unfold slice_last, spec_last. cbn [Nat.eqb].
    split; [reflexivity|]. split; [rewrite length_skipn; lia|].
    exists (firstn (length stored - 10) stored). symmetry. apply firstn_skipn.
  - intros table Hh Habsent. subst answer. rewrite Hh.
    cbn [as_history getRecentMessages memory_storage storage_getRecentMessages].
    unfold memory_getRecentMessages. now rewrite (table_get_absent _ _ Habsent).
Qed.

(** *** The page context segment *)

Lemma string_append_assoc (a b c : string) : (a ++ b) ++ c = a ++ b ++ c.
Proof. induction a as [|x a IH]; cbn; [reflexivity | now rewrite IH]. Qed.

Lemma string_append_nil_r (a : string) : a ++ "" = a.
Proof. induction a as [|x a IH]; cbn; [reflexivity | now rewrite IH]. Qed.

Lemma concat_all_app (a b : list string) :
  concat_all (a ++ b) = concat_all a ++ concat_all b.
Proof.
  unfold concat_all. induction a as [|x a IH]; cbn [app fold_right]; [reflexivity|].
  now rewrite IH, string_append_assoc.
Qed.

Lemma fold_action_line (actions : list string) :
  forall text,
    fold_left action_line actions text
    = text ++ concat_all (map (fun action => "  * " ++ action ++ LF) actions).
Proof.
  induction actions as [|a actions IH]; intros text; cbn [fold_left map concat_all fold_right].
  - now rewrite string_append_nil_r.
  - rewrite IH. unfold action_line. now rewrite !string_append_assoc.
Qed.

Lemma fold_custom_line (entries : list (string * any)) :
  forall text,
    fold_left custom_line entries text
    = text ++ concat_all
               (map generic_line
                  (filter (fun entry => negb (includes RESERVED_KEYS (fst entry)))
                          entries)).
Proof.
  induction entries as [|entry entries IH]; intros text; cbn [fold_left filter].
  - cbn. now rewrite string_append_nil_r.
  - rewrite IH. unfold custom_line.
    destruct (negb (includes RESERVED_KEYS (fst entry))); [|reflexivity].
    cbn [map concat_all fold_right]. unfold generic_line.
    now rewrite !string_append_assoc.
Qed.

(** [getPageContextPrompt] writes the lines of [page_context_lines]. *)
Lemma getPageContextPrompt_text (pc : PageContext any) :
  getPageContextPrompt pc = page_context_lines pc.
Proof.
  set (p := js_or (js_or (currentPage pc) (page pc)) (route pc)).
  assert (Hp : forall text,
             (if truthy p then text ++ "- Page: " ++ interpolate p ++ LF else text)
             = text ++ labelled_page_line pc).
  { intros text. unfold labelled_page_line. fold p. unfold truthy, interpolate.
    destruct p as [s|]; [|now rewrite string_append_nil_r].
    destruct (s =? ""); cbn [negb]; [now rewrite string_append_nil_r | reflexivity]. }
  assert (Hr : forall text,
             (if truthy (userRole pc)
              then text ++ "- User Role: " ++ interpolate (userRole pc) ++ LF else text)
             = text ++ labelled_role_line pc).
  { intros text. unfold labelled_role_line, truthy, interpolate.
    destruct (userRole pc) as [s|]; [|now rewrite string_append_nil_r].
    destruct (s =? ""); cbn [negb]; [now rewrite string_append_nil_r | reflexivity]. }
  assert (Hn : forall text,
             match navigationHistory pc with
             | Some ((_ :: _) as nav) =>
                 text ++ "- Recent Pages: " ++ String.concat ARROW nav ++ LF
             | _ => text
             end = text ++ labelled_nav_line pc).
  { intros text. unfold labelled_nav_line.
    destruct (navigationHistory pc) as [[|x nav]|];
      [now rewrite string_append_nil_r | reflexivity | now rewrite string_append_nil_r]. }
  assert (Ha : forall text,
             match recentActions pc with
             | Some ((_ :: _) as actions) =>
                 fold_left action_line actions (text ++ "- Recent Actions:" ++ LF)
             | _ => text
             end = text ++ labelled_action_lines pc).
  { intros text. unfold labelled_action_lines.
    destruct (recentActions pc) as [[|x actions]|];
      [now rewrite string_append_nil_r | | now rewrite string_append_nil_r].
    rewrite fold_action_line. now rewrite !string_append_assoc. }
  unfold getPageContextPrompt, page_context_lines. cbv zeta. fold p.
  rewrite fold_custom_line. fold (generic_lines pc).
  rewrite Ha, Hn, Hr, Hp. now rewrite !string_append_assoc.
Qed.

Lemma prefix_append (line rest : string) : String.prefix line (line ++ rest) = true.
Proof.
  induction line as [|a line IH]; cbn; [destruct rest; reflexivity|].
  destruct (ascii_dec a a); [exact IH | contradiction].
Qed.

Lemma occurs_complete (line text : string) :
  contains_line text line -> occurs line text = true.
Proof.
  intros (before & after & ->).
  induction before as [|a before IH].
  - cbn [append]. destruct (line ++ after) eqn:E; cbn [occurs];
      rewrite <- E, prefix_append; reflexivity.
  - cbn [append occurs]. rewrite IH. apply orb_true_r.
Qed.

Lemma page_segments_some (pc : PageContext any) :
  Object_keys pc <> [] ->
  page_segments (Some pc) = [ {| role := system; content := getPageContextPrompt pc |} ].
Proof.
  intros H. unfold page_segments. destruct (Object_keys pc); [contradiction | reflexivity].
Qed.

Lemma generic_line_rendered (pc : PageContext any) (k : string) (v : any) :
  In (k, v) (custom pc) ->
  includes RESERVED_KEYS k = false ->
  contains_line (getPageContextPrompt pc)
                ("- " ++ k ++ ": " ++ JSON_stringify v ++ LF).
Proof.
  intros Hin Hk. rewrite getPageContextPrompt_text.
  unfold page_context_lines, generic_lines.
  assert (Hf : In (k, v)
                 (filter (fun entry => negb (includes RESERVED_KEYS (fst entry)))
                         (custom pc))).
  { apply filter_In. split; [exact Hin|]. cbn [fst]. now rewrite Hk. }
  apply in_split in Hf. destruct Hf as (l1 & l2 & ->).
  rewrite map_app, concat_all_app. cbn [map concat_all fold_right].
  fold (concat_all (map generic_line l2)).
  unfold generic_line at 2. cbn [fst snd].
  exists ("Current Context:" ++ LF ++ labelled_page_line pc ++ labelled_role_line pc
          ++ labelled_nav_line pc ++ labelled_action_lines pc
          ++ concat_all (map generic_line l1)),
         (concat_all (map generic_line l2) ++ LF
          ++ "Based on this context, provide relevant and specific assistance.").
  now rewrite !string_append_assoc.
Qed.

(** C6, as the code has it. For a page context with at least one key,
    context assembly adds exactly one system segment, right after the
    persona. Its text is the heading, the labelled lines of the declared
    fields that are set and not empty (Page from the first of currentPage,
    page and route that is not empty, User Role, Recent Pages joined by the
    separator, Recent Actions as a bulleted list), one line
    [- k: JSON(v)] for every other entry whose key is not [timestamp], and
    the closing sentence. The [timestamp] is never rendered: the text does
    not depend on it. An absent page context, or one without keys, adds no
    segment. *)
Theorem page_context_segment_rendering
    (svc : AIService) (cid : string) (um : option string) (pc : PageContext any) :
  Object_keys pc <> [] ->
  match buildContext svc cid None um with
  | Resolved (msgs, srcs) =>
      exists rest,
        msgs = persona_segment svc :: rest /\
        buildContext svc cid (Some pc) um
        = Resolved (persona_segment svc
                    :: {| role := system; content := getPageContextPrompt pc |}
                    :: rest, srcs)
  | Rejected e => buildContext svc cid (Some pc) um = Rejected e
  end /\
  getPageContextPrompt pc = page_context_lines pc /\
  (forall k v,
      In (k, v) (custom pc) ->
      includes RESERVED_KEYS k = false ->
      contains_line (getPageContextPrompt pc)
                    ("- " ++ k ++ ": " ++ JSON_stringify v ++ LF)) /\
  (forall t, getPageContextPrompt (with_timestamp t pc) = getPageContextPrompt pc) /\
  (forall pc0,
      Object_keys pc0 = [] ->
      buildContext svc cid (Some pc0) um = buildContext svc cid None um).
Proof.
  intros Hkeys. split; [|split; [|split; [|split]]].
  - unfold buildContext. rewrite (page_segments_some pc Hkeys).
    cbn [page_segments app]. destruct (rag_segments svc um) as [rag srcs].
    destruct (conversationHistory svc) as [h|].
    + destruct (getRecentMessages h cid 10) as [history|e]; [|reflexivity].
      eexists. split; reflexivity.
    + eexists. split; reflexivity.
  - apply getPageContextPrompt_text.
  - intros k v. apply generic_line_rendered.
  - intros t. reflexivity.
  - intros pc0 H0. unfold buildContext, page_segments. rewrite H0. reflexivity.
Qed.

End Properties.

(* ================================================================== *)
(** ** Runs of the examples *)
(* ================================================================== *)

(** Scenario C: two chunks, then [done]; no sources event. *)
Example scenario_C :
  trace (stream_endpoint (example_routes example_hello None) example_request)
  = (sse_headers ++
     [ Next; Write (chunk "Hel"); Next; Write (chunk "lo");
       Next; Write done; End ])%list.
Proof. reflexivity. Qed.

(** Scenario D: one passage retrieved, one sources event after the chunks. *)
Example scenario_D :
  writes (trace (stream_endpoint
                   {| aiService := example_rag_service example_rag_one example_hello;
                      storage := memory_storage example_table;
                      disconnectAfter := None |}
                   example_request))
  = [ chunk "Hel"; chunk "lo";
      sources_event [ {| source_type := "knowledge-base"; source_title := "Refunds";
                         source_href := None; relevance := 0.8%float |} ];
      done ].
Proof. reflexivity. Qed.

(** The retrieval segment of scenario D. *)
Example retrieval_segment_text :
  rag_segment [example_doc]
  = "**Relevant Information from Knowledge Base:**" ++ LF ++ LF ++
    "### Refunds" ++ LF ++
    "Refunds take five days." ++ LF ++
    "*(Relevance: 80%)*" ++ LF ++ LF ++ LF ++
    "Use this information to provide accurate guidance. Cite sources when relevant."
  /\ example_toFixed0 0.5%float = "1"
  /\ example_toFixed0 61.49%float = "61"
  /\ example_toFixed0 100%float = "100".
Proof. repeat split; vm_compute; reflexivity. Qed.

(** Scenario B: no user message in the conversation, no channel. *)
Example scenario_B :
  trace (stream_endpoint
           {| aiService := example_demo_service;
              storage := memory_storage
                [("conv-2", [ {| msg_id := "msg-9"; msg_conversationId := "conv-2";
                                 msg_role := "assistant"; msg_content := "" |} ])];
              disconnectAfter := None |}
           {| messageId := "msg-9"; contextParam := None |})
  = [ SendJson 400 "No user message found" ].
Proof. reflexivity. Qed.

(** The lines of a page context segment. *)
Example page_context_text :
  getPageContextPrompt
    (mkPageContext (Some "") (Some "/billing") (Some "/r") (Some "admin")
       (Some ["opened invoice"; "clicked pay"]) (Some ["/home"; "/billing"])
       (Some "2024-05-01T10:00:00Z") [("plan", "7"); ("page", "8"); ("theme", "9")])
  = "Current Context:" ++ LF ++
    "- Page: /billing" ++ LF ++
    "- User Role: admin" ++ LF ++
    "- Recent Pages: /home" ++ ARROW ++ "/billing" ++ LF ++
    "- Recent Actions:" ++ LF ++
    "  * opened invoice" ++ LF ++
    "  * clicked pay" ++ LF ++
    "- plan: 7" ++ LF ++
    "- theme: 9" ++ LF ++
    LF ++ "Based on this context, provide relevant and specific assistance.".
Proof. reflexivity. Qed.

(** The in-memory storage hands out the last ten messages. *)
Example slice_last_window :
  slice_last 10 [1; 2; 3; 4; 5; 6; 7; 8; 9; 10; 11; 12]
  = [3; 4; 5; 6; 7; 8; 9; 10; 11; 12]
  /\ slice_last 10 [1; 2; 3] = [1; 2; 3].
Proof. split; reflexivity. Qed.

(* ------------------------------------------------------------------ *)
(** *** C1 *)

Lemma stream_event_order_witness :
  In FlushHeaders
     (trace (stream_endpoint (example_routes example_hello None) example_request)) /\
  wire_grammar
    (writes (trace (stream_endpoint (example_routes example_hello None) example_request)))
  = true.
Proof.
  assert (H : In FlushHeaders
                (trace (stream_endpoint (example_routes example_hello None)
                          example_request))).
  { vm_compute. right. right. right. left. reflexivity. }
  split; [exact H|].
  exact (proj1 (stream_event_order (example_routes example_hello None) example_request H)).
Defined.

(* ------------------------------------------------------------------ *)
(** *** C2 *)



(** With an empty current user message, a page context that has keys and
    no history collaborator, the prompt is the persona and the page context
    segment, and it ends with the latter. *)
Example empty_user_message_ends_with_page_context :
  let svc := AIService_new (example_new_client example_hello)
               (example_config (Some "sk-live")) None in
  buildContext svc "conv-1" (Some example_page_context) (Some "")
  = Resolved ([ persona_segment svc;
                {| role := system;
                   content := getPageContextPrompt example_page_context |} ], []).
Proof. reflexivity. Qed.

(* ------------------------------------------------------------------ *)
(** *** C3 *)

(** A service whose history collaborator is the in-memory storage holding
    the long conversation. *)
Lemma history_window_is_bounded_witness :
  conversationHistory example_long_service
  = Some (as_history (memory_storage example_long_table)) /\
  example_long_table
  = ([("conv-0", [ example_stored "0" "user" ])]
     ++ ("conv-long", example_long_conversation) :: [])%list /\
  (forall k msgs, In (k, msgs) [("conv-0", [ example_stored "0" "user" ])] ->
                  k <> "conv-long") /\
  getRecentMessages (as_history (memory_storage example_long_table)) "conv-long" 10
  = Resolved (map (fun m => {| entry_role := msg_role m;
                               entry_content := msg_content m |})
                  (spec_last 10 example_long_conversation)).
Proof.
  assert (Hfirst : forall k msgs,
             In (k, msgs) [("conv-0", [ example_stored "0" "user" ])] ->
             k <> "conv-long").
  { intros k msgs [H|[]]. injection H as <- _. discriminate. }
  split; [reflexivity|]. split; [reflexivity|]. split; [exact Hfirst|].
  exact (proj1 (proj1 (proj2 (history_window_is_bounded example_long_service "conv-long"
                                None (Some "Hi")))
                      example_long_table [("conv-0", [ example_stored "0" "user" ])]
                      example_long_conversation [] eq_refl eq_refl Hfirst)).
Defined.

(** The prompt assembled over the long conversation: of its twelve
    messages the first two are not in the window, and the ninth, stored
    under the role [tool], gives no segment. *)
Example long_conversation_prompt :
  buildContext example_long_service "conv-long" None (Some "Hi")
  = Resolved ([ persona_segment example_long_service;
                {| role := user; content := "text 3" |};
                {| role := assistant; content := "text 4" |};
                {| role := user; content := "text 5" |};
                {| role := assistant; content := "text 6" |};
                {| role := user; content := "text 7" |};
                {| role := assistant; content := "text 8" |};
                {| role := assistant; content := "text 10" |};
                {| role := user; content := "text 11" |};
                {| role := assistant; content := "text 12" |};
                {| role := user; content := "Hi" |} ], []).
Proof. reflexivity. Qed.

(** Context assembly does not bound the history itself: with a
    collaborator that answers the request for 10 entries with twenty, the
    prompt holds the persona, twenty history segments and the current user
    turn, 22 segments, more than the 14 of the bound. *)
Lemma unbounded_history_is_not_truncated :
  getRecentMessages example_unbounded_history "conv-1" 10
  = Resolved example_twenty_entries /\
  length example_twenty_entries = 20 /\
  buildContext example_unbounded_service "conv-1" None (Some "Hi")
  = Resolved ((persona_segment example_unbounded_service
               :: history_segments example_twenty_entries
               ++ [ {| role := user; content := "Hi" |} ])%list, []) /\
  length (history_segments example_twenty_entries) = 20 /\
  length (persona_segment example_unbounded_service
          :: history_segments example_twenty_entries
          ++ [ {| role := user; content := "Hi" |} ]) = 22 /\
  ~ length (persona_segment example_unbounded_service
            :: history_segments example_twenty_entries
            ++ [ {| role := user; content := "Hi" |} ]) <= 14.
Proof.
  split; [reflexivity|]. split; [reflexivity|]. split; [reflexivity|].
  split; [reflexivity|]. split; [reflexivity|].
  intros H. vm_compute in H. lia.
Qed.

(* ------------------------------------------------------------------ *)
(** *** C4 *)

Lemma exactly_one_error_path_witness :
  raised_error (example_routes (Rejected example_auth_error) None) example_request
  = Some (new_Error AUTH_MESSAGE) /\
  (error_events
     (trace (stream_endpoint (example_routes (Rejected example_auth_error) None)
               example_request)) = 0 \/
   error_events
     (trace (stream_endpoint (example_routes (Rejected example_auth_error) None)
               example_request)) = 1).
Proof.
  split; [reflexivity|].
  destruct (exactly_one_error_path
              (example_routes (Rejected example_auth_error) None) example_request
              (new_Error AUTH_MESSAGE) eq_refl)
    as [(_ & _ & _ & _ & _ & H0) | (cid & um & at_raise & _ & _ & _ & _ & _ & H1 & _)].
  - left. exact H0.
  - right. exact H1.
Defined.

(* ------------------------------------------------------------------ *)
(** *** C5 *)

Lemma backend_failure_is_normalized_witness :
  backend_failure (example_service (Rejected example_auth_error)) "conv-1" "Hello" None
  = Some example_auth_error /\
  thrown (streamChatCompletion (example_service (Rejected example_auth_error))
            "conv-1" "Hello" None)
  = Some (new_Error (normalized_message example_auth_error)).
Proof.
  split; [reflexivity|].
  exact (proj1 (backend_failure_is_normalized
                  (example_service (Rejected example_auth_error)) "conv-1" "Hello" None
                  example_auth_error eq_refl)).
Defined.

(** Scenario E at the endpoint. *)
Example scenario_E :
  trace (stream_endpoint (example_routes (Rejected example_auth_error) None)
           example_request)
  = (sse_headers ++
     [ Next;
       Write (error_event
                (Some "API authentication failed. Please contact your administrator."));
       End ])%list.
Proof. reflexivity. Qed.

(* ------------------------------------------------------------------ *)
(** *** C6 *)

Lemma page_context_segment_rendering_witness :
  Object_keys example_page_context <> [] /\
  contains_line (getPageContextPrompt example_page_context) ("- plan: {}" ++ LF) /\
  getPageContextPrompt example_page_context
  = page_context_lines example_page_context.
Proof.
  assert (H : Object_keys example_page_context <> []) by discriminate.
  pose proof (page_context_segment_rendering example_demo_service "conv-1"
                (Some "Hi") example_page_context H) as (_ & Htext & Hline & _).
  split; [exact H|]. split; [|exact Htext].
  exact (Hline "plan" "{}" (or_introl eq_refl) eq_refl).
Defined.

(** A page context that holds only a [timestamp] is not empty, so a segment
    is added; [timestamp] is not one of the labelled keys, yet the segment
    has no line for it: its text is the heading and the closing sentence. *)
Lemma timestamp_is_not_rendered :
  In "timestamp" (Object_keys example_timestamp_context) /\
  ~ In "timestamp" LABELLED_KEYS /\
  page_segments (Some example_timestamp_context)
  = [ {| role := system;
         content := "Current Context:" ++ LF ++ LF ++
                    "Based on this context, provide relevant and specific assistance." |} ] /\
  ~ contains_line (getPageContextPrompt example_timestamp_context) "timestamp: ".
Proof.
  split; [left; reflexivity|].
  split.
  { cbn. intros H. repeat (destruct H as [H|H]; [discriminate|]). exact H. }
  split; [reflexivity|].
  intros H. apply occurs_complete in H. vm_compute in H. discriminate.
Qed.

(* ------------------------------------------------------------------ *)
(** *** C7 *)

Lemma retrieval_failure_is_empty_result_witness :
  cfg_ragService (example_rag_service example_rag_failing example_hello)
  = Some example_rag_failing /\
  retrieveRelevantDocuments example_rag_failing "Hi" 3 0.6%float
  = Rejected (new_Error "Failed to connect to vector database. Ensure Chroma is running.") /\
  retrieveRelevantDocuments example_rag_empty "Hi" 3 0.6%float = Resolved [] /\
  buildContext (example_rag_service example_rag_failing example_hello)
    "conv-1" None (Some "Hi")
  = buildContext
      (with_ragService (Some example_rag_empty)
         (example_rag_service example_rag_failing example_hello))
      "conv-1" None (Some "Hi").
Proof.
  split; [reflexivity|]. split; [reflexivity|]. split; [reflexivity|].
  exact (proj1 (retrieval_failure_is_empty_result
                  (example_rag_service example_rag_failing example_hello)
                  "conv-1" None (Some "Hi") example_rag_failing example_rag_empty
                  _ eq_refl eq_refl eq_refl)).
Defined.

(* ------------------------------------------------------------------ *)
(** *** C8 *)

(** Scenario F: the client goes away after two chunks; the handler pulls
    the adapter twice more and calls [write] for the third chunk and for
    [done]. *)
Lemma handler_keeps_pulling_after_disconnect :
  received (stream_endpoint (example_routes example_three_fragments (Some 2))
              example_request)
  = [chunk "a"; chunk "b"] /\
  after_disconnect (stream_endpoint (example_routes example_three_fragments (Some 2))
                      example_request)
  = [Next; Write (chunk "c"); Next; Write done; End] /\
  existsb is_pull_or_write
    (after_disconnect (stream_endpoint (example_routes example_three_fragments (Some 2))
                         example_request))
  = true.
Proof. repeat split. Qed.

(* ------------------------------------------------------------------ *)
(** *** C9 *)


(** The fragments in the words of the specification, on a stream whose
    chunks carry [Hel], nothing, the empty text and [lo]; and a backend with
    text after which the adapter adds nothing, whereas it apologises once
    after a silent one. *)
Example nonempty_fragments_of_a_stream :
  spec_nonempty_fragments [Some "Hel"; None; Some ""; Some "lo"] = ["Hel"; "lo"]
  /\ yielded (streamChatCompletion (example_service example_three_fragments)
                "conv-1" "Hello" None)
     = [Text "a"; Text "b"; Text "c"]
  /\ yielded (streamChatCompletion (example_service (Resolved example_silent))
                "conv-1" "Hello" None)
     = [Text FALLBACK_MESSAGE].
Proof. repeat split. Qed.

(** A backend with text: no fallback. *)
Example no_fallback_with_text :
  texts_of (yielded (streamChatCompletion (example_service example_hello)
                       "conv-1" "Hello" None))
  = ["Hel"; "lo"].
Proof. reflexivity. Qed.

(* ------------------------------------------------------------------ *)
(** *** C10 *)

Lemma demo_mode_stream_is_constant_witness :
  unconfigured example_demo_service = true /\
  unconfigured
    (AIService_new (example_new_client example_hello)
       (example_config (Some "sk-your-api-key-here")) None) = true /\
  streamChatCompletion example_demo_service "conv-1" "Hello" None
  = streamChatCompletion
      (AIService_new (example_new_client example_hello)
         (example_config (Some "sk-your-api-key-here")) None)
      "conv-7" "What is my balance?" (Some example_page_context).
Proof.
  split; [reflexivity|]. split; [reflexivity|].
  exact (proj1 (demo_mode_stream_is_constant
                  example_demo_service
                  (AIService_new (example_new_client example_hello)
                     (example_config (Some "sk-your-api-key-here")) None)
                  "conv-1" "conv-7" "Hello" "What is my balance?"
                  None (Some example_page_context) eq_refl eq_refl)).
Defined.

(* ================================================================== *)
(** ** Further properties: the in-memory storage *)
(* ================================================================== *)

Lemma table_get_push_same (t : MessageTable) (cid : string) (m : StoredMessage) :
  table_get (table_push t cid m) cid = (table_get t cid ++ [m])%list.
Proof.
  induction t as [|[k msgs] t IH]; cbn [table_push table_get].
  - now rewrite String.eqb_refl.
  - destruct (k =? cid) eqn:Hk; cbn [table_get]; rewrite Hk; [reflexivity | exact IH].
Qed.

Lemma table_get_push_other (t : MessageTable) (cid cid' : string) (m : StoredMessage) :
  cid' <> cid -> table_get (table_push t cid m) cid' = table_get t cid'.
Proof.
  intros Hne. induction t as [|[k msgs] t IH]; cbn [table_push table_get].
  - destruct (String.eqb_spec cid cid'); [congruence | reflexivity].
  - destruct (k =? cid) eqn:Hk; cbn [table_get].
    + apply String.eqb_eq in Hk. subst k.
      destruct (String.eqb_spec cid cid'); [congruence | reflexivity].
    + destruct (k =? cid'); [reflexivity | exact IH].
Qed.

Lemma find_app_none {A : Type} (f : A -> bool) (l1 l2 : list A) :
  find f l1 = None -> find f (l1 ++ l2) = find f l2.
Proof.
  induction l1 as [|x l1 IH]; cbn; [reflexivity|].
  destruct (f x); [discriminate | exact IH].
Qed.

Lemma find_app_some {A : Type} (f : A -> bool) (l1 l2 : list A) (x : A) :
  find f l1 = Some x -> find f (l1 ++ l2) = Some x.
Proof.
  induction l1 as [|y l1 IH]; cbn; [discriminate|].
  destruct (f y); [trivial | exact IH].
Qed.

Lemma memory_getMessage_none (t : MessageTable) (id : string) :
  memory_getMessage t id = None ->
  forall k msgs, In (k, msgs) t -> find (fun m => msg_id m =? id) msgs = None.
Proof.
  induction t as [|[k0 msgs0] t IH]; cbn [memory_getMessage]; [intros _ k msgs []|].
  destruct (find (fun m => msg_id m =? id) msgs0) eqn:Hf; [discriminate|].
  intros Hn k msgs [Heq|Hin]; [injection Heq as <- <-; exact Hf | now apply (IH Hn k)].
Qed.

(** A message stored under an identifier that no stored message has is the
    one [getMessage] finds. *)
Lemma memory_getMessage_push_fresh (t : MessageTable) (cid : string) (m : StoredMessage) :
  memory_getMessage t (msg_id m) = None ->
  memory_getMessage (table_push t cid m) (msg_id m) = Some m.
Proof.
  induction t as [|[k msgs] t IH]; cbn [memory_getMessage table_push].
  - intros _. cbn. now rewrite String.eqb_refl.
  - destruct (find (fun m0 => msg_id m0 =? msg_id m) msgs) eqn:Hf; [discriminate|].
    intros Hn. destruct (k =? cid); cbn [memory_getMessage].
    + rewrite (find_app_none _ msgs [m] Hf). cbn. now rewrite String.eqb_refl.
    + rewrite Hf. now apply IH.
Qed.

(** Looking up another identifier is not affected by the new message. *)
Lemma memory_getMessage_push_other (t : MessageTable) (cid id : string)
    (m : StoredMessage) :
  msg_id m <> id ->
  memory_getMessage (table_push t cid m) id = memory_getMessage t id.
Proof.
  intros Hne.
  assert (Hm : (msg_id m =? id) = false) by now apply String.eqb_neq.
  induction t as [|[k msgs] t IH]; cbn [memory_getMessage table_push].
  - cbn. now rewrite Hm.
  - destruct (k =? cid); cbn [memory_getMessage].
    + destruct (find (fun m0 => msg_id m0 =? id) msgs) eqn:Hf.
      * now rewrite (find_app_some _ msgs [m] _ Hf).
      * rewrite (find_app_none _ msgs [m] Hf). cbn. now rewrite Hm.
    + destruct (find (fun m0 => msg_id m0 =? id) msgs); [reflexivity | exact IH].
Qed.

(** X1. After [createMessage], every window of at least one message on the
    conversation ends with the new message, preceded by the window of one
    message less on the older ones; the other conversations read as
    before. *)
Theorem created_message_is_most_recent
    (env : nat -> Reading) (cid role content : string) (st : MemoryStore)
    (limit : nat) :
  limit <> 0 ->
  let st' := snd (memory_createMessage env cid role content st) in
  memory_getRecentMessages (messages st') cid limit
  = (map (fun m => {| entry_role := msg_role m; entry_content := msg_content m |})
         (skipn (length (table_get (messages st) cid) - (limit - 1))
                (table_get (messages st) cid))
     ++ [ {| entry_role := role; entry_content := content |} ])%list /\
  (forall cid' n, cid' <> cid ->
     memory_getRecentMessages (messages st') cid' n
     = memory_getRecentMessages (messages st) cid' n).
Proof.
  intros Hl st'. subst st'. cbn [memory_createMessage snd messages]. split.
  - unfold memory_getRecentMessages, slice_last.
    destruct (Nat.eqb_spec limit 0) as [|_]; [contradiction|].
    rewrite table_get_push_same, length_app. cbn [length].
    set (old := table_get (messages st) cid).
    rewrite skipn_app.
    replace (length old + 1 - limit) with (length old - (limit - 1)) by lia.
    replace (length old - (limit - 1) - length old) with 0 by lia.
    cbn [skipn]. rewrite map_app. reflexivity.
  - intros cid' n Hne. unfold memory_getRecentMessages.
    now rewrite table_get_push_other.
Qed.

(** X2. [getMessage] after [createMessage]: when no stored message has the
    identifier drawn for the new one, the new message is found under it;
    every other identifier is looked up as before. *)
Theorem created_message_is_found
    (env : nat -> Reading) (cid role content : string) (st : MemoryStore) :
  let m := {| msg_id := "msg-" ++ decimal (date_now (env (tick st))) ++ "-"
                        ++ math_random (env (tick st));
              msg_conversationId := cid; msg_role := role; msg_content := content |} in
  let st' := snd (memory_createMessage env cid role content st) in
  memory_getMessage (messages st) (msg_id m) = None ->
  fst (memory_createMessage env cid role content st) = Resolved m /\
  memory_getMessage (messages st') (msg_id m) = Some m /\
  (forall id, id <> msg_id m ->
     memory_getMessage (messages st') id = memory_getMessage (messages st) id).
Proof.
  intros m st' Hfresh. subst st'. cbn [memory_createMessage fst snd messages].
  fold m. split; [reflexivity|]. split.
  - now apply memory_getMessage_push_fresh.
  - intros id Hne. apply memory_getMessage_push_other. congruence.
Qed.

(** X3. [getRecentMessages(conversationId, limit)] returns the end of the
    conversation in stored order: [min limit n] messages for a limit of at
    least 1, and the whole conversation for the limit 0. *)
Theorem recent_messages_window (t : MessageTable) (cid : string) (limit : nat) :
  let all := map (fun m => {| entry_role := msg_role m; entry_content := msg_content m |})
                 (table_get t cid) in
  let window := memory_getRecentMessages t cid limit in
  (exists older, all = (older ++ window)%list) /\
  (limit <> 0 -> length window = Nat.min limit (length all)) /\
  (limit = 0 -> window = all).
Proof.
  intros all window. subst all window. unfold memory_getRecentMessages, slice_last.
  set (l := table_get t cid). split; [|split].
  - destruct (limit =? 0)%nat.
    + exists []. reflexivity.
    + exists (map (fun m => {| entry_role := msg_role m; entry_content := msg_content m |})
                  (firstn (length l - limit) l)).
      rewrite <- map_app, firstn_skipn. reflexivity.
  - intros Hl. destruct (Nat.eqb_spec limit 0) as [|_]; [contradiction|].
    rewrite !length_map, length_skipn. lia.
  - intros ->. reflexivity.
Qed.

Lemma map_get_set_same {V : Type} (m : list (string * V)) (key : string) (v : V) :
  map_get (map_set m key v) key = Some v.
Proof.
  induction m as [|[k w] m IH]; cbn [map_set map_get].
  - now rewrite String.eqb_refl.
  - destruct (k =? key) eqn:Hk; cbn [map_get]; rewrite Hk; [reflexivity | exact IH].
Qed.

Lemma map_get_set_other {V : Type} (m : list (string * V)) (key key' : string) (v : V) :
  key' <> key -> map_get (map_set m key v) key' = map_get m key'.
Proof.
  intros Hne. induction m as [|[k w] m IH]; cbn [map_set map_get].
  - destruct (String.eqb_spec key key'); [congruence | reflexivity].
  - destruct (k =? key) eqn:Hk; cbn [map_get].
    + apply String.eqb_eq in Hk. subst k.
      destruct (String.eqb_spec key key'); [congruence | reflexivity].
    + destruct (k =? key'); [reflexivity | exact IH].
Qed.

Lemma map_set_length {V : Type} (m : list (string * V)) (key : string) (v : V) :
  length (map_set m key v)
  = match map_get m key with Some _ => length m | None => S (length m) end.
Proof.
  induction m as [|[k w] m IH]; cbn [map_set map_get]; [reflexivity|].
  destruct (k =? key); cbn [length]; [reflexivity|].
  rewrite IH. destruct (map_get m key); reflexivity.
Qed.

(** X4. On the in-memory storage, [POST /conversations] followed by
    [GET /conversations/:id] with the identifier of the reply returns the
    conversation just created, under the title sent, or under
    [New Conversation] when the title is missing or empty; conversations
    with another identifier are found as before, and no message is
    touched. *)
Theorem created_conversation_is_served
    (env : nat -> Reading) (title : option string) (st : MemoryStore) :
  let id := "conv-" ++ decimal (date_now (env (tick st))) in
  let created :=
    {| conv_id := id; conv_title := or_default title "New Conversation";
       conv_createdAt := new_date (env (tick st)) |} in
  let st' := snd (post_conversations (memory_ops env) title st) in
  fst (post_conversations (memory_ops env) title st)
  = {| reply_status := 200;
       reply_body := ConversationCreated id (or_default title "New Conversation")
                       (new_date (env (tick st))) |} /\
  get_conversation (memory_ops env) id st'
  = ({| reply_status := 200; reply_body := ConversationBody created |}, st') /\
  (forall id', id' <> id ->
     fst (get_conversation (memory_ops env) id' st')
     = fst (get_conversation (memory_ops env) id' st)) /\
  messages st' = messages st.
Proof.
  intros id created st'. subst st'.
  unfold post_conversations, get_conversation.
  cbn [memory_ops createConversation getConversation memory_createConversation
       memory_getConversation fst snd conversations messages].
  fold id. fold created. split; [reflexivity|]. split; [|split].
  - now rewrite map_get_set_same.
  - intros id' Hne. rewrite map_get_set_other by exact Hne.
    destruct (map_get (conversations st) id'); reflexivity.
  - reflexivity.
Qed.

(** X5. Two conversations created while [Date.now()] reads the same
    millisecond get the same identifier: the second takes the place of the
    first, which can no longer be fetched, and the number of conversations
    does not grow. *)
Theorem same_millisecond_conversations_collide
    (env : nat -> Reading) (title1 title2 : string) (st : MemoryStore) :
  date_now (env (tick st)) = date_now (env (S (tick st))) ->
  let st1 := snd (memory_createConversation env title1 st) in
  let st2 := snd (memory_createConversation env title2 st1) in
  let id := "conv-" ++ decimal (date_now (env (tick st))) in
  fst (memory_createConversation env title1 st)
  = Resolved {| conv_id := id; conv_title := title1;
                conv_createdAt := new_date (env (tick st)) |} /\
  fst (memory_getConversation id st2)
  = Resolved (Some {| conv_id := id; conv_title := title2;
                      conv_createdAt := new_date (env (S (tick st))) |}) /\
  length (conversations st2) = length (conversations st1).
Proof.
  intros Hsame st1 st2 id. subst st1 st2.
  cbn [memory_createConversation memory_getConversation fst snd conversations tick].
  rewrite <- Hsame. fold id. split; [reflexivity|]. split.
  - now rewrite map_get_set_same.
  - rewrite (map_set_length (map_set (conversations st) id _) id).
    now rewrite map_get_set_same.
Qed.

(** X6. [POST /messages] rejects a request whose [conversationId] or
    [content] is missing or empty with status 400 before any call to the
    storage, whatever the storage is; when both are present and the storage
    knows no such conversation it answers 404 and [createMessage] is not
    called: the state is the one left by [getConversation], which on the
    in-memory storage is the state before the request. *)
Theorem rejected_submission_creates_nothing
    (S : Type) (ops : StorageOps S) (conversationId content : option string) (s : S) :
  (truthy conversationId = false \/ truthy content = false ->
     post_messages ops conversationId content s
     = ({| reply_status := 400;
           reply_body := ErrorBody "Missing conversationId or content" |}, s)) /\
  (truthy conversationId = true -> truthy content = true ->
   fst (getConversation ops (interpolate conversationId) s) = Resolved None ->
     post_messages ops conversationId content s
     = ({| reply_status := 404; reply_body := ErrorBody "Conversation not found" |},
        snd (getConversation ops (interpolate conversationId) s))) /\
  (forall env st,
     truthy conversationId = true -> truthy content = true ->
     map_get (conversations st) (interpolate conversationId) = None ->
     post_messages (memory_ops env) conversationId content st
     = ({| reply_status := 404; reply_body := ErrorBody "Conversation not found" |}, st)).
Proof.
  split; [|split].
  - intros H. unfold post_messages.
    destruct H as [-> | ->]; cbn [negb orb]; [reflexivity|].
    now rewrite orb_true_r.
  - intros Hc Ht Hg. unfold post_messages. rewrite Hc, Ht. cbn [negb orb].
    destruct (getConversation ops (interpolate conversationId) s) as [p s'].
    cbn [fst snd] in *. subst p. reflexivity.
  - intros env st Hc Ht Hg. unfold post_messages. rewrite Hc, Ht. cbn [negb orb].
    cbn [memory_ops getConversation memory_getConversation]. now rewrite Hg.
Qed.

(** X7. On the in-memory storage a submission with both fields present for
    a known conversation stores exactly two messages at the end of the
    conversation, the user message with the content sent and then an
    assistant placeholder with empty content; the reply carries their two
    identifiers and the stream locator [/stream/<placeholder id>]. *)
Theorem accepted_submission_stores_two_messages
    (env : nat -> Reading) (cid content : string) (st : MemoryStore) :
  cid <> "" -> content <> "" ->
  map_get (conversations st) cid <> None ->
  let u := {| msg_id := "msg-" ++ decimal (date_now (env (tick st))) ++ "-"
                        ++ math_random (env (tick st));
              msg_conversationId := cid; msg_role := "user"; msg_content := content |} in
  let a := {| msg_id := "msg-" ++ decimal (date_now (env (S (tick st)))) ++ "-"
                        ++ math_random (env (S (tick st)));
              msg_conversationId := cid; msg_role := "assistant"; msg_content := "" |} in
  let st' := snd (post_messages (memory_ops env) (Some cid) (Some content) st) in
  fst (post_messages (memory_ops env) (Some cid) (Some content) st)
  = {| reply_status := 200;
       reply_body := MessageCreated (msg_id a) (msg_id u) ("/stream/" ++ msg_id a) |} /\
  table_get (messages st') cid = (table_get (messages st) cid ++ [u; a])%list /\
  (forall cid', cid' <> cid -> table_get (messages st') cid' = table_get (messages st) cid') /\
  conversations st' = conversations st.
Proof.
  intros Hc Ht Hknown u a st'. subst st'. unfold post_messages, truthy.
  destruct (String.eqb_spec cid "") as [|_]; [contradiction|].
  destruct (String.eqb_spec content "") as [|_]; [contradiction|].
  cbn [negb orb interpolate memory_ops getConversation createMessage
       memory_getConversation].
  destruct (map_get (conversations st) cid) as [c|]; [|contradiction].
  cbn [memory_createMessage tick messages conversations fst snd].
  fold u. fold a. split; [reflexivity|]. split; [|split].
  - rewrite !table_get_push_same, <- app_assoc. reflexivity.
  - intros cid' Hne. now rewrite !table_get_push_other.
  - reflexivity.
Qed.

(** X8. [POST /messages] does not undo the user message when the
    placeholder cannot be created: if the second [createMessage] is
    rejected, the reply is the status 500, and the state is the one that the
    creation of the user message produced, passed through the failed
    call. *)
Theorem failed_placeholder_keeps_user_message
    (S : Type) (ops : StorageOps S) (cid content : string) (s s1 s2 s3 : S)
    (c : Conversation) (u : StoredMessage) (e : JsError) :
  cid <> "" -> content <> "" ->
  getConversation ops cid s = (Resolved (Some c), s1) ->
  createMessage ops cid "user" content s1 = (Resolved u, s2) ->
  createMessage ops cid "assistant" "" s2 = (Rejected e, s3) ->
  post_messages ops (Some cid) (Some content) s
  = ({| reply_status := 500; reply_body := ErrorBody "Failed to create message" |}, s3).
Proof.
  intros Hc Ht Hg Hu Ha. unfold post_messages, truthy.
  destruct (String.eqb_spec cid "") as [|_]; [contradiction|].
  destruct (String.eqb_spec content "") as [|_]; [contradiction|].
  cbn [negb orb interpolate]. now rewrite Hg, Hu, Ha.
Qed.

Lemma slice_last_two_more {A : Type} (l : list A) (x y : A) :
  exists older, slice_last 10 (l ++ [x; y]) = (older ++ [x; y])%list.
Proof.
  unfold slice_last. cbn [Nat.eqb]. rewrite skipn_app, length_app. cbn [length].
  replace (length l + 2 - 10 - length l) with 0 by lia.
  exists (skipn (length l + 2 - 10) l). reflexivity.
Qed.

Lemma post_messages_memory_accepted
    (env : nat -> Reading) (cid content : string) (st : MemoryStore) :
  cid <> "" -> content <> "" ->
  map_get (conversations st) cid <> None ->
  let u := {| msg_id := "msg-" ++ decimal (date_now (env (tick st))) ++ "-"
                        ++ math_random (env (tick st));
              msg_conversationId := cid; msg_role := "user"; msg_content := content |} in
  let a := {| msg_id := "msg-" ++ decimal (date_now (env (S (tick st)))) ++ "-"
                        ++ math_random (env (S (tick st)));
              msg_conversationId := cid; msg_role := "assistant"; msg_content := "" |} in
  post_messages (memory_ops env) (Some cid) (Some content) st
  = ({| reply_status := 200;
        reply_body := MessageCreated (msg_id a) (msg_id u) ("/stream/" ++ msg_id a) |},
     {| conversations := conversations st;
        messages := table_push (table_push (messages st) cid u) cid a;
        tick := S (S (tick st)) |}).
Proof.
  intros Hc Ht Hknown u a. unfold post_messages, truthy.
  destruct (String.eqb_spec cid "") as [|_]; [contradiction|].
  destruct (String.eqb_spec content "") as [|_]; [contradiction|].
  cbn [negb orb interpolate memory_ops getConversation createMessage
       memory_getConversation].
  destruct (map_get (conversations st) cid) as [c|]; [|contradiction].
  reflexivity.
Qed.

Lemma memory_getMessage_some (t : MessageTable) (id : string) (m : StoredMessage) :
  memory_getMessage t id = Some m ->
  msg_id m = id /\ exists k msgs, In (k, msgs) t /\ In m msgs.
Proof.
  induction t as [|[k msgs] t IH]; cbn [memory_getMessage]; [discriminate|].
  destruct (find (fun m0 => msg_id m0 =? id) msgs) as [x|] eqn:Hf.
  - intros H. injection H as ->. apply find_some in Hf. destruct Hf as [Hin Hid].
    apply String.eqb_eq in Hid. split; [exact Hid|].
    exists k, msgs. split; [now left | exact Hin].
  - intros H. destruct (IH H) as (Hid & k' & msgs' & Hin & Hm).
    split; [exact Hid|]. exists k', msgs'. split; [now right | exact Hm].
Qed.

Lemma memory_getMessage_stored (t : MessageTable) (k : string)
    (msgs : list StoredMessage) (m : StoredMessage) :
  In (k, msgs) t -> In m msgs -> memory_getMessage t (msg_id m) <> None.
Proof.
  intros Hin Hm Hnone.
  pose proof (memory_getMessage_none t (msg_id m) Hnone k msgs Hin) as Hf.
  apply (find_none _ _ Hf) in Hm. cbn in Hm. now rewrite String.eqb_refl in Hm.
Qed.

Lemma table_push_in (t : MessageTable) (cid : string) (m0 : StoredMessage)
    (k : string) (msgs : list StoredMessage) (m : StoredMessage) :
  In (k, msgs) (table_push t cid m0) -> In m msgs ->
  m = m0 \/ exists msgs', In (k, msgs') t /\ In m msgs'.
Proof.
  induction t as [|[k0 msgs0] t IH]; cbn [table_push].
  - intros [H|[]] Hm. injection H as <- <-. destruct Hm as [->|[]]. now left.
  - destruct (k0 =? cid).
    + intros [H|H] Hm.
      * injection H as <- <-. apply in_app_or in Hm. destruct Hm as [Hm|[->|[]]].
        -- right. exists msgs0. split; [now left | exact Hm].
        -- now left.
      * right. exists msgs. split; [now right | exact Hm].
    + intros [H|H] Hm.
      * injection H as <- <-. right. exists msgs0. split; [now left | exact Hm].
      * destruct (IH H Hm) as [->|(msgs' & Hin & Hm')]; [now left|].
        right. exists msgs'. split; [now right | exact Hm'].
Qed.

Lemma table_push_has (t : MessageTable) (cid : string) (m : StoredMessage) :
  exists msgs, In (cid, msgs) (table_push t cid m) /\ In m msgs.
Proof.
  induction t as [|[k0 msgs0] t IH]; cbn [table_push].
  - exists [m]. split; now left.
  - destruct (String.eqb_spec k0 cid) as [->|Hne].
    + exists (msgs0 ++ [m])%list. split; [now left|]. apply in_or_app. right. now left.
    + destruct IH as (msgs & Hin & Hm). exists msgs. split; [now right | exact Hm].
Qed.

Section SubmitThenStream.
Context {rt : JsRuntime}.

(** X9. Submission and streaming compose on the in-memory storage: after
    an accepted [POST /messages], provided no older message has the
    identifier drawn for the placeholder, [GET /stream/<messageId>] with the
    identifier of the reply passes validation for the conversation and the
    content just submitted; the channel is opened and the adapter is asked
    about exactly that content. *)
Theorem submitted_message_is_the_one_streamed
    (env : nat -> Reading) (cid content : string) (st : MemoryStore)
    (svc : AIService) (d : option nat) (ctx : option string) :
  cid <> "" -> content <> "" ->
  map_get (conversations st) cid <> None ->
  let mid := "msg-" ++ decimal (date_now (env (S (tick st)))) ++ "-"
             ++ math_random (env (S (tick st))) in
  memory_getMessage (messages st) mid = None ->
  let st' := snd (post_messages (memory_ops env) (Some cid) (Some content) st) in
  let routes := {| aiService := svc; storage := memory_storage (messages st');
                   disconnectAfter := d |} in
  let req := {| messageId := mid; contextParam := ctx |} in
  (exists uid, fst (post_messages (memory_ops env) (Some cid) (Some content) st)
               = {| reply_status := 200;
                    reply_body := MessageCreated mid uid ("/stream/" ++ mid) |}) /\
  validate (memory_storage (messages st')) mid = Valid cid content /\
  trace (stream_endpoint routes req)
  = (sse_headers
     ++ stream_trace (streamChatCompletion svc cid content
                        (Some (parse_context ctx))))%list.
Proof.
  intros Hc Ht Hknown mid Hfresh st' routes req.
  pose proof (post_messages_memory_accepted env cid content st Hc Ht Hknown) as Hpost.
  cbv zeta in Hpost. fold mid in Hpost.
  set (u := {| msg_id := "msg-" ++ decimal (date_now (env (tick st))) ++ "-"
                         ++ math_random (env (tick st));
               msg_conversationId := cid; msg_role := "user";
               msg_content := content |}) in *.
  set (a := {| msg_id := mid; msg_conversationId := cid; msg_role := "assistant";
               msg_content := "" |}) in *.
  set (t2 := table_push (table_push (messages st) cid u) cid a) in *.
  assert (Hst : messages st' = t2) by (subst st'; now rewrite Hpost).
  assert (Hget : exists m, memory_getMessage t2 mid = Some m /\ msg_conversationId m = cid).
  { destruct (table_push_has (table_push (messages st) cid u) cid a) as (msgs & Hin & Hm).
    pose proof (memory_getMessage_stored t2 cid msgs a Hin Hm) as Hsome.
    cbn [msg_id a] in Hsome.
    destruct (memory_getMessage t2 mid) as [m|] eqn:Hg; [|contradiction].
    exists m. split; [reflexivity|].
    destruct (memory_getMessage_some t2 mid m Hg) as (Hid & k & msgs1 & Hin1 & Hm1).
    destruct (table_push_in _ cid a k msgs1 m Hin1 Hm1) as [->|(msgs2 & Hin2 & Hm2)];
      [reflexivity|].
    destruct (table_push_in _ cid u k msgs2 m Hin2 Hm2) as [->|(msgs3 & Hin3 & Hm3)];
      [reflexivity|].
    exfalso. apply (memory_getMessage_stored (messages st) k msgs3 m Hin3 Hm3).
    now rewrite Hid. }
  assert (Hval : validate (memory_storage (messages st')) mid = Valid cid content).
  { rewrite Hst. unfold validate.
    cbn [memory_storage getMessage storage_getRecentMessages].
    destruct Hget as (m & -> & ->).
    unfold memory_getRecentMessages, t2. rewrite !table_get_push_same, <- app_assoc.
    cbn [app].
    destruct (slice_last_two_more (table_get (messages st) cid) u a) as (older & ->).
    rewrite map_app, rev_app_distr. reflexivity. }
  split; [exists (msg_id u); now rewrite Hpost|]. split; [exact Hval|].
  rewrite stream_endpoint_trace. subst routes req. cbn [storage aiService messageId contextParam].
  fold st'. now rewrite Hval.
Qed.

(** X10. On the in-memory storage [GET /history/:conversationId] always
    answers 200 with the last 50 messages of the conversation, oldest
    first, all of them when there are fewer; for a conversation that does
    not exist the answer is 200 with an empty list, not 404. *)
Theorem history_route_window
    (env : nat -> Reading) (cid : string) (st : MemoryStore) :
  get_history (memory_ops env) cid st
  = ({| reply_status := 200;
        reply_body :=
          HistoryBody
            (map (fun m => {| entry_role := msg_role m; entry_content := msg_content m |})
                 (skipn (length (table_get (messages st) cid) - 50)
                        (table_get (messages st) cid))) |}, st) /\
  ((forall k msgs, In (k, msgs) (messages st) -> k <> cid) ->
   fst (get_history (memory_ops env) cid st)
   = {| reply_status := 200; reply_body := HistoryBody [] |}).
Proof.
  split; [reflexivity|].
  intros Hunknown. unfold get_history.
  cbn [memory_ops recentMessages fst].
  assert (Hempty : table_get (messages st) cid = []).
  { induction (messages st) as [|[k msgs] t IH]; [reflexivity|]. cbn [table_get].
    destruct (String.eqb_spec k cid) as [Heq|_].
    - exfalso. exact (Hunknown k msgs (or_introl eq_refl) Heq).
    - apply IH. intros k' msgs' Hin. apply (Hunknown k' msgs'). now right. }
  unfold memory_getRecentMessages. now rewrite Hempty.
Qed.

End SubmitThenStream.

(* ================================================================== *)
(** ** Further properties: the service and the stream endpoint *)
(* ================================================================== *)

Section ServiceProperties.
Context {rt : JsRuntime}.

(** X11. The constructor configures the service exactly when an API key is
    given that is neither empty nor the placeholder; the client exists
    exactly when the service is configured, so the two halves of the test
    for mock mode agree; [GET /status] reports that flag, and reports
    retrieval as unavailable when the routes have no retrieval service. *)
Theorem constructor_configuration
    (new_client : string -> OpenAI) (config : AIServiceConfig)
    (history : option ConversationHistory) :
  let svc := AIService_new new_client config history in
  (isOpenAIConfigured svc = true <->
   exists k, openaiApiKey config = Some k /\ k <> "" /\ k <> "sk-your-api-key-here") /\
  (isConfigured svc = true <-> openai svc <> None) /\
  unconfigured svc = negb (isOpenAIConfigured svc) /\
  get_status svc None
  = {| reply_status := 200;
       reply_body := StatusBody (isOpenAIConfigured svc) false |}.
Proof.
  intros svc. subst svc. unfold isOpenAIConfigured, unconfigured, AIService_new.
  cbn [isConfigured openai].
  destruct (openaiApiKey config) as [k|]; cbn [option_map].
  - destruct (String.eqb_spec k "") as [->|Hk1]; cbn [orb negb].
    + repeat split; try discriminate; try reflexivity.
      * intros (k & Hk & Hne & _). injection Hk as <-. contradiction.
      * intros H. contradiction.
    + destruct (String.eqb_spec k "sk-your-api-key-here") as [->|Hk2]; cbn [negb].
      * repeat split; try discriminate; try reflexivity.
        -- intros (k & Hk & _ & Hne). injection Hk as <-. contradiction.
        -- intros H. contradiction.
      * repeat split; try discriminate; try reflexivity.
        exists k. repeat split; assumption.
  - repeat split; try discriminate; try reflexivity.
    + intros (k & Hk & _). discriminate.
    + intros H. contradiction.
Qed.

(** X12. [updateSystemPrompt] takes effect on the next prompt and changes
    nothing else: the first segment becomes a system segment with the new
    text, the segments after it and the citations are those assembled
    before the update, and a failure of the history collaborator is passed
    on as before. *)
Theorem updated_prompt_replaces_persona
    (svc : AIService) (systemPrompt cid : string)
    (pc : option (PageContext any)) (um : option string) :
  match buildContext svc cid pc um with
  | Resolved (msgs, srcs) =>
      buildContext (updateSystemPrompt systemPrompt svc) cid pc um
      = Resolved ({| role := system; content := systemPrompt |} :: tl msgs, srcs) /\
      hd_error msgs = Some {| role := system; content := cfg_systemPrompt svc |}
  | Rejected e =>
      buildContext (updateSystemPrompt systemPrompt svc) cid pc um = Rejected e
  end.
Proof.
  unfold buildContext, rag_segments.
  cbn [updateSystemPrompt cfg_systemPrompt cfg_enableRAG cfg_ragService
       conversationHistory].
  destruct (truthy um && cfg_enableRAG svc);
    destruct (cfg_ragService svc) as [rag|];
    try destruct (retrieveRelevantDocuments rag (interpolate um) 3 0.6%float)
      as [docs|e];
    try destruct (0 <? length docs)%nat;
    destruct (conversationHistory svc) as [h|];
    try destruct (getRecentMessages h cid 10) as [history|e'];
    cbn [app tl hd_error]; try split; reflexivity.
Qed.

Lemma find_rev_some {A : Type} (f : A -> bool) (l : list A) (x : A) :
  find f (rev l) = Some x ->
  exists l1 l2, l = (l1 ++ x :: l2)%list /\ f x = true /\ find f (rev l2) = None.
Proof.
  induction l as [|y l IH] using rev_ind; [discriminate|].
  rewrite rev_app_distr. cbn [rev app find].
  destruct (f y) eqn:Hy.
  - intros H. injection H as ->. exists l, []. repeat split. exact Hy.
  - intros H. destruct (IH H) as (l1 & l2 & -> & Hx & Hn).
    exists l1, (l2 ++ [y])%list. rewrite <- app_assoc. repeat split; [exact Hx|].
    rewrite rev_app_distr. cbn [rev app find]. now rewrite Hy.
Qed.

(** What a passed validation says about the storage. *)
Lemma validate_valid (storage : ConversationStorage) (mid cid um : string) :
  validate storage mid = Valid cid um ->
  exists m recent l1 l2,
    getMessage storage mid = Resolved (Some m) /\
    msg_conversationId m = cid /\
    storage_getRecentMessages storage cid 10 = Resolved recent /\
    recent = (l1 ++ {| entry_role := "user"; entry_content := um |} :: l2)%list /\
    find (fun e => entry_role e =? "user") (rev l2) = None.
Proof.
  unfold validate.
  destruct (getMessage storage mid) as [[m|]|e]; try discriminate.
  destruct (storage_getRecentMessages storage (msg_conversationId m) 10)
    as [recent|e] eqn:Hr; try discriminate.
  destruct (find (fun e => entry_role e =? "user") (rev recent)) as [u|] eqn:Hf;
    try discriminate.
  intros H. injection H as <- <-.
  destruct (find_rev_some _ _ _ Hf) as (l1 & l2 & -> & Hu & Hn).
  apply String.eqb_eq in Hu. exists m, (l1 ++ u :: l2)%list, l1, l2.
  destruct u as [r c]. cbn in Hu. subst r. repeat split; assumption.
Qed.

(** X13. When the routes and a configured service share one storage, as in
    the Express example, a user message that is not empty is sent to the
    backend twice by the stream that answers it: the request passed to
    [chat.completions.create] carries as its messages the prompt assembled
    for it, which holds the user segment with that text among the history
    segments and once more as its last segment; the stream endpoint serves
    the run of the adapter on that message, and that run is the one the
    answer of the backend to this request determines: its fragments first
    when it resolves, its normalized error and nothing else when it
    rejects. *)
Theorem answered_message_is_sent_twice
    (config : ChatRoutesConfig) (req : Request) (cid um : string) (client : OpenAI) :
  conversationHistory (aiService config) = Some (as_history (storage config)) ->
  validate (storage config) (messageId req) = Valid cid um ->
  um <> "" ->
  isConfigured (aiService config) = true ->
  openai (aiService config) = Some client ->
  let svc := aiService config in
  let pc := Some (parse_context (contextParam req)) in
  let run := streamChatCompletion svc cid um pc in
  exists msgs srcs before between,
    buildContext svc cid pc (Some um) = Resolved (msgs, srcs) /\
    msgs = (before ++ {| role := user; content := um |} :: between
            ++ [ {| role := user; content := um |} ])%list /\
    cp_messages (create_params svc msgs) = msgs /\
    backend_call svc cid um pc
    = Some (chat_completions_create client (create_params svc msgs)) /\
    trace (stream_endpoint config req) = (sse_headers ++ stream_trace run)%list /\
    match chat_completions_create client (create_params svc msgs) with
    | Resolved stream =>
        exists rest,
          yielded run
          = (map Text (spec_nonempty_fragments (deltas stream)) ++ rest)%list
    | Rejected e =>
        yielded run = [] /\ thrown run = Some (new_Error (normalized_message e))
    end.
Proof.
  intros Hshared Hval Hne Hconf Hclient svc pc run. subst run svc.
  destruct (validate_valid _ _ _ _ Hval) as (m & recent & l1 & l2 & _ & _ & Hr & -> & _).
  pose proof (buildContext_spec (aiService config) cid pc (Some um)) as H.
  rewrite Hshared in H. cbn [as_history getRecentMessages] in H. rewrite Hr in H.
  destruct (buildContext (aiService config) cid pc (Some um)) as [[msgs srcs]|e] eqn:Hb.
  - destruct H as (history & Hm & _ & Hh). injection Hh as <-.
    assert (Hcall : backend_call (aiService config) cid um pc
                    = Some (chat_completions_create client
                              (create_params (aiService config) msgs))).
    { unfold backend_call. now rewrite Hconf, Hclient, Hb. }
    exists msgs, srcs,
      (persona_segment (aiService config) :: page_segments pc
       ++ fst (rag_segments (aiService config) (Some um)) ++ history_segments l1)%list,
      (history_segments l2).
    split; [reflexivity|]. split.
    { rewrite Hm, (current_segments_nonempty um Hne).
      unfold history_segments. rewrite flat_map_app. cbn [flat_map].
      unfold history_segment at 2. cbn [entry_role entry_content history_role String.eqb].
      cbn. rewrite <- !app_assoc. reflexivity. }
    split; [reflexivity|]. split; [exact Hcall|]. split.
    { rewrite stream_endpoint_trace, Hval. reflexivity. }
    destruct (stream_try_backend (aiService config) cid um pc _ Hcall) as [rs Htry].
    unfold streamChatCompletion.
    destruct (chat_completions_create client (create_params (aiService config) msgs))
      as [stream|e'].
    + rewrite Htry, backend_contents_spec.
      destruct (failure stream) as [e'|]; cbn [yielded].
      * exists []. now rewrite app_nil_r.
      * eexists. reflexivity.
    + rewrite Htry. cbn [yielded thrown option_map]. now split.
  - destruct H as (h & Hh & Hrej). injection Hh as <-.
    cbn [as_history getRecentMessages] in Hrej. congruence.
Qed.


End ServiceProperties.

Section AdapterProperties.
Context {rt : JsRuntime}.

(** The run of the adapter when the backend completes, with the citations
    of the context assembly. *)
Lemma stream_try_completed (svc : AIService) (cid um : string)
    (pc : option (PageContext any)) (stream : BackendStream) :
  backend_call svc cid um pc = Some (Resolved stream) ->
  failure stream = None ->
  yielded (streamChatCompletion svc cid um pc)
  = (map Text (backend_contents (deltas stream))
     ++ (if (0 <? length (backend_contents (deltas stream)))%nat
         then [] else [Text FALLBACK_MESSAGE])
     ++ (if (0 <? length (snd (rag_segments svc (Some um))))%nat
         then [Sources (snd (rag_segments svc (Some um)))] else []))%list.
Proof.
  unfold backend_call, streamChatCompletion, stream_try. cbn [yielded].
  destruct (isConfigured svc); [|discriminate].
  destruct (openai svc) as [client|]; [|discriminate].
  pose proof (buildContext_spec svc cid pc (Some um)) as Hspec.
  destruct (buildContext svc cid pc (Some um)) as [[msgs srcs]|e]; [|discriminate].
  destruct Hspec as (history & _ & -> & _).
  intros H Hf. injection H as H. rewrite H, Hf. reflexivity.
Qed.

(** X15. With retrieval enabled and a non-empty user message, when the
    collaborator resolves and the backend completes, the adapter yields one
    sources value, as its last value, exactly when at least one passage was
    retrieved; it holds one citation per passage, in the order of the
    passages, with the title, link and relevance of the passage and the
    type [knowledge-base] when the passage has none. Without a passage no
    sources value is yielded. *)
Theorem citations_follow_the_text
    (svc : AIService) (cid um : string) (pc : option (PageContext any))
    (rag : RAGService) (docs : list RetrievalResult) (stream : BackendStream) :
  um <> "" ->
  cfg_enableRAG svc = true ->
  cfg_ragService svc = Some rag ->
  retrieveRelevantDocuments rag um 3 0.6%float = Resolved docs ->
  backend_call svc cid um pc = Some (Resolved stream) ->
  failure stream = None ->
  let run := streamChatCompletion svc cid um pc in
  (docs <> [] ->
     yielded run = (map Text (texts_of (yielded run)) ++ [Sources (map rag_source docs)])%list /\
     texts_of (yielded run) <> []) /\
  (docs = [] -> existsb is_sources_item (yielded run) = false) /\
  Forall2 (fun d s =>
             source_title s = title d /\ source_href s = href d /\
             relevance s = relevanceScore d /\
             source_type s = or_default (doc_type d) "knowledge-base")
          docs (map rag_source docs).
Proof.
  intros Hne Hen Hrag Hdocs Hcall Hfail run.
  assert (Hsrcs : snd (rag_segments svc (Some um)) = map rag_source docs).
  { unfold rag_segments, truthy. cbn [interpolate].
    destruct (String.eqb_spec um ""); [contradiction|]. rewrite Hen, Hrag, Hdocs.
    cbn [negb andb]. destruct docs; reflexivity. }
  pose proof (stream_try_completed svc cid um pc stream Hcall Hfail) as Hy.
  fold run in Hy. rewrite Hsrcs, length_map in Hy.
  set (texts := (backend_contents (deltas stream)
                 ++ (if (0 <? length (backend_contents (deltas stream)))%nat
                     then [] else [FALLBACK_MESSAGE]))%list).
  assert (Htexts : (map Text (backend_contents (deltas stream))
                    ++ (if (0 <? length (backend_contents (deltas stream)))%nat
                        then [] else [Text FALLBACK_MESSAGE]))%list = map Text texts).
  { subst texts. rewrite map_app.
    destruct (0 <? length (backend_contents (deltas stream)))%nat; reflexivity. }
  rewrite app_assoc, Htexts in Hy.
  assert (Hnonempty : texts <> []).
  { subst texts. destruct (backend_contents (deltas stream)); cbn; discriminate. }
  split; [|split].
  - intros Hd. destruct docs as [|doc docs]; [contradiction|].
    cbn [length Nat.ltb Nat.leb] in Hy. rewrite Hy.
    rewrite texts_of_app, texts_of_map_Text. cbn [texts_of flat_map].
    rewrite app_nil_r. split; [reflexivity | exact Hnonempty].
  - intros ->. cbn [length Nat.ltb Nat.leb] in Hy. rewrite Hy, app_nil_r.
    clear. induction texts as [|x l IH]; cbn; [reflexivity | exact IH].
  - clear. induction docs as [|d docs IH]; cbn [map]; constructor; [|exact IH].
    repeat split.
Qed.

(** X16. When the backend fails in the middle of its stream, the records
    written on an opened channel are the chunks for the non-empty fragments
    delivered before the failure, then the error event with the normalized
    message: the text already sent stays, no apology is added when there
    was none, and no sources event is written even when passages were
    retrieved. *)
Theorem partial_text_then_error
    (config : ChatRoutesConfig) (req : Request) (cid um : string)
    (stream : BackendStream) (e : JsError) :
  validate (storage config) (messageId req) = Valid cid um ->
  backend_call (aiService config) cid um (Some (parse_context (contextParam req)))
  = Some (Resolved stream) ->
  failure stream = Some e ->
  writes (trace (stream_endpoint config req))
  = (map chunk (backend_contents (deltas stream))
     ++ [error_event (Some (normalized_message e))])%list.
Proof.
  intros Hval Hcall Hfail.
  destruct (stream_try_backend _ _ _ _ _ Hcall) as [rs Htry]. rewrite Hfail in Htry.
  rewrite stream_endpoint_trace, Hval.
  unfold stream_trace, terminal_record, streamChatCompletion. rewrite Htry.
  cbn [yielded thrown option_map new_Error message].
  rewrite flat_map_item_record, map_map. cbn [item_record].
  change (fun x : string => chunk x) with chunk.
  now rewrite writes_streamed.
Qed.


End AdapterProperties.

(* ================================================================== *)
(** ** Further properties: ChromaRAGService *)
(* ================================================================== *)

Lemma chroma_result_at_spec (results : QueryResult) (min : float) (i : nat) :
  Forall (fun d => PrimFloat.leb min (relevanceScore d) = true /\
                   title d <> "" /\ href d = None /\
                   relevanceScore d = (1 - distance_at results i)%float)
         (chroma_result_at results min i).
Proof.
  unfold chroma_result_at.
  destruct (PrimFloat.leb min (1 - distance_at results i)) eqn:Hle; constructor;
    [|constructor].
  cbn [relevanceScore title href]. repeat split; [exact Hle|].
  unfold or_default.
  destruct (meta_title _) as [s|]; [|discriminate].
  destruct (String.eqb_spec s ""); [discriminate | assumption].
Qed.

Lemma chroma_results_spec (results : QueryResult) (min : float) :
  Forall (fun d => PrimFloat.leb min (relevanceScore d) = true /\
                   title d <> "" /\ href d = None)
         (chroma_results results min) /\
  length (chroma_results results min) <= length (from_option (q_ids results) []).
Proof.
  unfold chroma_results.
  destruct (q_ids results) as [ids|]; [|split; [constructor | apply Nat.le_0_l]].
  destruct (q_documents results) as [docs|]; [|split; [constructor | apply Nat.le_0_l]].
  cbn [from_option].
  assert (H : forall l,
             Forall (fun d => PrimFloat.leb min (relevanceScore d) = true /\
                              title d <> "" /\ href d = None)
                    (flat_map (chroma_result_at results min) l) /\
             length (flat_map (chroma_result_at results min) l) <= length l).
  { induction l as [|i l [IH1 IH2]]; cbn [flat_map length];
      [split; [constructor | apply Nat.le_0_l]|].
    split.
    - apply Forall_app. split; [|exact IH1].
      eapply Forall_impl; [|apply chroma_result_at_spec].
      cbn. intros d (H1 & H2 & H3 & _). repeat split; assumption.
    - rewrite length_app.
      assert (length (chroma_result_at results min i) <= 1).
      { unfold chroma_result_at. destruct (PrimFloat.leb _ _); cbn; lia. }
      lia. }
  destruct (H (seq 0 (length ids))) as [H1 H2]. rewrite length_seq in H2.
  split; assumption.
Qed.

Lemma chroma_retrieve_resolved
    (svc : ChromaRAGService) (q : string) (nResults : nat) (min : float)
    (docs : list RetrievalResult) :
  fst (chroma_retrieve svc q nResults min) = Resolved docs ->
  Forall (fun d => PrimFloat.leb min (relevanceScore d) = true /\
                   title d <> "" /\ href d = None) docs.
Proof.
  unfold chroma_retrieve.
  destruct (chroma_initialize svc) as [[u|e] svc']; [|discriminate].
  destruct (collection svc') as [c|]; [|discriminate].
  destruct (query c q nResults) as [results|e]; cbn [fst]; intros H; injection H as <-.
  - apply chroma_results_spec.
  - constructor.
Qed.

(** X18. Every passage that [retrieveRelevantDocuments] returns clears the
    floor it was called with, has a title that is not empty ([Unknown]
    stands in for a missing or empty one) and no link. *)
Theorem retrieved_passages_clear_the_floor
    (svc : ChromaRAGService) (q : string) (nResults : nat) (min : float)
    (docs : list RetrievalResult) :
  fst (chroma_retrieve svc q nResults min) = Resolved docs ->
  Forall (fun d => PrimFloat.leb min (relevanceScore d) = true /\
                   title d <> "" /\ href d = None) docs.
Proof. apply chroma_retrieve_resolved. Qed.

Lemma chroma_initialize_spec (svc : ChromaRAGService) :
  chroma_wf svc ->
  chroma_wf (snd (chroma_initialize svc)) /\
  match fst (chroma_initialize svc) with
  | Resolved _ =>
      isInitialized (snd (chroma_initialize svc)) = true /\
      collection (snd (chroma_initialize svc)) <> None
  | Rejected e =>
      e = new_Error CONNECT_MESSAGE /\
      snd (chroma_initialize svc) = svc /\
      isInitialized svc = false /\
      (exists e1, getCollection (chromaClient svc) (collectionName svc) = Rejected e1) /\
      (exists e2, createCollection (chromaClient svc) (collectionName svc) = Rejected e2)
  end.
Proof.
  intros Hwf. unfold chroma_initialize.
  destruct (isInitialized svc) eqn:Hi.
  - cbn [fst snd]. split; [exact Hwf|]. split; [exact Hi | now apply Hwf].
  - destruct (getCollection (chromaClient svc) (collectionName svc)) as [c|e1].
    + cbn [fst snd]. split; [intros _; discriminate|]. split; [reflexivity | discriminate].
    + destruct (createCollection (chromaClient svc) (collectionName svc)) as [c|e2].
      * cbn [fst snd]. split; [intros _; discriminate|].
        split; [reflexivity | discriminate].
      * cbn [fst snd]. split; [exact Hwf|]. repeat split; eauto.
Qed.

(** X19. [retrieveRelevantDocuments] fails for one reason only: the
    service was not initialised and Chroma answered neither [getCollection]
    nor [createCollection]; the error is then the fixed connection message
    and the service is left as it was. A failure of the query itself is
    never passed on: the result is the empty list. *)
Theorem retrieval_fails_only_without_connection
    (svc : ChromaRAGService) (q : string) (nResults : nat) (min : float) :
  chroma_wf svc ->
  match fst (chroma_retrieve svc q nResults min) with
  | Rejected e =>
      e = new_Error CONNECT_MESSAGE /\
      snd (chroma_retrieve svc q nResults min) = svc /\
      isInitialized svc = false /\
      (exists e1, getCollection (chromaClient svc) (collectionName svc) = Rejected e1) /\
      (exists e2, createCollection (chromaClient svc) (collectionName svc) = Rejected e2)
  | Resolved docs =>
      forall c e',
        collection (snd (chroma_initialize svc)) = Some c ->
        query c q nResults = Rejected e' ->
        docs = []
  end.
Proof.
  intros Hwf. destruct (chroma_initialize_spec svc Hwf) as [_ Hinit].
  unfold chroma_retrieve.
  destruct (chroma_initialize svc) as [[u|e] svc']; cbn [fst snd] in *.
  - destruct Hinit as [_ Hc].
    destruct (collection svc') as [c|]; [|contradiction].
    destruct (query c q nResults) as [results|e] eqn:Hq; cbn [fst].
    + intros c' e' Hc' Hq'. injection Hc' as <-. congruence.
    + reflexivity.
  - exact Hinit.
Qed.

(** X20. A query answer that reports no distances makes every passage a
    perfect match: with identifiers and documents present, each identifier
    gives a passage of relevance 1, so all of them are returned for any
    floor up to 1. *)
Theorem missing_distances_are_perfect_matches
    (results : QueryResult) (min : float) (ids : list string)
    (docs : list (option string)) :
  q_ids results = Some ids ->
  q_documents results = Some docs ->
  q_distances results = None ->
  PrimFloat.leb min 1 = true ->
  length (chroma_results results min) = length ids /\
  Forall (fun d => relevanceScore d = 1%float) (chroma_results results min).
Proof.
  intros Hids Hdocs Hdist Hmin. unfold chroma_results. rewrite Hids, Hdocs.
  assert (Hone : forall i, exists d, chroma_result_at results min i = [d] /\
                                     relevanceScore d = 1%float).
  { intros i. unfold chroma_result_at, distance_at, row_at. rewrite Hdist.
    change (1 - 0)%float with 1%float. rewrite Hmin. eexists. split; reflexivity. }
  assert (H : forall l,
             length (flat_map (chroma_result_at results min) l) = length l /\
             Forall (fun d => relevanceScore d = 1%float)
                    (flat_map (chroma_result_at results min) l)).
  { induction l as [|i l [IH1 IH2]]; cbn [flat_map length];
      [split; [reflexivity | constructor]|].
    destruct (Hone i) as (d & -> & Hd). cbn [app length]. split.
    - now rewrite IH1.
    - constructor; assumption. }
  destruct (H (seq 0 (length ids))) as [H1 H2]. rewrite length_seq in H1.
  split; assumption.
Qed.

(** X21. [initialize] connects once: it keeps the state well formed; when
    it succeeds the service is available, and a further [initialize]
    changes nothing and does not depend on the client any more; when the
    collection cannot be fetched it is created instead; when neither
    works the state is left as it was. *)
Theorem initialize_connects_once (svc : ChromaRAGService) :
  chroma_wf svc ->
  let svc' := snd (chroma_initialize svc) in
  chroma_wf svc' /\
  (forall u, fst (chroma_initialize svc) = Resolved u ->
     chroma_isAvailable svc' = true /\
     forall client,
       chroma_initialize (with_chromaClient client svc')
       = (Resolved tt, with_chromaClient client svc')) /\
  (forall e1 c,
     isInitialized svc = false ->
     getCollection (chromaClient svc) (collectionName svc) = Rejected e1 ->
     createCollection (chromaClient svc) (collectionName svc) = Resolved c ->
     collection svc' = Some c /\ chroma_isAvailable svc' = true) /\
  (forall e, fst (chroma_initialize svc) = Rejected e ->
     svc' = svc /\ e = new_Error CONNECT_MESSAGE).
Proof.
  intros Hwf svc'. subst svc'.
  destruct (chroma_initialize_spec svc Hwf) as [Hwf' Hinit].
  split; [exact Hwf'|]. split; [|split].
  - intros u Hu. rewrite Hu in Hinit. destruct Hinit as [Hi Hc]. split.
    + unfold chroma_isAvailable. rewrite Hi.
      destruct (collection (snd (chroma_initialize svc))); [reflexivity | contradiction].
    + intros client. unfold chroma_initialize at 1.
      cbn [with_chromaClient isInitialized]. now rewrite Hi.
  - intros e1 c Hi Hg Hcr. unfold chroma_initialize, chroma_isAvailable.
    rewrite Hi, Hg, Hcr. split; reflexivity.
  - intros e He. rewrite He in Hinit. destruct Hinit as (-> & Hs & _). now split.
Qed.

Section ChromaWithService.
Context {rt : JsRuntime}.

(** X22. With a [ChromaRAGService] as retrieval collaborator, every
    citation that context assembly returns has a relevance of at least 0.6,
    a title that is not empty and no link; there is a retrieval segment
    exactly when there is a citation; and when the service cannot connect
    to Chroma the prompt is assembled without retrieval. *)
Theorem chroma_citations_clear_the_floor
    (svc : AIService) (chroma : ChromaRAGService) (cid : string)
    (pc : option (PageContext any)) (um : option string) :
  cfg_ragService svc = Some (chroma_as_rag chroma) ->
  match buildContext svc cid pc um with
  | Resolved (msgs, srcs) =>
      Forall (fun s => PrimFloat.leb 0.6 (relevance s) = true /\
                       source_title s <> "" /\ source_href s = None) srcs /\
      (srcs = [] <-> fst (rag_segments svc um) = []) /\
      (forall e, fst (chroma_retrieve chroma (interpolate um) 3 0.6%float) = Rejected e ->
                 srcs = [])
  | Rejected e =>
      exists h, conversationHistory svc = Some h /\
                getRecentMessages h cid 10 = Rejected e
  end.
Proof.
  intros Hrag. pose proof (buildContext_spec svc cid pc um) as H.
  destruct (buildContext svc cid pc um) as [[msgs srcs]|e]; [|exact H].
  destruct H as (history & _ & -> & _).
  unfold rag_segments. rewrite Hrag.
  cbn [chroma_as_rag retrieveRelevantDocuments].
  destruct (truthy um && cfg_enableRAG svc);
    [|cbn [fst snd]; repeat split; try constructor; reflexivity].
  destruct (fst (chroma_retrieve chroma (interpolate um) 3 0.6%float))
    as [docs|e] eqn:Hr; [|cbn [fst snd]; repeat split; try constructor; reflexivity].
  pose proof (chroma_retrieve_resolved _ _ _ _ _ Hr) as Hdocs.
  destruct docs as [|doc docs]; cbn [length Nat.ltb Nat.leb fst snd].
  - repeat split; try constructor; try reflexivity.
  - split; [|split].
    + apply Forall_map. eapply Forall_impl; [|exact Hdocs].
      cbn. intros d (H1 & H2 & H3). repeat split; assumption.
    + cbn [map]. split; discriminate.
    + intros e He. discriminate.
Qed.

End ChromaWithService.

(* ================================================================== *)
(** ** Runs of the examples, continued *)
(* ================================================================== *)

(** The service on the example collection, with the floor 0.6: the entry
    at distance 0.2 is returned, the one at distance 0.7 is not. *)
Example chroma_retrieval_run :
  fst (chroma_retrieve (ChromaRAGService_new example_chroma_up None) "refund" 3 0.6%float)
  = Resolved [ {| title := "Refunds"; doc_content := "Refunds take five days.";
                  relevanceScore := 0.8%float; doc_type := None; href := None |} ]
  /\ fst (chroma_retrieve (ChromaRAGService_new example_chroma_down None)
            "refund" 3 0.6%float)
     = Rejected (new_Error CONNECT_MESSAGE)
  /\ chroma_getStats (ChromaRAGService_new example_chroma_down None)
     = ((0, false), ChromaRAGService_new example_chroma_down None).
Proof. repeat split. Qed.

Lemma created_message_is_most_recent_witness :
  3 <> 0 /\
  memory_getRecentMessages
    (messages (snd (memory_createMessage example_env "conv-1" "user" "More?"
                      example_store)))
    "conv-1" 3
  = [ {| entry_role := "user"; entry_content := "Hello" |};
      {| entry_role := "assistant"; entry_content := "" |};
      {| entry_role := "user"; entry_content := "More?" |} ].
Proof.
  assert (H : 3 <> 0) by discriminate.
  split; [exact H|].
  exact (proj1 (created_message_is_most_recent example_env "conv-1" "user" "More?"
                  example_store 3 H)).
Defined.

Lemma created_message_is_found_witness :
  memory_getMessage (messages example_store) "msg-1700000000000-0.25" = None /\
  memory_getMessage
    (messages (snd (memory_createMessage example_env "conv-1" "user" "More?"
                      example_store)))
    "msg-1700000000000-0.25"
  = Some {| msg_id := "msg-1700000000000-0.25"; msg_conversationId := "conv-1";
            msg_role := "user"; msg_content := "More?" |}.
Proof.
  assert (H : memory_getMessage (messages example_store) "msg-1700000000000-0.25" = None)
    by reflexivity.
  split; [exact H|].
  exact (proj1 (proj2 (created_message_is_found example_env "conv-1" "user" "More?"
                         example_store H))).
Defined.

Lemma same_millisecond_conversations_collide_witness :
  date_now (example_frozen_env (tick example_store))
  = date_now (example_frozen_env (S (tick example_store))) /\
  fst (memory_getConversation "conv-1700000000000"
         (snd (memory_createConversation example_frozen_env "Second"
                 (snd (memory_createConversation example_frozen_env "First"
                         example_store)))))
  = Resolved (Some {| conv_id := "conv-1700000000000"; conv_title := "Second";
                      conv_createdAt := 1700000000000 |}).
Proof.
  split; [reflexivity|].
  exact (proj1 (proj2 (same_millisecond_conversations_collide example_frozen_env
                         "First" "Second" example_store eq_refl))).
Defined.

Lemma accepted_submission_stores_two_messages_witness :
  "conv-1" <> "" /\ "More?" <> "" /\
  map_get (conversations example_store) "conv-1" <> None /\
  fst (post_messages (memory_ops example_env) (Some "conv-1") (Some "More?") example_store)
  = {| reply_status := 200;
       reply_body := MessageCreated "msg-1700000000001-0.25" "msg-1700000000000-0.25"
                       "/stream/msg-1700000000001-0.25" |}.
Proof.
  assert (H1 : "conv-1" <> "") by discriminate.
  assert (H2 : "More?" <> "") by discriminate.
  assert (H3 : map_get (conversations example_store) "conv-1" <> None) by discriminate.
  split; [exact H1|]. split; [exact H2|]. split; [exact H3|].
  exact (proj1 (accepted_submission_stores_two_messages example_env "conv-1" "More?"
                  example_store H1 H2 H3)).
Defined.

Lemma failed_placeholder_keeps_user_message_witness :
  "conv-1" <> "" /\ "More?" <> "" /\
  table_get
    (messages (snd (post_messages example_failing_ops (Some "conv-1") (Some "More?")
                      example_store)))
    "conv-1"
  = (table_get example_table "conv-1"
     ++ [ {| msg_id := "msg-1700000000000-0.25"; msg_conversationId := "conv-1";
             msg_role := "user"; msg_content := "More?" |} ])%list /\
  fst (post_messages example_failing_ops (Some "conv-1") (Some "More?") example_store)
  = {| reply_status := 500; reply_body := ErrorBody "Failed to create message" |}.
Proof.
  assert (H1 : "conv-1" <> "") by discriminate.
  assert (H2 : "More?" <> "") by discriminate.
  split; [exact H1|]. split; [exact H2|].
  rewrite (failed_placeholder_keeps_user_message MemoryStore example_failing_ops
             "conv-1" "More?" example_store example_store _ _ _ _ _
             H1 H2 eq_refl eq_refl eq_refl).
  split; reflexivity.
Defined.

Lemma submitted_message_is_the_one_streamed_witness :
  "conv-1" <> "" /\ "More?" <> "" /\
  map_get (conversations example_store) "conv-1" <> None /\
  memory_getMessage (messages example_store) "msg-1700000000001-0.25" = None /\
  validate
    (memory_storage
       (messages (snd (post_messages (memory_ops example_env) (Some "conv-1")
                         (Some "More?") example_store))))
    "msg-1700000000001-0.25"
  = Valid "conv-1" "More?".
Proof.
  assert (H1 : "conv-1" <> "") by discriminate.
  assert (H2 : "More?" <> "") by discriminate.
  assert (H3 : map_get (conversations example_store) "conv-1" <> None) by discriminate.
  assert (H4 : memory_getMessage (messages example_store) "msg-1700000000001-0.25" = None)
    by reflexivity.
  split; [exact H1|]. split; [exact H2|]. split; [exact H3|]. split; [exact H4|].
  exact (proj1 (proj2 (submitted_message_is_the_one_streamed example_env "conv-1" "More?"
                         example_store example_demo_service None None H1 H2 H3 H4))).
Defined.

Lemma answered_message_is_sent_twice_witness :
  conversationHistory (aiService example_echo_routes)
  = Some (as_history (storage example_echo_routes)) /\
  validate (storage example_echo_routes) (messageId example_request)
  = Valid "conv-1" "Hello" /\
  "Hello" <> "" /\
  isConfigured (aiService example_echo_routes) = true /\
  openai (aiService example_echo_routes) = Some example_echo_client /\
  exists msgs srcs before between,
    buildContext (aiService example_echo_routes) "conv-1"
      (Some (parse_context (contextParam example_request))) (Some "Hello")
    = Resolved (msgs, srcs) /\
    msgs = (before ++ {| role := user; content := "Hello" |} :: between
            ++ [ {| role := user; content := "Hello" |} ])%list.
Proof.
  assert (H : "Hello" <> "") by discriminate.
  split; [reflexivity|]. split; [reflexivity|]. split; [exact H|].
  split; [reflexivity|]. split; [reflexivity|].
  destruct (answered_message_is_sent_twice example_echo_routes example_request
              "conv-1" "Hello" example_echo_client eq_refl eq_refl H eq_refl eq_refl)
    as (msgs & srcs & before & between & Hb & Hm & _).
  exists msgs, srcs, before, between. split; [exact Hb | exact Hm].
Defined.

(** The backend that answers with the user segments it is sent: the stream
    that answers the stored [Hello] writes [Hello] twice. *)
Example echoed_user_turns :
  writes (trace (stream_endpoint example_echo_routes example_request))
  = [chunk "Hello"; chunk "Hello"; done].
Proof. reflexivity. Qed.

(** The prompt of the example: the stored [Hello], the placeholder, and
    [Hello] again. *)
Example duplicated_user_turn :
  buildContext (example_service example_hello) "conv-1" None (Some "Hello")
  = Resolved ([ persona_segment (example_service example_hello);
                {| role := user; content := "Hello" |};
                {| role := assistant; content := "" |};
                {| role := user; content := "Hello" |} ], []).
Proof. reflexivity. Qed.

Lemma citations_follow_the_text_witness :
  "Hello" <> "" /\
  cfg_enableRAG (example_rag_service example_rag_one example_hello) = true /\
  cfg_ragService (example_rag_service example_rag_one example_hello)
  = Some example_rag_one /\
  retrieveRelevantDocuments example_rag_one "Hello" 3 0.6%float = Resolved [example_doc] /\
  backend_call (example_rag_service example_rag_one example_hello) "conv-1" "Hello" None
  = Some example_hello /\
  existsb is_sources_item
    (yielded (streamChatCompletion (example_rag_service example_rag_one example_hello)
                "conv-1" "Hello" None)) = true.
Proof.
  assert (H : "Hello" <> "") by discriminate.
  split; [exact H|]. split; [reflexivity|]. split; [reflexivity|].
  split; [reflexivity|]. split; [reflexivity|].
  destruct (citations_follow_the_text
              (example_rag_service example_rag_one example_hello) "conv-1" "Hello" None
              example_rag_one [example_doc]
              {| deltas := [Some "Hel"; None; Some ""; Some "lo"]; failure := None |}
              H eq_refl eq_refl eq_refl eq_refl eq_refl) as [Hlast _].
  destruct (Hlast ltac:(discriminate)) as [Hy _].
  rewrite Hy, existsb_app. cbn [existsb is_sources_item]. apply orb_true_r.
Defined.

Lemma partial_text_then_error_witness :
  validate (storage (example_routes (Resolved example_broken_stream) None)) "msg-2"
  = Valid "conv-1" "Hello" /\
  failure example_broken_stream = Some example_auth_error /\
  writes (trace (stream_endpoint (example_routes (Resolved example_broken_stream) None)
                   example_request))
  = [ chunk "Par"; error_event (Some AUTH_MESSAGE) ].
Proof.
  split; [reflexivity|]. split; [reflexivity|].
  exact (partial_text_then_error (example_routes (Resolved example_broken_stream) None)
           example_request "conv-1" "Hello" example_broken_stream example_auth_error
           eq_refl eq_refl eq_refl).
Defined.


Lemma retrieved_passages_clear_the_floor_witness :
  fst (chroma_retrieve (ChromaRAGService_new example_chroma_up None) "refund" 3 0.6%float)
  = Resolved [ {| title := "Refunds"; doc_content := "Refunds take five days.";
                  relevanceScore := 0.8%float; doc_type := None; href := None |} ] /\
  Forall (fun d => PrimFloat.leb 0.6 (relevanceScore d) = true /\
                   title d <> "" /\ href d = None)
    [ {| title := "Refunds"; doc_content := "Refunds take five days.";
         relevanceScore := 0.8%float; doc_type := None; href := None |} ].
Proof.
  split; [reflexivity|].
  exact (retrieved_passages_clear_the_floor
           (ChromaRAGService_new example_chroma_up None) "refund" 3 0.6%float _ eq_refl).
Defined.

Lemma retrieval_fails_only_without_connection_witness :
  chroma_wf (ChromaRAGService_new example_chroma_down None) /\
  match fst (chroma_retrieve (ChromaRAGService_new example_chroma_down None)
               "refund" 3 0.6%float) with
  | Rejected e => e = new_Error CONNECT_MESSAGE
  | Resolved _ => True
  end.
Proof.
  assert (H : chroma_wf (ChromaRAGService_new example_chroma_down None))
    by (intros Hi; discriminate Hi).
  split; [exact H|].
  pose proof (retrieval_fails_only_without_connection
                (ChromaRAGService_new example_chroma_down None) "refund" 3 0.6%float H)
    as Hr.
  destruct (fst (chroma_retrieve (ChromaRAGService_new example_chroma_down None)
                   "refund" 3 0.6%float)); [exact I | exact (proj1 Hr)].
Defined.

Lemma missing_distances_are_perfect_matches_witness :
  q_ids example_no_distances = Some ["doc-a"; "doc-b"] /\
  q_documents example_no_distances = Some [Some "A"; Some "B"] /\
  q_distances example_no_distances = None /\
  PrimFloat.leb 0.6 1 = true /\
  length (chroma_results example_no_distances 0.6%float) = 2.
Proof.
  split; [reflexivity|]. split; [reflexivity|]. split; [reflexivity|].
  split; [reflexivity|].
  exact (proj1 (missing_distances_are_perfect_matches example_no_distances 0.6%float
                  ["doc-a"; "doc-b"] [Some "A"; Some "B"]
                  eq_refl eq_refl eq_refl eq_refl)).
Defined.

Lemma initialize_connects_once_witness :
  chroma_wf (ChromaRAGService_new example_chroma_up None) /\
  chroma_wf (snd (chroma_initialize (ChromaRAGService_new example_chroma_up None))) /\
  chroma_isAvailable
    (snd (chroma_initialize (ChromaRAGService_new example_chroma_up None))) = true.
Proof.
  assert (H : chroma_wf (ChromaRAGService_new example_chroma_up None))
    by (intros Hi; discriminate Hi).
  split; [exact H|].
  destruct (initialize_connects_once (ChromaRAGService_new example_chroma_up None) H)
    as (Hwf & Hok & _).
  split; [exact Hwf|]. exact (proj1 (Hok tt eq_refl)).
Defined.

Lemma chroma_citations_clear_the_floor_witness :
  cfg_ragService
    (example_rag_service
       (chroma_as_rag (ChromaRAGService_new example_chroma_up None)) example_hello)
  = Some (chroma_as_rag (ChromaRAGService_new example_chroma_up None)) /\
  match buildContext
          (example_rag_service
             (chroma_as_rag (ChromaRAGService_new example_chroma_up None)) example_hello)
          "conv-1" None (Some "refund") with
  | Resolved (_, srcs) =>
      Forall (fun s => PrimFloat.leb 0.6 (relevance s) = true /\
                       source_title s <> "" /\ source_href s = None) srcs
  | Rejected _ => True
  end.
Proof.
  split; [reflexivity|].
  pose proof (chroma_citations_clear_the_floor
                (example_rag_service
                   (chroma_as_rag (ChromaRAGService_new example_chroma_up None))
                   example_hello)
                (ChromaRAGService_new example_chroma_up None)
                "conv-1" None (Some "refund") eq_refl) as H.
  destruct (buildContext _ _ _ _) as [[msgs srcs]|e]; [exact (proj1 H) | exact I].
Defined.

(* ================================================================== *)
(** ** Further properties: the prompt templates *)
(* ================================================================== *)

(** X23. Every template of the table is the one [getPromptTemplate]
    returns for its identifier, so no template hides another; what
    [getPromptTemplate] returns is a template of the table with the
    identifier asked for, and it returns nothing exactly when no template
    has that identifier. The recommended templates are the templates of
    the table that are flagged so. *)
Theorem templates_are_found_by_id :
  (forall t, In t getAllTemplates -> getPromptTemplate (tpl_id t) = Some t) /\
  (forall id t, getPromptTemplate id = Some t -> tpl_id t = id /\ In t getAllTemplates) /\
  (forall id, getPromptTemplate id = None <->
              forall t, In t getAllTemplates -> tpl_id t <> id) /\
  (forall t, In t getRecommendedTemplates <->
             In t getAllTemplates /\ tpl_recommended t = true).
Proof.
  split; [|split; [|split]].
  - intros t Hin. unfold getAllTemplates, PROMPT_TEMPLATES in Hin. cbn [In] in Hin.
    repeat (destruct Hin as [<-|Hin]; [reflexivity|]). contradiction.
  - intros id t H. unfold getPromptTemplate in H. apply find_some in H.
    destruct H as [Hin Hid]. apply String.eqb_eq in Hid. now split.
  - intros id. unfold getPromptTemplate, getAllTemplates. split.
    + intros H t Hin Hid. apply (find_none _ _ H) in Hin. cbn in Hin.
      rewrite Hid, String.eqb_refl in Hin. discriminate.
    + intros H. destruct (find _ PROMPT_TEMPLATES) as [t|] eqn:Hf; [|reflexivity].
      apply find_some in Hf. destruct Hf as [Hin Hid]. apply String.eqb_eq in Hid.
      now destruct (H t Hin).
  - intros t. unfold getRecommendedTemplates, getAllTemplates. apply filter_In.
Qed.

(** The service of the Express example speaks with the customer support
    prompt. *)
Example express_example_persona :
  cfg_systemPrompt
    (AIService_new (example_new_client example_hello) (express_example_config None) None)
  = tpl_systemPrompt TEMPLATE_customer_support
  /\ map tpl_id getRecommendedTemplates
     = ["customer-support"; "technical-docs"; "general-assistant"].
Proof. split; reflexivity. Qed.

(* ================================================================== *)
(** ** Further properties: the stream as the component shows it *)
(* ================================================================== *)

Section ClientProperties.
Context {rt : JsRuntime}.
Variable toLowerCase : string -> string.
Variable enableRiskDetection : bool.
Variable clock : nat -> Z.

Import AIAssistant.

Local Abbreviation handler := (onmessage toLowerCase enableRiskDetection).
Local Abbreviation run := (deliver toLowerCase enableRiskDetection).
Local Abbreviation detect := (detectRiskLevel toLowerCase enableRiskDetection).
Local Abbreviation badge_current := (AIAssistant.badge_current toLowerCase enableRiskDetection).

(** The records the client receives when it stays to the end. *)
Lemma received_stream (config : ChatRoutesConfig) (req : Request) (cid um : string) :
  disconnectAfter config = None ->
  validate (storage config) (messageId req) = Valid cid um ->
  received (stream_endpoint config req)
  = (map item_record
       (yielded (streamChatCompletion (aiService config) cid um
                   (Some (parse_context (contextParam req)))))
     ++ [terminal_record
           (streamChatCompletion (aiService config) cid um
              (Some (parse_context (contextParam req))))])%list.
Proof.
  intros Hd Hv.
  destruct (stream_endpoint_consistent config req) as [Hc _].
  unfold client_consistent in Hc. rewrite Hd in Hc.
  destruct (closedAt (stream_endpoint config req)) as [k|].
  - destruct Hc as (_ & _ & Hn). discriminate.
  - rewrite Hc, stream_endpoint_trace, Hv. unfold stream_trace.
    rewrite flat_map_item_record. apply writes_streamed.
Qed.

Lemma arrivals_app (k : nat) (a b : list WireRecord) :
  arrivals clock k (a ++ b)
  = (arrivals clock k a ++ arrivals clock (k + length a) b)%list.
Proof.
  revert k. induction a as [|r a IH]; intros k; cbn [arrivals app length].
  - now rewrite Nat.add_0_r.
  - rewrite IH. now rewrite Nat.add_succ_comm.
Qed.

Lemma lastMessage_last (l : list Message) (m : Message) :
  lastMessage (l ++ [m]) = Some m.
Proof. unfold lastMessage. now rewrite rev_unit. Qed.

(** What a chunk or a sources event leaves alone, and the text gathered. *)
Lemma deliver_items (ys : list StreamItem) :
  forall (k : nat) (st : Chat),
    closed st = false ->
    let st' := run (arrivals clock k (map item_record ys)) st in
    closed st' = false /\ isTyping st' = isTyping st /\ error st' = error st /\
    m_id (assistantMessage st') = m_id (assistantMessage st) /\
    m_role (assistantMessage st') = m_role (assistantMessage st) /\
    m_timestamp (assistantMessage st') = m_timestamp (assistantMessage st) /\
    m_content (assistantMessage st')
    = m_content (assistantMessage st) ++ concat_all (texts_of ys).
Proof.
  induction ys as [|i ys IH]; intros k st Hc; cbn zeta.
  - cbn. rewrite string_append_nil_r. repeat split; assumption || reflexivity.
  - cbn [map arrivals deliver fold_left fst snd].
    match goal with
    | |- context [fold_left _ _ ?s] => set (st1 := s)
    end.
    assert (H1 : closed st1 = false /\ isTyping st1 = isTyping st /\
                 error st1 = error st /\
                 m_id (assistantMessage st1) = m_id (assistantMessage st) /\
                 m_role (assistantMessage st1) = m_role (assistantMessage st) /\
                 m_timestamp (assistantMessage st1) = m_timestamp (assistantMessage st) /\
                 m_content (assistantMessage st1)
                 = m_content (assistantMessage st) ++ concat_all (texts_of [i])).
    { subst st1. unfold onmessage. rewrite Hc.
      destruct i as [s|srcs]; cbn -[detectRiskLevel].
      - rewrite string_append_nil_r.
        destruct (is_none _); cbn; repeat split; assumption || reflexivity.
      - rewrite string_append_nil_r. repeat split; assumption || reflexivity. }
    destruct H1 as (Hc1 & Ht1 & He1 & Hi1 & Hr1 & Hs1 & Hx1).
    destruct (IH (S k) st1 Hc1) as (Hc2 & Ht2 & He2 & Hi2 & Hr2 & Hs2 & Hx2).
    fold (run (arrivals clock (S k) (map item_record ys)) st1).
    rewrite Hc2, Ht2, He2, Hi2, Hr2, Hs2, Hx2, Ht1, He1, Hi1, Hr1, Hs1, Hx1.
    repeat split; try reflexivity.
    change (i :: ys) with ([i] ++ ys)%list.
    rewrite texts_of_app, concat_all_app. now rewrite string_append_assoc.
Qed.

(** One event of a yielded item. *)
Lemma handler_item (now : Z) (i : StreamItem) (st : Chat) :
  closed st = false ->
  let st1 := handler now (parsed (item_record i)) st in
  closed st1 = false /\
  m_id (assistantMessage st1) = m_id (assistantMessage st) /\
  m_role (assistantMessage st1) = m_role (assistantMessage st) /\
  messages st1
  = if is_current (lastMessage (messages st)) (assistantMessage st)
    then replace_last (messages st) (assistantMessage st1)
    else match i with
         | Text _ => (messages st ++ [set_timestamp (assistantMessage st1) now])%list
         | Sources _ => messages st
         end.
Proof.
  intros Hc. unfold onmessage. rewrite Hc.
  destruct i as [s|srcs]; cbn -[detectRiskLevel is_current lastMessage].
  - destruct (is_none _); repeat split; try assumption; reflexivity.
  - repeat split; try assumption; reflexivity.
Qed.

Lemma is_current_last (l : list Message) (m a : Message) :
  m_role a = assistant -> m_role m = m_role a -> m_id m = m_id a ->
  is_current (lastMessage (l ++ [m])) a = true.
Proof.
  intros Ha Hr Hi. rewrite lastMessage_last. unfold is_current.
  rewrite Hr, Ha, Hi. apply String.eqb_refl.
Qed.

(** Once the message of the answer is the last one shown, every further
    item replaces it by a copy of the object of the closure. *)
Lemma messages_current (ys : list StreamItem) :
  forall (k : nat) (st : Chat),
    closed st = false ->
    m_role (assistantMessage st) = assistant ->
    is_current (lastMessage (messages st)) (assistantMessage st) = true ->
    ys <> [] ->
    let st' := run (arrivals clock k (map item_record ys)) st in
    messages st' = (removelast (messages st) ++ [assistantMessage st'])%list.
Proof.
  induction ys as [|i ys IH]; intros k st Hc Hr Hcur Hne; [contradiction|].
  cbn zeta. cbn [map arrivals deliver fold_left fst snd].
  destruct (handler_item (clock k) i st Hc) as (Hc1 & Hi1 & Hr1 & Hm1).
  cbv zeta in Hc1, Hi1, Hr1, Hm1.
  set (st1 := handler (clock k) (parsed (item_record i)) st) in *.
  rewrite Hcur in Hm1. unfold replace_last in Hm1.
  fold (run (arrivals clock (S k) (map item_record ys)) st1).
  destruct ys as [|j ys].
  - cbn. exact Hm1.
  - assert (Hcur1 : is_current (lastMessage (messages st1)) (assistantMessage st1) = true).
    { rewrite Hm1. apply is_current_last; [congruence | reflexivity | reflexivity]. }
    rewrite (IH (S k) st1 Hc1 (eq_trans Hr1 Hr) Hcur1 ltac:(discriminate)).
    rewrite Hm1, removelast_last. reflexivity.
Qed.

(** While no chunk has arrived, nothing is shown for the answer. *)
Lemma messages_sources_only (ys : list StreamItem) :
  forall (k : nat) (st : Chat),
    closed st = false ->
    is_current (lastMessage (messages st)) (assistantMessage st) = false ->
    texts_of ys = [] ->
    messages (run (arrivals clock k (map item_record ys)) st) = messages st.
Proof.
  induction ys as [|i ys IH]; intros k st Hc Hcur Ht; [reflexivity|].
  destruct i as [s|srcs]; [discriminate|].
  cbn [map arrivals deliver fold_left fst snd].
  destruct (handler_item (clock k) (Sources srcs) st Hc) as (Hc1 & Hi1 & Hr1 & Hm1).
  cbv zeta in Hc1, Hi1, Hr1, Hm1.
  set (st1 := handler (clock k) (parsed (item_record (Sources srcs))) st) in *.
  rewrite Hcur in Hm1.
  fold (run (arrivals clock (S k) (map item_record ys)) st1).
  rewrite (IH (S k) st1 Hc1); [exact Hm1 | | exact Ht].
  rewrite Hm1. unfold is_current in *. rewrite Hi1. exact Hcur.
Qed.

(** The first chunk appends the message of the answer, with the time of
    its arrival; any further item replaces it by a copy without. *)
Lemma messages_first_chunk (c : string) (rest : list StreamItem) (k : nat) (st : Chat) :
  closed st = false ->
  m_role (assistantMessage st) = assistant ->
  is_current (lastMessage (messages st)) (assistantMessage st) = false ->
  let st' := run (arrivals clock k (map item_record (Text c :: rest))) st in
  messages st'
  = (messages st ++
     [match rest with
      | [] => set_timestamp (assistantMessage st') (clock k)
      | _ :: _ => assistantMessage st'
      end])%list.
Proof.
  intros Hc Hr Hcur. cbn zeta. cbn [map arrivals deliver fold_left fst snd].
  destruct (handler_item (clock k) (Text c) st Hc) as (Hc1 & Hi1 & Hr1 & Hm1).
  cbv zeta in Hc1, Hi1, Hr1, Hm1.
  set (st1 := handler (clock k) (parsed (item_record (Text c))) st) in *.
  rewrite Hcur in Hm1.
  fold (run (arrivals clock (S k) (map item_record rest)) st1).
  destruct rest as [|j rest].
  - cbn. exact Hm1.
  - assert (Hcur1 : is_current (lastMessage (messages st1)) (assistantMessage st1) = true).
    { rewrite Hm1. apply is_current_last; [congruence | reflexivity | reflexivity]. }
    rewrite (messages_current (j :: rest) (S k) st1 Hc1 (eq_trans Hr1 Hr) Hcur1
               ltac:(discriminate)).
    rewrite Hm1, removelast_last. reflexivity.
Qed.

(** The terminal event. *)
Lemma handler_terminal (now : Z) (stream : Generator) (st : Chat) :
  closed st = false ->
  handler now (parsed (terminal_record stream)) st
  = {| assistantMessage := assistantMessage st;
       messages := messages st;
       isTyping := false;
       error := match thrown stream with
                | Some e => Some (or_default (message e) "An error occurred")
                | None => error st
                end;
       closed := true |}.
Proof.
  intros Hc. unfold onmessage, terminal_record. rewrite Hc.
  destruct (thrown stream); reflexivity.
Qed.

(** A whole stream, from the state in which the event source is opened. *)
Lemma run_stream (stream : Generator) (st : Chat) :
  closed st = false ->
  let st' := run (arrivals clock 0 (map item_record (yielded stream))) st in
  run (arrivals clock 0
         (map item_record (yielded stream) ++ [terminal_record stream])) st
  = {| assistantMessage := assistantMessage st';
       messages := messages st';
       isTyping := false;
       error := match thrown stream with
                | Some e => Some (or_default (message e) "An error occurred")
                | None => error st
                end;
       closed := true |}.
Proof.
  intros Hc st'. rewrite arrivals_app. unfold deliver. rewrite fold_left_app.
  fold (run (arrivals clock 0 (map item_record (yielded stream))) st). fold st'.
  destruct (deliver_items (yielded stream) 0 st Hc) as (Hc' & _ & He & _).
  fold st' in Hc', He. cbn [arrivals fold_left fst snd].
  rewrite (handler_terminal _ stream st' Hc'), He. reflexivity.
Qed.

Lemma risk_items (ys : list StreamItem) :
  forall (k : nat) (st : Chat),
    closed st = false ->
    let st' := run (arrivals clock k (map item_record ys)) st in
    (badge_current (assistantMessage st) \/ texts_of ys <> [] ->
     badge_current (assistantMessage st')) /\
    (enableRiskDetection = false ->
     m_riskLevel (assistantMessage st') = m_riskLevel (assistantMessage st)) /\
    (m_riskLevel (assistantMessage st) <> None ->
     m_riskLevel (assistantMessage st') <> None).
Proof.
  induction ys as [|i ys IH]; intros k st Hc; cbn zeta.
  - cbn. repeat split; tauto.
  - cbn [map arrivals deliver fold_left fst snd].
    destruct (handler_item (clock k) i st Hc) as (Hc1 & _).
    cbv zeta in Hc1.
    set (st1 := handler (clock k) (parsed (item_record i)) st) in *.
    fold (run (arrivals clock (S k) (map item_record ys)) st1).
    destruct (IH (S k) st1 Hc1) as (Hb & Hoff & Hkeep). cbv zeta in Hb, Hoff, Hkeep.
    assert (H1 : (badge_current (assistantMessage st) \/ texts_of [i] <> [] ->
                  badge_current (assistantMessage st1)) /\
                 (enableRiskDetection = false ->
                  m_riskLevel (assistantMessage st1) = m_riskLevel (assistantMessage st)) /\
                 (m_riskLevel (assistantMessage st) <> None ->
                  m_riskLevel (assistantMessage st1) <> None)).
    { subst st1. unfold onmessage, badge_current. rewrite Hc.
      destruct i as [s|srcs]; cbn -[detectRiskLevel].
      - destruct (detect (m_content (assistantMessage st) ++ s)) eqn:Hd;
          cbn -[detectRiskLevel]; rewrite ?Hd;
          repeat split; intros; try reflexivity; try congruence;
          unfold detectRiskLevel in Hd;
          match goal with
          | H : enableRiskDetection = false |- _ => rewrite H in Hd; discriminate Hd
          end.
      - repeat split; intros; try reflexivity; try assumption.
        match goal with
        | H : _ \/ _ |- _ => destruct H as [H|H]; [auto | contradiction]
        end. }
    destruct H1 as (Hb1 & Hoff1 & Hkeep1).
    repeat split.
    + intros [H|H].
      * apply Hb. left. apply Hb1. now left.
      * destruct i as [s|srcs].
        -- apply Hb. left. apply Hb1. right. discriminate.
        -- apply Hb. right. exact H.
    + intros Hoff0. now rewrite (Hoff Hoff0), (Hoff1 Hoff0).
    + intros H. apply Hkeep, Hkeep1, H.
Qed.

Lemma opened_not_current (prev : list Message) (id messageText : string)
    (files : list Attachment) (assistantId : string) :
  let st := opened prev (userMessage id messageText files) assistantId in
  is_current (lastMessage (messages st)) (assistantMessage st) = false.
Proof. cbn zeta. cbn [opened messages]. now rewrite lastMessage_last. Qed.

(** What is shown for an answer that starts with a chunk. *)
Lemma shown_answer (stream : Generator) (c : string) (rest : list StreamItem)
    (prev : list Message) (id messageText : string) (files : list Attachment)
    (assistantId : string) :
  yielded stream = Text c :: rest ->
  let sent := userMessage id messageText files in
  let st := run (arrivals clock 0
                   (map item_record (yielded stream) ++ [terminal_record stream]))
                (opened prev sent assistantId) in
  exists m,
    messages st = (prev ++ [sent; m])%list /\
    m_id m = assistantId /\ m_role m = assistant /\
    m_content m = concat_all (texts_of (yielded stream)) /\
    m_timestamp m = match rest with [] => Some (clock 0) | _ :: _ => None end /\
    badge_current m /\
    (enableRiskDetection = false -> m_riskLevel m = None).
Proof.
  intros Hy sent st. subst st. rewrite run_stream by reflexivity.
  cbn [messages]. rewrite Hy.
  set (st0 := opened prev sent assistantId).
  pose proof (opened_not_current prev id messageText files assistantId) as Hcur.
  cbv zeta in Hcur. fold sent in Hcur. fold st0 in Hcur.
  rewrite (messages_first_chunk c rest 0 st0 eq_refl eq_refl Hcur).
  destruct (deliver_items (Text c :: rest) 0 st0 eq_refl)
    as (_ & _ & _ & Hi & Hr & Hs & Hx).
  destruct (risk_items (Text c :: rest) 0 st0 eq_refl) as (Hb & Hoff & _).
  cbv zeta in Hi, Hr, Hs, Hx, Hb, Hoff.
  set (a := assistantMessage (run (arrivals clock 0 (map item_record (Text c :: rest))) st0))
    in *.
  assert (Hbadge : badge_current a) by (apply Hb; right; discriminate).
  exists (match rest with [] => set_timestamp a (clock 0) | _ :: _ => a end).
  split; [unfold st0; cbn [opened messages]; now rewrite <- app_assoc|].
  destruct rest as [|j rest]; cbn [set_timestamp m_id m_role m_content m_timestamp];
    (split; [exact Hi|]); (split; [exact Hr|]); (split; [exact Hx|]);
    (split; [first [reflexivity | exact Hs]|]); (split; [exact Hbadge|]);
    intros Hoff0; cbn [m_riskLevel set_timestamp]; rewrite (Hoff Hoff0); reflexivity.
Qed.

(** X24. Server and component compose: when the stream endpoint accepts
    the request and the client stays to the end, the handler of the
    component, run on the records received and started from the state in
    which the event source is opened, ends with the typing indicator off
    and the event source closed; the error shown is the message of the
    error the adapter threw, if it threw; and the conversation shown is the
    one before with the message sent and, when the adapter yielded text,
    one message of the assistant whose content is the concatenation of the
    fragments yielded, in order. Without text no message is added. *)
Theorem streamed_answer_is_shown
    (config : ChatRoutesConfig) (req : Request) (cid um : string)
    (prev : list Message) (id messageText : string) (files : list Attachment)
    (assistantId : string) :
  disconnectAfter config = None ->
  validate (storage config) (messageId req) = Valid cid um ->
  let stream := streamChatCompletion (aiService config) cid um
                  (Some (parse_context (contextParam req))) in
  let sent := userMessage id messageText files in
  let st := run (arrivals clock 0 (received (stream_endpoint config req)))
                (opened prev sent assistantId) in
  isTyping st = false /\ closed st = true /\
  error st = option_map (fun e => or_default (message e) "An error occurred")
               (thrown stream) /\
  (texts_of (yielded stream) = [] -> messages st = (prev ++ [sent])%list) /\
  (texts_of (yielded stream) <> [] ->
   exists m,
     messages st = (prev ++ [sent; m])%list /\
     m_id m = assistantId /\ m_role m = assistant /\
     m_content m = concat_all (texts_of (yielded stream))).
Proof.
  intros Hd Hv stream sent st. subst st.
  rewrite (received_stream config req cid um Hd Hv). fold stream.
  split; [|split; [|split; [|split]]].
  - rewrite run_stream by reflexivity. reflexivity.
  - rewrite run_stream by reflexivity. reflexivity.
  - rewrite run_stream by reflexivity. cbn [error opened].
    destruct (thrown stream); reflexivity.
  - intros Ht. rewrite run_stream by reflexivity. cbn [messages].
    rewrite messages_sources_only; [reflexivity | reflexivity | | exact Ht].
    apply opened_not_current.
  - intros Ht.
    destruct (adapter_shape (aiService config) cid um
                (Some (parse_context (contextParam req)))) as (cs & ss & Hy & Hss).
    fold stream in Hy, Hss.
    destruct cs as [|c cs].
    + exfalso. apply Ht. rewrite Hy.
      destruct Hss as [->|(s & -> & _)]; reflexivity.
    + destruct (shown_answer stream c (map Text cs ++ ss) prev id messageText files
                  assistantId Hy) as (m & Hm & Hi & Hr & Hx & _).
      exists m. repeat split; assumption.
Qed.

(** X25. The message of the assistant is shown with a timestamp only
    while it has been written once: the first chunk appends it with the
    time of its arrival, and every later chunk or sources event replaces it
    by a copy of the object of the closure, which has none. So at the end
    of a stream that starts with a chunk the message carries the time of
    the first event when that chunk was the only item, and no timestamp
    otherwise. *)
Theorem streamed_answer_timestamp
    (config : ChatRoutesConfig) (req : Request) (cid um : string)
    (prev : list Message) (id messageText : string) (files : list Attachment)
    (assistantId : string) (c : string) (rest : list StreamItem) :
  disconnectAfter config = None ->
  validate (storage config) (messageId req) = Valid cid um ->
  yielded (streamChatCompletion (aiService config) cid um
             (Some (parse_context (contextParam req)))) = Text c :: rest ->
  let st := run (arrivals clock 0 (received (stream_endpoint config req)))
                (opened prev (userMessage id messageText files) assistantId) in
  exists m,
    lastMessage (messages st) = Some m /\ m_role m = assistant /\
    m_timestamp m = match rest with [] => Some (clock 0) | _ :: _ => None end.
Proof.
  intros Hd Hv Hy st. subst st.
  rewrite (received_stream config req cid um Hd Hv).
  destruct (shown_answer _ c rest prev id messageText files assistantId Hy)
    as (m & Hm & _ & Hr & _ & Hs & _).
  exists m. rewrite Hm.
  change (prev ++ [userMessage id messageText files; m])%list
    with (prev ++ [userMessage id messageText files] ++ [m])%list.
  rewrite app_assoc, lastMessage_last. repeat split; assumption.
Qed.

(** X26. The risk level shown with the answer: at the end of a stream
    that starts with a chunk, whenever a level is detected on the complete
    text of the answer, that level is the one shown; and when risk
    detection is off, which is the default, none is shown. *)
Theorem risk_badge_follows_answer
    (config : ChatRoutesConfig) (req : Request) (cid um : string)
    (prev : list Message) (id messageText : string) (files : list Attachment)
    (assistantId : string) (c : string) (rest : list StreamItem) :
  disconnectAfter config = None ->
  validate (storage config) (messageId req) = Valid cid um ->
  yielded (streamChatCompletion (aiService config) cid um
             (Some (parse_context (contextParam req)))) = Text c :: rest ->
  let st := run (arrivals clock 0 (received (stream_endpoint config req)))
                (opened prev (userMessage id messageText files) assistantId) in
  exists m,
    lastMessage (messages st) = Some m /\
    (detect (m_content m) <> none -> m_riskLevel m = Some (detect (m_content m))) /\
    (enableRiskDetection = false -> m_riskLevel m = None).
Proof.
  intros Hd Hv Hy st. subst st.
  rewrite (received_stream config req cid um Hd Hv).
  destruct (shown_answer _ c rest prev id messageText files assistantId Hy)
    as (m & Hm & _ & _ & _ & _ & Hb & Hoff).
  exists m. rewrite Hm.
  change (prev ++ [userMessage id messageText files; m])%list
    with (prev ++ [userMessage id messageText files] ++ [m])%list.
  rewrite app_assoc, lastMessage_last. repeat split; assumption.
Qed.

End ClientProperties.

Lemma streamed_answer_is_shown_witness :
  disconnectAfter (example_routes example_hello None) = None /\
  validate (storage (example_routes example_hello None)) (messageId example_request)
  = Valid "conv-1" "Hello" /\
  AIAssistant.isTyping
    (AIAssistant.deliver (fun s => s) false
       (AIAssistant.arrivals Z.of_nat 0
          (received (stream_endpoint (example_routes example_hello None) example_request)))
       (AIAssistant.opened [] (AIAssistant.userMessage "17" "Hi" []) "18"))
  = false.
Proof.
  split; [reflexivity|]. split; [reflexivity|].
  exact (proj1 (streamed_answer_is_shown (fun s => s) false Z.of_nat
                  (example_routes example_hello None) example_request
                  "conv-1" "Hello" [] "17" "Hi" [] "18" eq_refl eq_refl)).
Defined.

Lemma streamed_answer_timestamp_witness :
  disconnectAfter (example_routes example_hello None) = None /\
  validate (storage (example_routes example_hello None)) (messageId example_request)
  = Valid "conv-1" "Hello" /\
  yielded (streamChatCompletion (aiService (example_routes example_hello None))
             "conv-1" "Hello" (Some (parse_context (contextParam example_request))))
  = [Text "Hel"; Text "lo"] /\
  exists m,
    AIAssistant.lastMessage
      (AIAssistant.messages
         (AIAssistant.deliver (fun s => s) false
            (AIAssistant.arrivals Z.of_nat 0
               (received (stream_endpoint (example_routes example_hello None)
                            example_request)))
            (AIAssistant.opened [] (AIAssistant.userMessage "17" "Hi" []) "18")))
    = Some m /\
    AIAssistant.m_role m = assistant /\
    AIAssistant.m_timestamp m = None.
Proof.
  split; [reflexivity|]. split; [reflexivity|]. split; [reflexivity|].
  exact (streamed_answer_timestamp (fun s => s) false Z.of_nat
           (example_routes example_hello None) example_request
           "conv-1" "Hello" [] "17" "Hi" [] "18" "Hel" [Text "lo"]
           eq_refl eq_refl eq_refl).
Defined.

Lemma risk_badge_follows_answer_witness :
  disconnectAfter (example_routes example_hello None) = None /\
  validate (storage (example_routes example_hello None)) (messageId example_request)
  = Valid "conv-1" "Hello" /\
  yielded (streamChatCompletion (aiService (example_routes example_hello None))
             "conv-1" "Hello" (Some (parse_context (contextParam example_request))))
  = [Text "Hel"; Text "lo"] /\
  exists m,
    AIAssistant.lastMessage
      (AIAssistant.messages
         (AIAssistant.deliver (fun s => s) true
            (AIAssistant.arrivals Z.of_nat 0
               (received (stream_endpoint (example_routes example_hello None)
                            example_request)))
            (AIAssistant.opened [] (AIAssistant.userMessage "17" "Hi" []) "18")))
    = Some m.
Proof.
  split; [reflexivity|]. split; [reflexivity|]. split; [reflexivity|].
  destruct (risk_badge_follows_answer (fun s => s) true Z.of_nat
              (example_routes example_hello None) example_request
              "conv-1" "Hello" [] "17" "Hi" [] "18" "Hel" [Text "lo"]
              eq_refl eq_refl eq_refl) as (m & Hm & _).
  exists m. exact Hm.
Defined.

(** A stream of one chunk keeps the time of its arrival; a second chunk
    with a keyword of high risk sets the level and drops the time; what
    comes after the terminal event is not handled. *)
Example handler_run :
  let start := AIAssistant.opened [] (AIAssistant.userMessage "17" "Hi" []) "18" in
  map AIAssistant.m_timestamp
    (AIAssistant.messages
       (AIAssistant.deliver (fun s => s) true
          (AIAssistant.arrivals Z.of_nat 5 [chunk "all good"; done]) start))
  = [None; Some 5%Z]
  /\ map (fun m => (AIAssistant.m_content m, AIAssistant.m_riskLevel m,
                   AIAssistant.m_timestamp m))
       (AIAssistant.messages
          (AIAssistant.deliver (fun s => s) true
             (AIAssistant.arrivals Z.of_nat 5
                [chunk "all good"; chunk ", but urgent"; error_event None; chunk "x"])
             start))
     = [("Hi", None, None);
        ("all good, but urgent", Some AIAssistant.high, None)]
  /\ AIAssistant.error
       (AIAssistant.deliver (fun s => s) true
          (AIAssistant.arrivals Z.of_nat 5
             [chunk "all good"; chunk ", but urgent"; error_event None; chunk "x"])
          start)
     = Some "An error occurred".
Proof. repeat split. Qed.

(* ================================================================== *)
(** ** Further properties: the statistics of the Chroma service *)
(* ================================================================== *)

(** X27. [getStats] connects like [initialize] and hides every failure
    behind the answer of a service that is not initialised with no
    document: when it reports the service as initialised, the service is
    available and the count is the one the collection gave; when the
    connection fails, or when the collection does not answer [count], it
    reports no document and not initialised, in the second case about a
    service that is available. *)
Theorem stats_hide_failures (svc : ChromaRAGService) :
  chroma_wf svc ->
  let stats := fst (chroma_getStats svc) in
  let svc' := snd (chroma_getStats svc) in
  svc' = snd (chroma_initialize svc) /\
  (snd stats = true ->
   chroma_isAvailable svc' = true /\
   exists c, collection svc' = Some c /\ count c = Resolved (fst stats)) /\
  (snd stats = false -> fst stats = 0) /\
  (forall e, fst (chroma_initialize svc) = Rejected e -> stats = (0, false)) /\
  (forall u c e,
     fst (chroma_initialize svc) = Resolved u ->
     collection svc' = Some c -> count c = Rejected e ->
     stats = (0, false) /\ chroma_isAvailable svc' = true).
Proof.
  intros Hwf stats svc'. subst stats svc'.
  destruct (chroma_initialize_spec svc Hwf) as (Hwf' & Hspec).
  unfold chroma_getStats, chroma_isAvailable.
  destruct (chroma_initialize svc) as [[u|e0] s1]; cbn [fst snd] in *.
  - destruct Hspec as (Hi & Hc).
    destruct (collection s1) as [c|] eqn:Hcol; [|contradiction].
    destruct (count c) as [n|e1] eqn:Hn; cbn [fst snd]; rewrite ?Hcol, ?Hi.
    + split; [reflexivity|]. split.
      * intros _. split; [reflexivity|]. exists c. now split.
      * split; [intros H; discriminate H|].
        split; [intros e H; discriminate H|].
        intros u' c' e' _ Hc' He'. injection Hc' as <-. rewrite Hn in He'. discriminate He'.
    + split; [reflexivity|]. split; [intros H; discriminate H|].
      split; [reflexivity|]. split; [reflexivity|].
      intros u' c' e' _ _ _. split; reflexivity.
  - split; [reflexivity|]. split; [intros H; discriminate H|].
    split; [reflexivity|]. split; [reflexivity|].
    intros u c e H. discriminate H.
Qed.

Lemma stats_hide_failures_witness :
  chroma_wf (ChromaRAGService_new example_chroma_down None) /\
  fst (chroma_getStats (ChromaRAGService_new example_chroma_down None)) = (0, false).
Proof.
  assert (H : chroma_wf (ChromaRAGService_new example_chroma_down None))
    by (intros Hi; discriminate Hi).
  split; [exact H|].
  destruct (stats_hide_failures (ChromaRAGService_new example_chroma_down None) H)
    as (_ & _ & _ & Hdown & _).
  exact (Hdown (new_Error CONNECT_MESSAGE) eq_refl).
Defined.
